(** * WebArchive subdomain extractor: a shallow embedding of [WebArchive.py]

    The pipeline of [WebArchive.py] is embedded function by function:
    [validate_domain], [retry_on_failure], [fetch_data_with_progress],
    [extract_subdomains], [filter_subdomains] and [dns_check_domain].

    Conventions.
    - A Python [str] is a [string]; its characters are the code points
      0..255, on which the primitives of [Py] agree with CPython's. The word
      test of [filter_subdomains], which depends on [str.lower] beyond that
      range, is embedded a second time in [Wide], on lists of code points.
    - A call that may raise returns a [result]: [Ok v] or [Raise e].
    - The world outside the program (the archive server, the DNS resolver,
      the [re] engine used by [--filter], the IPv6 literal check of
      [ipaddress]) is a section variable of the function that calls it.
    - Logging and console output do not influence any returned value and
      are left out, and so are the directory and the files that the logger
      writes under [logs]. *)

From Stdlib Require Import ZArith NArith Ascii Bool Lia.
From Stdlib Require Import Sorting.Sorted.
From stdpp Require Import base tactics option list sorting strings gmap.

Local Open Scope Z_scope.

(** ** Exceptions and results *)

Inductive request_failure :=
| ConnectionError
| RequestTimeout
| HTTPError (status : Z).

Inductive dns_failure :=
| NXDOMAIN
| LifetimeTimeout
| NoNameservers
| NoAnswer.

Inductive py_exn :=
| ValueError (msg : string)
| OverflowError (msg : string)
| ReError (pattern : string)
| RequestException (f : request_failure)
| DnsException (f : dns_failure).

Inductive result (A : Type) :=
| Ok (v : A)
| Raise (e : py_exn).
Arguments Ok {A} v.
Arguments Raise {A} e.

(** A raised exception skips the rest of the block. *)
#[export] Instance result_bind : MBind result := fun A B k r =>
  match r with
  | Ok v => k v
  | Raise e => Raise e
  end.

#[export] Instance result_ret : MRet result := fun A v => Ok v.

(** ** Python string primitives *)

Module Py.

Definition code (c : ascii) : N := N_of_ascii c.

Definition between (lo hi : N) (c : ascii) : bool :=
  ((lo <=? code c) && (code c <=? hi))%N.

(** [c.isupper()]: A-Z, and the capital letters of the second half of the
    range (0xC0-0xDE without the multiplication sign 0xD7). *)
Definition isupper (c : ascii) : bool :=
  between 65 90 c || (between 192 222 c && negb (code c =? 215)%N).

(** [c.lower()]: every capital letter has its small letter 32 places up. *)
Definition lower_char (c : ascii) : ascii :=
  if isupper c then ascii_of_N (code c + 32) else c.

Fixpoint lower (s : string) : string :=
  match s with
  | EmptyString => EmptyString
  | String c s' => String (lower_char c) (lower s')
  end.

Definition is_ascii_alpha (c : ascii) : bool :=
  between 65 90 c || between 97 122 c.

Definition is_digit (c : ascii) : bool := between 48 57 c.

Definition is_alnum (c : ascii) : bool := is_ascii_alpha c || is_digit c.

(** [c.isspace()] *)
Definition isspace (c : ascii) : bool :=
  between 9 13 c || between 28 32 c || (code c =? 133)%N || (code c =? 160)%N.

(** Line boundaries of [str.splitlines]. *)
Definition is_linebreak (c : ascii) : bool :=
  between 10 13 c || between 28 30 c || (code c =? 133)%N.

Definition len (s : string) : Z := Z.of_nat (String.length s).

(** [bool(s)] *)
Definition truthy (s : string) : bool :=
  match s with
  | EmptyString => false
  | String _ _ => true
  end.

(** [c in s] for a single character [c]. *)
Fixpoint has_char (c : ascii) (s : string) : bool :=
  match s with
  | EmptyString => false
  | String d s' => Ascii.eqb c d || has_char c s'
  end.

(** [s.startswith(p)] *)
Fixpoint startswith (p s : string) : bool :=
  match p, s with
  | EmptyString, _ => true
  | String _ _, EmptyString => false
  | String a p', String b s' => Ascii.eqb a b && startswith p' s'
  end.

(** [sub in s]: [sub] occurs in [s] as a substring. *)
Fixpoint contains (sub s : string) : bool :=
  startswith sub s ||
  match s with
  | EmptyString => false
  | String _ s' => contains sub s'
  end.

(** [s.partition(c)] for a one-character separator: the text before the first
    [c], whether [c] was found, and the text after it. *)
Fixpoint partition (c : ascii) (s : string) : string * bool * string :=
  match s with
  | EmptyString => (EmptyString, false, EmptyString)
  | String d s' =>
      if Ascii.eqb c d then (EmptyString, true, s')
      else let '(before, found, after) := partition c s' in
           (String d before, found, after)
  end.

(** [s.split(c)[0]] *)
Definition split_head (c : ascii) (s : string) : string :=
  (partition c s).1.1.

(** [s.rpartition(c)[2]]: the text after the last [c], or all of [s]. *)
Fixpoint rpartition_tail (c : ascii) (s : string) : string :=
  match s with
  | EmptyString => EmptyString
  | String d s' =>
      if has_char c s' then rpartition_tail c s'
      else if Ascii.eqb c d then s' else s
  end.

(** [s.split(c)] for a one-character separator. *)
Fixpoint split (c : ascii) (s : string) : list string :=
  match s with
  | EmptyString => [EmptyString]
  | String d s' =>
      if Ascii.eqb c d then EmptyString :: split c s'
      else match split c s' with
           | x :: xs => String d x :: xs
           | [] => [String d EmptyString]
           end
  end.

(** [s.lstrip(chars)] with the set [chars] given as a predicate. *)
Fixpoint lstrip (p : ascii -> bool) (s : string) : string :=
  match s with
  | EmptyString => EmptyString
  | String c s' => if p c then lstrip p s' else s
  end.

(** Removal of every character satisfying [p]
    ([s.replace(b, "")] for each such [b]). *)
Fixpoint remove_chars (p : ascii -> bool) (s : string) : string :=
  match s with
  | EmptyString => EmptyString
  | String c s' => if p c then remove_chars p s' else String c (remove_chars p s')
  end.

(** [s.strip()] *)
Definition strip (s : string) : string :=
  String.rev (lstrip isspace (String.rev (lstrip isspace s))).

(** [s.splitlines()]: [cur] holds the current line backwards; [after_cr]
    says that the previous character was a carriage return, whose
    following line feed belongs to the same boundary. *)
Fixpoint splitlines_go (after_cr : bool) (cur : string) (s : string) : list string :=
  match s with
  | EmptyString => if truthy cur then [String.rev cur] else []
  | String c s' =>
      if after_cr && (code c =? 10)%N then splitlines_go false cur s'
      else if is_linebreak c
           then String.rev cur :: splitlines_go (code c =? 13)%N EmptyString s'
           else splitlines_go false (String c cur) s'
  end.

Definition splitlines (s : string) : list string :=
  splitlines_go false EmptyString s.

(** [all(p(c) for c in s)] *)
Fixpoint all_chars (p : ascii -> bool) (s : string) : bool :=
  match s with
  | EmptyString => true
  | String c s' => p c && all_chars p s'
  end.

(** [sorted(xs)] on strings: ascending in the order of [str.__lt__], which
    compares code point by code point and puts a proper prefix first. *)
Definition sorted (xs : list string) : list string :=
  merge_sort String.le xs.

End Py.

(** ** [urllib.parse.urlsplit], as CPython 3.11 has it *)

Module UrlParse.

Record SplitResult := {
  scheme : string;
  netloc : string;
  path : string;
  query : string;
  fragment : string
}.

(** [scheme_chars]: letters, digits and "+-." *)
Definition is_scheme_char (c : ascii) : bool :=
  Py.is_alnum c || Py.between 43 43 c || Py.between 45 46 c.

(** [_WHATWG_C0_CONTROL_OR_SPACE] *)
Definition is_c0_or_space (c : ascii) : bool := Py.between 0 32 c.

(** [_UNSAFE_URL_BYTES_TO_REMOVE] *)
Definition is_unsafe_byte (c : ascii) : bool :=
  (Py.code c =? 9)%N || (Py.code c =? 10)%N || (Py.code c =? 13)%N.

Definition is_netloc_delim (c : ascii) : bool :=
  Ascii.eqb c "/" || Ascii.eqb c "?" || Ascii.eqb c "#".

(** [_splitnetloc(url, 0)]: cut at the first of "/", "?" and "#". *)
Fixpoint splitnetloc (url : string) : string * string :=
  match url with
  | EmptyString => (EmptyString, EmptyString)
  | String c url' =>
      if is_netloc_delim c then (EmptyString, url)
      else let '(domain, rest) := splitnetloc url' in (String c domain, rest)
  end.

(** The scheme test of [urlsplit]: with [i = url.find(':')], the scheme is
    split off when [i > 0], [url[0]] is an ASCII letter and [url[:i]] has
    scheme characters only. *)
Definition split_scheme (url : string) : string * string :=
  let '(before, found, after) := Py.partition ":" url in
  match before with
  | String c0 _ =>
      if found && Py.is_ascii_alpha c0 && Py.all_chars is_scheme_char before
      then (Py.lower before, after)
      else (EmptyString, url)
  | EmptyString => (EmptyString, url)
  end.

Section urlsplit.

(** [_check_bracketed_host(hostname)] of the library: [true] when the text
    between the brackets is accepted (an IPv6 or IPvFuture literal), [false]
    when it raises [ValueError]. *)
Variable check_bracketed_host : string -> bool.

(** [_check_bracketed_netloc(netloc)]; [true] when it returns. *)
Definition check_bracketed_netloc (netloc : string) : bool :=
  let hostname_and_port := Py.rpartition_tail "@" netloc in
  let '(before_bracket, have_open_br, bracketed) := Py.partition "[" hostname_and_port in
  if have_open_br then
    if Py.truthy before_bracket then false
    else
      let '(hostname, _, port) := Py.partition "]" bracketed in
      if Py.truthy port && negb (Py.startswith ":" port) then false
      else check_bracketed_host hostname
  else
    check_bracketed_host (Py.split_head ":" hostname_and_port).

(** [urlsplit(url)] with the default [scheme=''] and [allow_fragments=True].
    [_checknetloc] is the identity here: it only raises when the NFKC normal
    form of a non-ASCII netloc contains one of "/?#@:", which no code point
    below 256 produces. *)
Definition urlsplit (url : string) : result SplitResult :=
  let url := Py.lstrip is_c0_or_space url in
  let url := Py.remove_chars is_unsafe_byte url in
  let '(scheme, url) := split_scheme url in
  '(netloc, url) ←
    (if Py.startswith "//" url then
       let '(netloc, rest) := splitnetloc (String.substring 2 (String.length url - 2) url) in
       let open_br := Py.has_char "[" netloc in
       let close_br := Py.has_char "]" netloc in
       if (open_br && negb close_br) || (close_br && negb open_br)
       then Raise (ValueError "Invalid IPv6 URL")
       else if open_br && close_br && negb (check_bracketed_netloc netloc)
            then Raise (ValueError "Invalid IPv6 URL")
            else Ok (netloc, rest)
     else Ok (EmptyString, url));
  let '(url, _, fragment) := Py.partition "#" url in
  let '(url, _, query) := Py.partition "?" url in
  Ok {| scheme := scheme; netloc := netloc; path := url;
        query := query; fragment := fragment |}.

End urlsplit.

End UrlParse.

(** ** [extract_subdomains] *)

Section extract.

Variable check_bracketed_host : string -> bool.

(** [urlparse(url).netloc]; [urlparse] only splits the parameters off the
    path of [urlsplit]'s result, the netloc is [urlsplit]'s. *)
Definition urlparse_netloc (url : string) : result string :=
  r ← UrlParse.urlsplit check_bracketed_host url;
  Ok (UrlParse.netloc r).

(** What one record contributes to the set: the netloc up to its first
    colon, when that is not empty and has a dot. *)
Definition hostname_of (url h : string) : Prop :=
  exists netloc, urlparse_netloc url = Ok netloc /\
    h = Py.split_head ":" netloc /\
    Py.truthy h = true /\ Py.contains "." h = true.

(** One turn of the loop over [urls]: the body of the [try], and the
    [except Exception: continue] that leaves the set as it is. *)
Definition extract_step (subdomains : gset string) (url : string) : gset string :=
  match urlparse_netloc url with
  | Ok netloc =>
      let hostname := Py.split_head ":" netloc in
      if Py.truthy hostname && Py.contains "." hostname
      then {[ hostname ]} ∪ subdomains
      else subdomains
  | Raise _ => subdomains
  end.

Definition extract_set (urls : list string) : gset string :=
  foldl extract_step ∅ urls.

Definition extract_subdomains (urls : list string) : list string :=
  Py.sorted (elements (extract_set urls)).

End extract.

(** ** [validate_domain] *)

(** The fragment of [re] syntax that [domain_pattern] is written in. *)
Module Re.

Inductive regex :=
| Never                      (* no string at all: what is left after a mismatch *)
| Empty                      (* the empty string *)
| Class (p : ascii -> bool)  (* [...] *)
| Cat (r1 r2 : regex)        (* r1 r2 *)
| Alt (r1 r2 : regex)        (* r1 | r2 *)
| Opt (r : regex)            (* ( r )? *)
| Star (r : regex)           (* ( r )* *)
| Upto (n : nat) (r : regex) (* r { 0 , n } *)
| Dollar.                    (* $ in final position: the end of the string, or
                                the newline that ends the string *)

Fixpoint nullable (r : regex) : bool :=
  match r with
  | Never => false
  | Empty => true
  | Class _ => false
  | Cat r1 r2 => nullable r1 && nullable r2
  | Alt r1 r2 => nullable r1 || nullable r2
  | Opt _ => true
  | Star _ => true
  | Upto _ _ => true
  | Dollar => true
  end.

Definition cat (r1 r2 : regex) : regex :=
  match r1 with
  | Never => Never
  | Empty => r2
  | _ => Cat r1 r2
  end.

Definition alt (r1 r2 : regex) : regex :=
  match r1, r2 with
  | Never, _ => r2
  | _, Never => r1
  | _, _ => Alt r1 r2
  end.

(** What is left of [r] to match after reading [c]. *)
Fixpoint deriv (c : ascii) (r : regex) : regex :=
  match r with
  | Never => Never
  | Empty => Never
  | Class p => if p c then Empty else Never
  | Cat r1 r2 =>
      if nullable r1 then alt (cat (deriv c r1) r2) (deriv c r2)
      else cat (deriv c r1) r2
  | Alt r1 r2 => alt (deriv c r1) (deriv c r2)
  | Opt r1 => deriv c r1
  | Star r1 => cat (deriv c r1) (Star r1)
  | Upto 0 _ => Never
  | Upto (S n) r1 => cat (deriv c r1) (Upto n r1)
  | Dollar => if (Py.code c =? 10)%N then Empty else Never
  end.

(** [re.match(r, s)] succeeds, for a pattern [r] that ends in [$]. *)
Fixpoint re_match (r : regex) (s : string) : bool :=
  match s with
  | EmptyString => nullable r
  | String c s' => re_match (deriv c r) s'
  end.

(** The strings a pattern stands for. *)
Inductive matches : regex -> string -> Prop :=
| matches_empty : matches Empty EmptyString
| matches_class p c : p c = true -> matches (Class p) (String c EmptyString)
| matches_cat r1 r2 s1 s2 :
    matches r1 s1 -> matches r2 s2 -> matches (Cat r1 r2) (s1 +:+ s2)
| matches_alt_l r1 r2 s : matches r1 s -> matches (Alt r1 r2) s
| matches_alt_r r1 r2 s : matches r2 s -> matches (Alt r1 r2) s
| matches_opt_none r : matches (Opt r) EmptyString
| matches_opt_some r s : matches r s -> matches (Opt r) s
| matches_star_nil r : matches (Star r) EmptyString
| matches_star_cons r s1 s2 :
    matches r s1 -> matches (Star r) s2 -> matches (Star r) (s1 +:+ s2)
| matches_upto_nil n r : matches (Upto n r) EmptyString
| matches_upto_cons n r s1 s2 :
    matches r s1 -> matches (Upto n r) s2 -> matches (Upto (S n) r) (s1 +:+ s2)
| matches_dollar_end : matches Dollar EmptyString
| matches_dollar_newline : matches Dollar (String "010" EmptyString).

End Re.

(** [[a-zA-Z0-9]] *)
Definition alnum_class : Re.regex := Re.Class Py.is_alnum.

(** [[a-zA-Z0-9\-]] *)
Definition alnum_hyphen_class : Re.regex :=
  Re.Class (fun c => Py.is_alnum c || Ascii.eqb c "-").

(** [[a-zA-Z0-9]([a-zA-Z0-9\-]{0,61}[a-zA-Z0-9])?] *)
Definition label_pattern : Re.regex :=
  Re.Cat alnum_class (Re.Opt (Re.Cat (Re.Upto 61 alnum_hyphen_class) alnum_class)).

(** [(\.label)*] *)
Definition more_labels_pattern : Re.regex :=
  Re.Star (Re.Cat (Re.Class (Ascii.eqb ".")) label_pattern).

(** [^label(\.label)*$] *)
Definition domain_pattern : Re.regex :=
  Re.Cat label_pattern (Re.Cat more_labels_pattern Re.Dollar).

(** The domain names that the pattern is written for. A label is one letter
    or digit, or a first and a last letter or digit with up to 61 letters,
    digits and hyphens between them; a name is one label or more, with a dot
    between two of them. *)
Definition is_label_char (c : ascii) : bool := Py.is_alnum c || Ascii.eqb c "-".

Definition is_label (l : string) : Prop :=
  exists c, Py.is_alnum c = true /\
    (l = String c EmptyString \/
     exists mid d, l = String c (mid +:+ String d EmptyString) /\
       (String.length mid <= 61)%nat /\
       Py.all_chars is_label_char mid = true /\ Py.is_alnum d = true).

Inductive is_domain_name : string -> Prop :=
| domain_name_label l : is_label l -> is_domain_name l
| domain_name_dot l d :
    is_label l -> is_domain_name d -> is_domain_name (l +:+ String "." d).

Definition validate_domain (domain : string) : result string :=
  if negb (Re.re_match domain_pattern domain)
  then Raise (ValueError ("Invalid domain format: " +:+ domain))
  else Ok (Py.lower domain).

(** ** [retry_on_failure] and [fetch_data_with_progress] *)

(** The arguments of a [requests.get] call; [req_limit] is the ['limit']
    entry of [params], the only one that is not a string. *)
Record request := {
  req_url : string;
  req_params : list (string * string);
  req_limit : Z;
  req_user_agent : string;
  req_timeout : Z;
  req_stream : bool
}.

Record response := {
  status_code : Z;
  text : string
}.

(** What the program does to the world, in the order it does it. *)
Inductive event :=
| EvGet (req : request)
| EvSleep (seconds : Z).

(** A computation that reads and extends the trace of events and returns or
    raises. *)
Definition IO (A : Type) : Type := list event -> list event * result A.

(** [load_config]'s dictionary. *)
Record config := {
  api_url : string;
  output_format : string;
  collapse : string;
  max_results : Z;
  timeout : Z;
  max_retries : Z;
  retry_delay : Z;
  user_agent : string
}.

Definition default_config : config := {|
  api_url := "https://web.archive.org/cdx/search/cdx";
  output_format := "txt";
  collapse := "urlkey";
  max_results := 10000;
  timeout := 30;
  max_retries := 3;
  retry_delay := 1;
  user_agent := "WebArchive-Subdomain-Extractor/1.0"
|}.

(** [range(n)] *)
Definition range (n : Z) : list Z := Z.of_nat <$> seq 0 (Z.to_nat n).

(** The longest sleep that [time.sleep] takes: the run time counts a sleep
    in nanoseconds in 64 bits, and this is [(2^63 - 1) // 10^9]. *)
Definition max_sleep_seconds : Z := 9223372036.

(** [time.sleep(seconds)] for an [int]: a length whose nanoseconds do not
    fit raises [OverflowError], a negative one [ValueError], and no time
    passes in either case. *)
Definition time_sleep (seconds : Z) : IO unit :=
  fun tr =>
    if (seconds <? - max_sleep_seconds) || (max_sleep_seconds <? seconds)
    then (tr, Raise (OverflowError "timestamp too large to convert to C _PyTime_t"))
    else if seconds <? 0
    then (tr, Raise (ValueError "sleep length must be non-negative"))
    else (tr ++ [EvSleep seconds], Ok tt).

Section retry.

Context {A : Type}.
Variables (max_retries delay : Z).
Variable func : IO A.

(** The [for attempt in range(max_retries)] loop of [wrapper]; [None] is the
    [return None] after the loop. What [time.sleep] raises in the [except]
    block leaves the wrapper. *)
Fixpoint wrapper_loop (attempts : list Z) : IO (option A) :=
  fun tr =>
    match attempts with
    | [] => (tr, Ok None)
    | attempt :: rest =>
        match func tr with
        | (tr', Ok v) => (tr', Ok (Some v))
        | (tr', Raise e) =>
            if attempt =? max_retries - 1 then (tr', Raise e)
            else
              match time_sleep delay tr' with
              | (tr'', Ok _) => wrapper_loop rest tr''
              | (tr'', Raise e') => (tr'', Raise e')
              end
        end
    end.

Definition retry_on_failure : IO (option A) :=
  wrapper_loop (range max_retries).

End retry.

(** [response.raise_for_status()] *)
Definition raise_for_status (r : response) : result unit :=
  if (400 <=? status_code r) && (status_code r <? 600)
  then Raise (RequestException (HTTPError (status_code r)))
  else Ok tt.

Section fetch.

(** [requests.get]: the answer of the archive server to a request, given
    everything that happened before it. *)
Variable requests_get : list event -> request -> result response.

Definition http_get (req : request) : IO response :=
  fun tr =>
    (tr ++ [EvGet req],
     r ← requests_get tr req; _ ← raise_for_status r; Ok r).

Definition archive_request (domain : string) (cfg : config) (stream : bool) : request := {|
  req_url := api_url cfg;
  req_params := [("url", "*." +:+ domain +:+ "/*"); ("output", "txt");
                 ("fl", "original"); ("collapse", collapse cfg)];
  req_limit := max_results cfg;
  req_user_agent := user_agent cfg;
  req_timeout := timeout cfg;
  req_stream := stream
|}.

(** The function under the decorator: two requests, the first one only to
    count lines; the [except RequestException] clause re-raises what it
    caught. *)
Definition fetch_data_with_progress_body (domain : string) (cfg : config)
  : IO (list string) :=
  fun tr =>
    match http_get (archive_request domain cfg true) tr with
    | (tr1, Raise e) => (tr1, Raise e)
    | (tr1, Ok _) =>
        match http_get (archive_request domain cfg false) tr1 with
        | (tr2, Raise e) => (tr2, Raise e)
        | (tr2, Ok r) =>
            (tr2, Ok (Py.strip <$>
                      filter (fun line => Is_true (Py.truthy (Py.strip line)))
                             (Py.splitlines (text r))))
        end
    end.

(** [@retry_on_failure(max_retries=3, delay=2)] *)
Definition fetch_data_with_progress (domain : string) (cfg : config)
  : IO (option (list string)) :=
  retry_on_failure 3 2 (fetch_data_with_progress_body domain cfg).

End fetch.

(** ** [filter_subdomains] *)

(** The [filters] dictionary that [main] builds: each key present or not. *)
Record FilterSpec := {
  regex : option string;
  min_length : option Z;
  max_length : option Z;
  exclude_words : option (list string)
}.

Definition no_filters : FilterSpec :=
  {| regex := None; min_length := None; max_length := None; exclude_words := None |}.

(** [bool(filters)]: [None] and the dictionary without keys are false. *)
Definition filters_truthy (filters : option FilterSpec) : bool :=
  match filters with
  | None => false
  | Some f =>
      bool_decide (is_Some (regex f)) || bool_decide (is_Some (min_length f)) ||
      bool_decide (is_Some (max_length f)) || bool_decide (is_Some (exclude_words f))
  end.

Section filter.

(** [re.search(pattern, s)]: whether a match was found, or [re.error]. *)
Variable re_search : string -> string -> result bool.

(** [filters.get('regex') and not re.search(filters['regex'], subdomain)] *)
Definition regex_rejects (f : FilterSpec) (subdomain : string) : result bool :=
  match regex f with
  | Some pattern =>
      if Py.truthy pattern
      then found ← re_search pattern subdomain; Ok (negb found)
      else Ok false
  | None => Ok false
  end.

(** [filters.get('min_length') and len(subdomain) < filters['min_length']] *)
Definition min_length_rejects (f : FilterSpec) (subdomain : string) : bool :=
  match min_length f with
  | Some n => negb (n =? 0) && (Py.len subdomain <? n)
  | None => false
  end.

(** [filters.get('max_length') and len(subdomain) > filters['max_length']] *)
Definition max_length_rejects (f : FilterSpec) (subdomain : string) : bool :=
  match max_length f with
  | Some n => negb (n =? 0) && (Py.len subdomain >? n)
  | None => false
  end.

(** [filters.get('exclude_words')] and
    [any(word in subdomain.lower() for word in exclude_words)] *)
Definition exclude_words_rejects (f : FilterSpec) (subdomain : string) : bool :=
  match exclude_words f with
  | Some words =>
      match words with
      | [] => false
      | _ :: _ => existsb (fun word => Py.contains word (Py.lower subdomain)) words
      end
  | None => false
  end.

(** The body of the loop: [false] for [continue], [true] for the [append]. *)
Definition survives (f : FilterSpec) (subdomain : string) : result bool :=
  rejected ← regex_rejects f subdomain;
  if rejected : bool then Ok false
  else if min_length_rejects f subdomain then Ok false
  else if max_length_rejects f subdomain then Ok false
  else if exclude_words_rejects f subdomain then Ok false
  else Ok true.

Fixpoint filter_loop (f : FilterSpec) (subdomains filtered : list string)
  : result (list string) :=
  match subdomains with
  | [] => Ok filtered
  | subdomain :: rest =>
      keep ← survives f subdomain;
      filter_loop f rest (if keep : bool then filtered ++ [subdomain] else filtered)
  end.

Definition filter_subdomains (subdomains : list string) (filters : option FilterSpec)
  : result (list string) :=
  match filters with
  | Some f =>
      if filters_truthy filters then filter_loop f subdomains []
      else Ok subdomains
  | None => Ok subdomains
  end.

End filter.

(** ** [dns_check_domain] *)

Section dns.

(** [dns.resolver.resolve(domain, "A")]: the address records of the answer,
    or the exception of the resolver. *)
Variable resolve : string -> result (list string).

Fixpoint dns_check_loop (subdomains valid_subdomains : list string)
  : result (list string) :=
  match subdomains with
  | [] => Ok valid_subdomains
  | domain :: rest =>
      answers ← resolve domain;
      dns_check_loop rest
        (match answers with
         | [] => valid_subdomains
         | _ :: _ => valid_subdomains ++ [domain]
         end)
  end.

Definition dns_check_domain (subdomains : list string) : result (list string) :=
  dns_check_loop subdomains [].

(** The lookup of [domain] returns an answer with a record in it. *)
Definition has_address (domain : string) : bool :=
  match resolve domain with
  | Ok (_ :: _) => true
  | _ => false
  end.

End dns.

(** Words that the claims about the output use. *)

(** A checker for URLs without brackets, where it is never consulted: it
    accepts no bracketed host. *)
Definition reject_bracketed : string -> bool := fun _ => false.

(** A string that [lower] leaves as it is. *)
Definition is_lowercase (s : string) : Prop := Py.lower s = s.

(** Some character of the string is a capital letter. *)
Fixpoint has_uppercase (s : string) : bool :=
  match s with
  | EmptyString => false
  | String c s' => Py.isupper c || has_uppercase s'
  end.

(** [dict(filters, key=value)] for three of the keys. *)
Definition with_min_length (v : option Z) (f : FilterSpec) : FilterSpec :=
  {| regex := regex f; min_length := v;
     max_length := max_length f; exclude_words := exclude_words f |}.

Definition with_max_length (v : option Z) (f : FilterSpec) : FilterSpec :=
  {| regex := regex f; min_length := min_length f;
     max_length := v; exclude_words := exclude_words f |}.

Definition with_exclude_words (v : option (list string)) (f : FilterSpec) : FilterSpec :=
  {| regex := regex f; min_length := min_length f;
     max_length := max_length f; exclude_words := v |}.

(** The requests of a trace, and the lengths of its sleeps, in order. *)
Definition requests_of (tr : list event) : list request :=
  omap (fun ev => match ev with EvGet r => Some r | EvSleep _ => None end) tr.

Definition sleeps_of (tr : list event) : list Z :=
  omap (fun ev => match ev with EvSleep d => Some d | EvGet _ => None end) tr.

(** The trace of [n + 1] attempts that each fail in their first request [r],
    with a sleep of [d] seconds after each attempt but the last. *)
Definition exhausted_trace (n : nat) (d : Z) (r : request) : list event :=
  concat (replicate n [EvGet r; EvSleep d]) ++ [EvGet r].

(** A configuration that asks for five attempts one second apart. *)
Definition five_attempts_config : config := {|
  api_url := api_url default_config;
  output_format := output_format default_config;
  collapse := collapse default_config;
  max_results := max_results default_config;
  timeout := timeout default_config;
  max_retries := 5;
  retry_delay := 1;
  user_agent := user_agent default_config
|}.

(** A server that cannot be reached. *)
Definition unreachable : list event -> request -> result response :=
  fun _ _ => Raise (RequestException ConnectionError).

(** The alphabet of domain names: letters, digits, the hyphen and the dot. *)
Definition is_domain_char (c : ascii) : bool := is_label_char c || Ascii.eqb c ".".

(** The line feed that a shell passes on when it ends an argument. *)
Definition newline : string := String "010" EmptyString.

(** ** Words that the further properties use *)

(** The text in which [urlsplit] looks for the netloc: the record without
    its leading blanks, without tabs and line ends, and without its scheme. *)
Definition after_scheme (url : string) : string :=
  (UrlParse.split_scheme
     (Py.remove_chars UrlParse.is_unsafe_byte
        (Py.lstrip UrlParse.is_c0_or_space url))).2.

Section filter_words.

Variable re_search : string -> string -> result bool.

(** The hostname goes through every test of the loop body. *)
Definition passes (f : FilterSpec) (subdomain : string) : bool :=
  match survives re_search f subdomain with
  | Ok true => true
  | _ => false
  end.

(** The first exception of the regex test over the hostnames, in order. *)
Fixpoint first_regex_error (f : FilterSpec) (subdomains : list string) : option py_exn :=
  match subdomains with
  | [] => None
  | subdomain :: rest =>
      match regex_rejects re_search f subdomain with
      | Raise e => Some e
      | Ok _ => first_regex_error f rest
      end
  end.

End filter_words.

(** The dictionaries with one key of [f] each. *)
Definition only_regex (f : FilterSpec) : FilterSpec :=
  {| regex := regex f; min_length := None; max_length := None; exclude_words := None |}.

Definition only_min_length (f : FilterSpec) : FilterSpec :=
  {| regex := None; min_length := min_length f; max_length := None; exclude_words := None |}.

Definition only_max_length (f : FilterSpec) : FilterSpec :=
  {| regex := None; min_length := None; max_length := max_length f; exclude_words := None |}.

Definition only_exclude_words (f : FilterSpec) : FilterSpec :=
  {| regex := None; min_length := None; max_length := None;
     exclude_words := exclude_words f |}.

(** What the loop body asks of a hostname, test by test; a key whose value
    is false in Python's sense (an empty pattern, a bound of 0, an empty word
    list) asks nothing. *)
Definition accepted (re_search : string -> string -> result bool)
    (f : FilterSpec) (s : string) : Prop :=
  (forall p, regex f = Some p -> p <> EmptyString -> re_search p s = Ok true) /\
  (forall n, min_length f = Some n -> n <> 0 -> n <= Py.len s) /\
  (forall n, max_length f = Some n -> n <> 0 -> Py.len s <= n) /\
  (forall ws w, exclude_words f = Some ws -> w ∈ ws ->
     Py.contains w (Py.lower s) = false).

(** A string that does not begin with a character of the set. *)
Definition starts_clean (p : ascii -> bool) (s : string) : Prop :=
  match s with
  | EmptyString => True
  | String c _ => p c = false
  end.

(** ** Output files: [sanitize_filename], [save_raw_data], [save_results] *)

(** [s.replace(old, new)] for one-character [old] and [new]. *)
Fixpoint py_replace (old new : ascii) (s : string) : string :=
  match s with
  | EmptyString => EmptyString
  | String c s' => String (if Ascii.eqb c old then new else c) (py_replace old new s')
  end.

(** [sep.join(xs)] *)
Fixpoint py_join (sep : string) (xs : list string) : string :=
  match xs with
  | [] => EmptyString
  | x :: rest =>
      match rest with
      | [] => x
      | _ :: _ => x +:+ sep +:+ py_join sep rest
      end
  end.

(** [s.endswith(c)] for a one-character [c]. *)
Fixpoint py_endswith (c : ascii) (s : string) : bool :=
  match s with
  | EmptyString => false
  | String d s' =>
      match s' with
      | EmptyString => Ascii.eqb c d
      | String _ _ => py_endswith c s'
      end
  end.

(** The class of the pattern of [sanitize_filename]: the characters
    less-than, greater-than, colon, double quote, slash, backslash, bar,
    question mark and star. *)
Definition is_reserved_char (c : ascii) : bool :=
  (Py.code c =? 60)%N || (Py.code c =? 62)%N || (Py.code c =? 58)%N ||
  (Py.code c =? 34)%N || (Py.code c =? 47)%N || (Py.code c =? 92)%N ||
  (Py.code c =? 124)%N || (Py.code c =? 63)%N || (Py.code c =? 42)%N.

(** [re.sub(pattern, '_', filename)]: every match of the one-character
    class is replaced by an underscore. *)
Fixpoint sanitize_filename (filename : string) : string :=
  match filename with
  | EmptyString => EmptyString
  | String c s' =>
      String (if is_reserved_char c then "_"%char else c) (sanitize_filename s')
  end.

(** [base_name = sanitize_filename(domain.replace('.', '_'))] *)
Definition base_name (domain : string) : string :=
  sanitize_filename (py_replace "." "_" domain).

(** [os.path.join(a, b)] of [posixpath]. *)
Definition os_path_join (a b : string) : string :=
  if Py.startswith "/" b then b
  else if negb (Py.truthy a) || py_endswith "/" a then a +:+ b
  else a +:+ "/" +:+ b.

Definition raw_file_path (domain output_dir : string) : string :=
  os_path_join output_dir (base_name domain +:+ "_raw_urls.txt").

Definition results_file_path (domain output_dir ext : string) : string :=
  os_path_join output_dir (base_name domain +:+ "_subdomains." +:+ ext).

(** The failure of a file operation. *)
Inductive os_error :=
| OSError (errno : Z).

(** What [save_raw_data] and [save_results] do to the file system, in the
    order they do it; a write is recorded whether it succeeds or not. These
    are the output files of the program. The directory [logs] and the files
    in it, which [setup_logging] and the handlers of the logger make, open
    and write, are not recorded here. *)
Inductive file_event :=
| EvMakedirs (path : string)
| EvWrite (path content : string).

(** The dictionary that [json.dump] is given. *)
Record json_data := {
  jd_domain : string;
  jd_subdomain_count : Z;
  jd_extraction_date : string;
  jd_subdomains : list string
}.

(** [enumerate(xs, start)] *)
Fixpoint enumerate {A} (start : Z) (xs : list A) : list (Z * A) :=
  match xs with
  | [] => []
  | x :: rest => (start, x) :: enumerate (start + 1) rest
  end.

Section files.

(** [os.makedirs(path, exist_ok=True)] and the block
    [with open(path, "w") as f: ...] that writes [content]: [None] when it
    returns, the error when it raises, given what happened before. *)
Variable fs_makedirs : list file_event -> string -> option os_error.
Variable fs_write : list file_event -> string -> string -> option os_error.

(** [time.strftime('%Y-%m-%d %H:%M:%S')], the text that
    [json.dump(data, f, indent=2, ensure_ascii=False)] writes, and the text
    that [csv.writer] writes for a header and rows. *)
Variable strftime_now : list file_event -> string.
Variable json_dump : json_data -> string.
Variable csv_dump : list string -> list (Z * string) -> string.

(** [save_raw_data]: the [except] clause logs and raises again. *)
Definition save_raw_data (domain : string) (urls : list string) (output_dir : string)
  : list file_event -> list file_event * (os_error + string) :=
  fun tr =>
    let raw_file_path := raw_file_path domain output_dir in
    let content := py_join newline urls in
    (tr ++ [EvWrite raw_file_path content],
     match fs_write tr raw_file_path content with
     | None => inr raw_file_path
     | Some e => inl e
     end).

(** What is written for a format, [None] for a format that no branch of the
    [if] chain names. *)
Definition format_content (domain : string) (subdomains : list string)
    (fmt : string) (tr : list file_event) : option string :=
  if String.eqb fmt "txt" then Some (py_join newline subdomains)
  else if String.eqb fmt "json" then
    Some (json_dump {| jd_domain := domain;
                       jd_subdomain_count := Z.of_nat (length subdomains);
                       jd_extraction_date := strftime_now tr;
                       jd_subdomains := subdomains |})
  else if String.eqb fmt "csv" then
    Some (csv_dump ["index"; "subdomain"] (enumerate 1 subdomains))
  else None.

(** The loop [for fmt in formats] with its [try]: a failed write is logged
    and the loop goes on. *)
Fixpoint save_formats (domain : string) (subdomains : list string) (output_dir : string)
    (formats : list string) (saved_files : gmap string string)
  : list file_event -> list file_event * gmap string string :=
  fun tr =>
    match formats with
    | [] => (tr, saved_files)
    | fmt :: rest =>
        match format_content domain subdomains fmt tr with
        | None => save_formats domain subdomains output_dir rest saved_files tr
        | Some content =>
            let file_path := results_file_path domain output_dir fmt in
            save_formats domain subdomains output_dir rest
              (match fs_write tr file_path content with
               | None => <[fmt := file_path]> saved_files
               | Some _ => saved_files
               end)
              (tr ++ [EvWrite file_path content])
        end
    end.

Definition save_results (domain : string) (subdomains : list string)
    (output_dir : string) (formats : list string)
  : list file_event -> list file_event * (os_error + gmap string string) :=
  fun tr =>
    match fs_makedirs tr output_dir with
    | Some e => (tr ++ [EvMakedirs output_dir], inl e)
    | None =>
        let '(tr', saved_files) :=
          save_formats domain subdomains output_dir formats ∅
            (tr ++ [EvMakedirs output_dir]) in
        (tr', inr saved_files)
    end.

End files.

(** The paths of the writes of a trace, in order. *)
Definition written_paths (tr : list file_event) : list string :=
  omap (fun ev => match ev with EvWrite p _ => Some p | EvMakedirs _ => None end) tr.

(** The formats that [save_results] knows. *)
Definition known_format (fmt : string) : bool :=
  String.eqb fmt "txt" || String.eqb fmt "json" || String.eqb fmt "csv".

(** The characters of a validated domain: the alphabet of domain names and
    the line feed. *)
Definition is_validated_char (c : ascii) : bool :=
  is_domain_char c || (Py.code c =? 10)%N.

(** A server that answers every request with the same two records. *)
Definition two_records : list event -> request -> result response :=
  fun _ _ => Ok {| status_code := 200;
                   text := " https://a.example.com/ " +:+ newline +:+ newline
                           +:+ "http://b.example.com/x" |}.

(** A file system on which every operation succeeds. *)
Definition fs_ok_makedirs : list file_event -> string -> option os_error :=
  fun _ _ => None.

Definition fs_ok_write : list file_event -> string -> string -> option os_error :=
  fun _ _ _ => None.

(** A file system that refuses to write files whose name ends in "json". *)
Definition fs_no_json : list file_event -> string -> string -> option os_error :=
  fun _ path _ =>
    if Py.startswith "nosj" (String.rev path) then Some (OSError 13) else None.

(** ** [main] *)

(** The namespace that [parse_arguments] returns; [--config] and
    [--log-level] only reach [load_config] and [setup_logging]. *)
Record args := {
  arg_domain : string;
  arg_output_dir : string;
  arg_format : list string;
  arg_filter : option string;
  arg_exclude_words : option string;
  arg_min_length : option Z;
  arg_max_length : option Z;
  arg_max_results : Z;
  arg_verbose : bool;
  arg_config : string
}.

(** The [filters] dictionary of [main]: a key is set when its argument is
    true in Python's sense. *)
Definition build_filters (a : args) : FilterSpec := {|
  regex :=
    match arg_filter a with
    | Some pattern => if Py.truthy pattern then Some pattern else None
    | None => None
    end;
  min_length :=
    match arg_min_length a with
    | Some n => if n =? 0 then None else Some n
    | None => None
    end;
  max_length :=
    match arg_max_length a with
    | Some n => if n =? 0 then None else Some n
    | None => None
    end;
  exclude_words :=
    match arg_exclude_words a with
    | Some words =>
        if Py.truthy words then Some (Py.strip <$> Py.split "," words) else None
    | None => None
    end
|}.

(** [config['max_results'] = args.max_results] *)
Definition with_max_results (n : Z) (cfg : config) : config := {|
  api_url := api_url cfg;
  output_format := output_format cfg;
  collapse := collapse cfg;
  max_results := n;
  timeout := timeout cfg;
  max_retries := max_retries cfg;
  retry_delay := retry_delay cfg;
  user_agent := user_agent cfg
|}.

(** What ends a run with status 1: an exception of the pipeline or of a
    file operation. *)
Inductive failure :=
| PyFailure (e : py_exn)
| OsFailure (e : os_error).

(** How [main] ends: [sys.exit(1)] of the [except Exception] clause, the two
    [sys.exit(0)] in the [try] block, or its last line. *)
Inductive outcome :=
| ExitError (f : failure)
| ExitNoData
| ExitNoSubdomains
| Completed (subdomains : list string) (saved_files : gmap string string)
            (raw_file : string).

Definition exit_status (o : outcome) : Z :=
  match o with
  | ExitError _ => 1
  | ExitNoData | ExitNoSubdomains | Completed _ _ _ => 0
  end.

(** The requests and sleeps of a run, and its operations on the output files
    (those of [save_raw_data] and [save_results]), as the run leaves them. *)
Record world := {
  net : list event;
  files : list file_event
}.

Section main.

Variable check_bracketed_host : string -> bool.
Variable requests_get : list event -> request -> result response.
Variable resolve : string -> result (list string).
Variable re_search : string -> string -> result bool.
Variable fs_makedirs : list file_event -> string -> option os_error.
Variable fs_write : list file_event -> string -> string -> option os_error.
Variable strftime_now : list file_event -> string.
Variable json_dump : json_data -> string.
Variable csv_dump : list string -> list (Z * string) -> string.

(** [load_config(path)]: the dictionary it returns; it catches what reading
    the file raises. *)
Variable load_config : string -> config.

(** The [try] block of [main], from [validate_domain] on, with the
    [except Exception] clause around it. Before the block [main] calls
    [setup_logging], which makes the directory [logs], writes and removes a
    test file in it and opens the log file, and the logger writes to that
    file all along: none of this changes what the block computes, and the
    trace [files] leaves it out. *)
Definition main (a : args) (w : world) : world * outcome :=
  match validate_domain (arg_domain a) with
  | Raise e => (w, ExitError (PyFailure e))
  | Ok domain =>
      let cfg := with_max_results (arg_max_results a) (load_config (arg_config a)) in
      let filters := build_filters a in
      match fetch_data_with_progress requests_get domain cfg (net w) with
      | (net', Raise e) =>
          ({| net := net'; files := files w |}, ExitError (PyFailure e))
      | (net', Ok None) | (net', Ok (Some [])) =>
          ({| net := net'; files := files w |}, ExitNoData)
      | (net', Ok (Some ((_ :: _) as urls))) =>
          match save_raw_data fs_write domain urls (arg_output_dir a) (files w) with
          | (files1, inl e) =>
              ({| net := net'; files := files1 |}, ExitError (OsFailure e))
          | (files1, inr raw_file) =>
              let w1 := {| net := net'; files := files1 |} in
              match dns_check_domain resolve
                      (extract_subdomains check_bracketed_host urls) with
              | Raise e => (w1, ExitError (PyFailure e))
              | Ok [] => (w1, ExitNoSubdomains)
              | Ok ((_ :: _) as subdomains) =>
                  match (if filters_truthy (Some filters)
                         then filter_subdomains re_search subdomains (Some filters)
                         else Ok subdomains) with
                  | Raise e => (w1, ExitError (PyFailure e))
                  | Ok subdomains =>
                      match save_results fs_makedirs fs_write strftime_now
                              json_dump csv_dump domain subdomains
                              (arg_output_dir a) (arg_format a) files1 with
                      | (files2, inl e) =>
                          ({| net := net'; files := files2 |},
                           ExitError (OsFailure e))
                      | (files2, inr saved_files) =>
                          ({| net := net'; files := files2 |},
                           Completed subdomains saved_files raw_file)
                      end
                  end
              end
          end
      end
  end.

End main.

(** A resolver that finds an address for every name, and a run of the
    program on the command line [example.com --exclude-words www]. *)
Definition resolves_all : string -> result (list string) :=
  fun _ => Ok ["192.0.2.1"].

Definition example_args : args := {|
  arg_domain := "example.com";
  arg_output_dir := ".";
  arg_format := ["txt"];
  arg_filter := None;
  arg_exclude_words := Some "www";
  arg_min_length := None;
  arg_max_length := None;
  arg_max_results := 10000;
  arg_verbose := false;
  arg_config := "config.ini"
|}.

Definition fresh_world : world := {| net := []; files := [] |}.

(** ** [filter_subdomains] on strings of every code point

    The strings above stop at code point 255. [str.lower] and [str.isupper]
    work on all of Unicode, where some capital letters have no small letter
    (U+2102, the double-struck C, is one: [isupper] holds of it and [lower]
    leaves it alone). Here a string is the list of its code points, and
    [s.lower()] and [c.isupper()] are taken from the run time, as [re.search]
    is: the loop of [filter_subdomains] is the one above, line by line. *)

Module Wide.

Definition str : Type := list N.

(** The code points of a string of the part above. *)
Definition of_string (s : string) : str := Py.code <$> String.list_ascii_of_string s.

Definition len (s : str) : Z := Z.of_nat (length s).

(** [bool(s)] *)
Definition truthy (s : str) : bool :=
  match s with
  | [] => false
  | _ :: _ => true
  end.

(** [s.startswith(p)] *)
Fixpoint startswith (p s : str) : bool :=
  match p, s with
  | [], _ => true
  | _ :: _, [] => false
  | a :: p', b :: s' => (a =? b)%N && startswith p' s'
  end.

(** [sub in s]: [sub] occurs in [s] as a substring. *)
Fixpoint contains (sub s : str) : bool :=
  startswith sub s ||
  match s with
  | [] => false
  | _ :: s' => contains sub s'
  end.

(** The [filters] dictionary: each key present or not. *)
Record FilterSpec := {
  regex : option str;
  min_length : option Z;
  max_length : option Z;
  exclude_words : option (list str)
}.

Definition no_filters : FilterSpec :=
  {| regex := None; min_length := None; max_length := None; exclude_words := None |}.

(** [bool(filters)]: [None] and the dictionary without keys are false. *)
Definition filters_truthy (filters : option FilterSpec) : bool :=
  match filters with
  | None => false
  | Some f =>
      bool_decide (is_Some (regex f)) || bool_decide (is_Some (min_length f)) ||
      bool_decide (is_Some (max_length f)) || bool_decide (is_Some (exclude_words f))
  end.

(** [dict(filters, exclude_words=value)] *)
Definition with_exclude_words (v : option (list str)) (f : FilterSpec) : FilterSpec :=
  {| regex := regex f; min_length := min_length f;
     max_length := max_length f; exclude_words := v |}.

Section filter.

(** [s.lower()], of the whole string: the small form of a letter may depend
    on its neighbours and may be longer than one code point. *)
Variable str_lower : str -> str.

(** [re.search(pattern, s)]: whether a match was found, or [re.error]. *)
Variable re_search : str -> str -> result bool.

(** [filters.get('regex') and not re.search(filters['regex'], subdomain)] *)
Definition regex_rejects (f : FilterSpec) (subdomain : str) : result bool :=
  match regex f with
  | Some pattern =>
      if truthy pattern
      then found ← re_search pattern subdomain; Ok (negb found)
      else Ok false
  | None => Ok false
  end.

(** [filters.get('min_length') and len(subdomain) < filters['min_length']] *)
Definition min_length_rejects (f : FilterSpec) (subdomain : str) : bool :=
  match min_length f with
  | Some n => negb (n =? 0) && (len subdomain <? n)
  | None => false
  end.

(** [filters.get('max_length') and len(subdomain) > filters['max_length']] *)
Definition max_length_rejects (f : FilterSpec) (subdomain : str) : bool :=
  match max_length f with
  | Some n => negb (n =? 0) && (len subdomain >? n)
  | None => false
  end.

(** [filters.get('exclude_words')] and
    [any(word in subdomain.lower() for word in exclude_words)] *)
Definition exclude_words_rejects (f : FilterSpec) (subdomain : str) : bool :=
  match exclude_words f with
  | Some words =>
      match words with
      | [] => false
      | _ :: _ => existsb (fun word => contains word (str_lower subdomain)) words
      end
  | None => false
  end.

(** The body of the loop: [false] for [continue], [true] for the [append]. *)
Definition survives (f : FilterSpec) (subdomain : str) : result bool :=
  rejected ← regex_rejects f subdomain;
  if rejected : bool then Ok false
  else if min_length_rejects f subdomain then Ok false
  else if max_length_rejects f subdomain then Ok false
  else if exclude_words_rejects f subdomain then Ok false
  else Ok true.

Fixpoint filter_loop (f : FilterSpec) (subdomains filtered : list str)
  : result (list str) :=
  match subdomains with
  | [] => Ok filtered
  | subdomain :: rest =>
      keep ← survives f subdomain;
      filter_loop f rest (if keep : bool then filtered ++ [subdomain] else filtered)
  end.

Definition filter_subdomains (subdomains : list str) (filters : option FilterSpec)
  : result (list str) :=
  match filters with
  | Some f =>
      if filters_truthy filters then filter_loop f subdomains []
      else Ok subdomains
  | None => Ok subdomains
  end.

End filter.

(** Some code point of the string is a capital letter, [c.isupper()] being
    given for single code points. *)
Definition has_uppercase (char_isupper : N -> bool) (s : str) : bool :=
  existsb char_isupper s.

(** U+2102, the double-struck capital C, and a hostname that begins with it. *)
Definition double_struck_C : N := 8450.

Definition double_struck_host : str := double_struck_C :: of_string ".example.com".

(** What the run time does at U+2102: it is a capital letter, and lowering
    the hostname changes nothing. *)
Definition lowers_as_python (str_lower : str -> str) (char_isupper : N -> bool) : Prop :=
  char_isupper double_struck_C = true /\
  str_lower double_struck_host = double_struck_host.

(** Lowering on the code points below 256, as [Py.lower_char] has it; the
    code points from 256 on are left as they are. On strings of code points
    below 256 this is [str.lower]. *)
Definition lower_latin1_char (c : N) : N :=
  if (c <? 256)%N then Py.code (Py.lower_char (ascii_of_N c)) else c.

Definition lower_latin1 (s : str) : str := lower_latin1_char <$> s.

End Wide.

(** * Properties *)

(** ** Extraction *)

Section extract_facts.

Variable chk : string -> bool.

Lemma extract_step_spec (acc : gset string) (url h : string) :
  h ∈ extract_step chk acc url <-> h ∈ acc \/ hostname_of chk url h.
Proof.
  unfold extract_step, hostname_of.
  destruct (urlparse_netloc chk url) as [netloc|e] eqn:Hparse.
  - destruct (Py.truthy (Py.split_head ":" netloc)) eqn:Ht;
      destruct (Py.contains "." (Py.split_head ":" netloc)) eqn:Hc; simpl.
    + rewrite elem_of_union, elem_of_singleton. split.
      * intros [-> | Hin]; [right | by left]. by exists netloc.
      * intros [Hin | (n & Hn & -> & _)]; [by right | left]. congruence.
    + split; [by left | intros [Hin | (n & Hn & -> & _ & Hd)]; [done | congruence]].
    + split; [by left | intros [Hin | (n & Hn & -> & Hd & _)]; [done | congruence]].
    + split; [by left | intros [Hin | (n & Hn & -> & Hd & _)]; [done | congruence]].
  - split; [by left | intros [Hin | (n & Hn & _)]; [done | congruence]].
Qed.

Lemma foldl_extract_spec (urls : list string) (acc : gset string) (h : string) :
  h ∈ foldl (extract_step chk) acc urls <->
  h ∈ acc \/ exists url, url ∈ urls /\ hostname_of chk url h.
Proof.
  revert acc. induction urls as [|u urls IH]; intros acc; simpl.
  - split; [by left | intros [Hin | (url & Hin & _)]; [done | by apply elem_of_nil in Hin]].
  - rewrite IH, extract_step_spec. split.
    + intros [[Hin | Hu] | (url & Hin & Hh)].
      * by left.
      * right. exists u. split; [apply list_elem_of_here | done].
      * right. exists url. split; [by apply list_elem_of_further | done].
    + intros [Hin | (url & Hin & Hh)].
      * left. by left.
      * apply elem_of_cons in Hin as [-> | Hin].
        -- left. by right.
        -- right. by exists url.
Qed.

Lemma extract_subdomains_perm (urls : list string) :
  extract_subdomains chk urls ≡ₚ elements (extract_set chk urls).
Proof. apply merge_sort_Permutation. Qed.

(** The output holds exactly the hostnames that the records contribute. *)
Lemma elem_of_extract_subdomains (urls : list string) (h : string) :
  h ∈ extract_subdomains chk urls <-> exists url, url ∈ urls /\ hostname_of chk url h.
Proof.
  rewrite extract_subdomains_perm, elem_of_elements.
  unfold extract_set. rewrite foldl_extract_spec.
  split; [intros [Hin | H]; [by apply not_elem_of_empty in Hin | done] | by right].
Qed.

End extract_facts.

(** C5. The four records of the example give exactly the two hostnames: the
    port is cut off, the line that is no URL contributes nothing and the
    hostname seen twice appears once. *)
Theorem extract_example (chk : string -> bool) :
  extract_subdomains chk
    ["https://sub1.example.com/page"; "http://sub1.example.com:8080/x";
     "not a url"; "https://sub2.example.com/"]
  = ["sub1.example.com"; "sub2.example.com"].
Proof. vm_compute. reflexivity. Qed.

Lemma extract_NoDup (chk : string -> bool) (urls : list string) :
  NoDup (extract_subdomains chk urls).
Proof. rewrite extract_subdomains_perm. apply NoDup_elements. Qed.

Lemma extract_sorted (chk : string -> bool) (urls : list string) :
  StronglySorted String.le (extract_subdomains chk urls).
Proof. apply StronglySorted_merge_sort; apply _. Qed.

Lemma extract_dotted (chk : string -> bool) (urls : list string) (h : string) :
  h ∈ extract_subdomains chk urls -> Py.contains "." h = true.
Proof.
  intros (url & _ & netloc & _ & _ & _ & Hdot)%elem_of_extract_subdomains.
  exact Hdot.
Qed.

(** [String.le] is the order of the code points, read from the left, with a
    proper prefix first. *)
Lemma string_le_nil (t : string) : String.le EmptyString t.
Proof. by destruct t. Qed.

Lemma string_le_cons (a b : ascii) (s t : string) :
  String.le (String a s) (String b t) <->
  (Py.code a < Py.code b)%N \/ (a = b /\ String.le s t).
Proof.
  unfold String.le, String.leb, Py.code. simpl. unfold Ascii.compare.
  destruct (N.compare_spec (N_of_ascii a) (N_of_ascii b)) as [Heq | Hlt | Hgt]; simpl.
  - assert (a = b) as -> by (rewrite <- (ascii_N_embedding a), <- (ascii_N_embedding b);
                             by rewrite Heq).
    split; [by right | intros [Hlt | [_ Hle]]; [lia | done]].
  - split; [by left | done].
  - split; [done | intros [Hlt | [-> _]]; lia].
Qed.

(** The entries ascend strictly. *)
Lemma extract_strictly_ascending (chk : string -> bool) (urls : list string) :
  StronglySorted (fun a b => String.le a b /\ a <> b) (extract_subdomains chk urls).
Proof.
  pose proof (extract_NoDup chk urls) as Hnd.
  pose proof (extract_sorted chk urls) as Hs.
  induction Hs as [|a l Hs IH Hall]; [constructor|].
  apply NoDup_cons in Hnd as [Hnin Hnd].
  constructor; [by apply IH|].
  apply Forall_forall. intros b Hb. split.
  - by eapply Forall_forall in Hall.
  - intros ->. done.
Qed.

(** C6. Whatever the records are, the output has no entry twice, every entry
    has a dot, and the entries ascend in the order of the strings. *)
Theorem extract_nodup_dotted_sorted (chk : string -> bool) (urls : list string) :
  NoDup (extract_subdomains chk urls) /\
  Forall (fun h => Py.contains "." h = true) (extract_subdomains chk urls) /\
  StronglySorted String.le (extract_subdomains chk urls).
Proof.
  split; [apply extract_NoDup | split; [| apply extract_sorted]].
  apply Forall_forall. intros h Hin. by eapply extract_dotted.
Qed.

(** C2, as the code has it. The hostname of a record, that is its netloc up
    to the first colon when that is not empty and has a dot, enters the
    output letter for letter as the record writes it; every entry of the
    output is the hostname of some record, letter for letter, and nothing
    else is added; and two records whose hostnames differ, be it in the case
    of a letter only, give two entries. *)
Theorem extract_keeps_hostname_verbatim
    (chk : string -> bool) (urls : list string) :
  (forall url netloc,
     url ∈ urls -> urlparse_netloc chk url = Ok netloc ->
     Py.truthy (Py.split_head ":" netloc) = true ->
     Py.contains "." (Py.split_head ":" netloc) = true ->
     Py.split_head ":" netloc ∈ extract_subdomains chk urls) /\
  (forall h,
     h ∈ extract_subdomains chk urls ->
     exists url netloc,
       url ∈ urls /\ urlparse_netloc chk url = Ok netloc /\
       h = Py.split_head ":" netloc) /\
  (forall url1 url2 netloc1 netloc2,
     url1 ∈ urls -> url2 ∈ urls ->
     urlparse_netloc chk url1 = Ok netloc1 -> urlparse_netloc chk url2 = Ok netloc2 ->
     Py.truthy (Py.split_head ":" netloc1) = true ->
     Py.contains "." (Py.split_head ":" netloc1) = true ->
     Py.truthy (Py.split_head ":" netloc2) = true ->
     Py.contains "." (Py.split_head ":" netloc2) = true ->
     Py.split_head ":" netloc1 <> Py.split_head ":" netloc2 ->
     exists i j,
       i <> j /\
       extract_subdomains chk urls !! i = Some (Py.split_head ":" netloc1) /\
       extract_subdomains chk urls !! j = Some (Py.split_head ":" netloc2)).
Proof.
  assert (forall url netloc,
            url ∈ urls -> urlparse_netloc chk url = Ok netloc ->
            Py.truthy (Py.split_head ":" netloc) = true ->
            Py.contains "." (Py.split_head ":" netloc) = true ->
            Py.split_head ":" netloc ∈ extract_subdomains chk urls) as Hin.
  { intros url netloc Hurl Hparse Ht Hdot. apply elem_of_extract_subdomains.
    exists url. split; [done|]. by exists netloc. }
  split; [done|]. split.
  - intros h (url & Hurl & netloc & Hparse & -> & _)%elem_of_extract_subdomains.
    by exists url, netloc.
  - intros url1 url2 n1 n2 Hu1 Hu2 Hp1 Hp2 Ht1 Hd1 Ht2 Hd2 Hne.
    destruct (proj1 (list_elem_of_lookup _ _) (Hin url1 n1 Hu1 Hp1 Ht1 Hd1)) as [i Hi].
    destruct (proj1 (list_elem_of_lookup _ _) (Hin url2 n2 Hu2 Hp2 Ht2 Hd2)) as [j Hj].
    exists i, j. split; [|done]. intros ->. congruence.
Qed.

Lemma extract_keeps_hostname_verbatim_witness :
  exists i j,
    i <> j /\
    extract_subdomains reject_bracketed
      ["https://Sub.Example.com:8080/x"; "https://sub.example.com/"] !! i
    = Some "Sub.Example.com" /\
    extract_subdomains reject_bracketed
      ["https://Sub.Example.com:8080/x"; "https://sub.example.com/"] !! j
    = Some "sub.example.com".
Proof.
  apply (proj2 (proj2 (extract_keeps_hostname_verbatim reject_bracketed
           ["https://Sub.Example.com:8080/x"; "https://sub.example.com/"]))
           "https://Sub.Example.com:8080/x" "https://sub.example.com/"
           "Sub.Example.com:8080" "sub.example.com").
  - apply list_elem_of_here.
  - apply list_elem_of_further, list_elem_of_here.
  - vm_compute. reflexivity.
  - vm_compute. reflexivity.
  - reflexivity.
  - reflexivity.
  - reflexivity.
  - reflexivity.
  - discriminate.
Defined.

(** C2 as the specification words it fails: an entry of the output may hold
    capital letters, and two netlocs that differ in letter case only give two
    entries. *)
Lemma extract_not_case_folded :
  ~ (forall (chk : string -> bool) (urls : list string) (h : string),
       h ∈ extract_subdomains chk urls -> is_lowercase h) /\
  extract_subdomains reject_bracketed
    ["https://Sub.Example.com/"; "https://sub.example.com/"]
  = ["Sub.Example.com"; "sub.example.com"].
Proof.
  split; [|vm_compute; reflexivity].
  intros Hall.
  specialize (Hall reject_bracketed ["https://Sub.Example.com/"] "Sub.Example.com").
  assert (is_lowercase "Sub.Example.com") as Hlow.
  { apply Hall. vm_compute. apply list_elem_of_here. }
  unfold is_lowercase in Hlow. vm_compute in Hlow. discriminate Hlow.
Qed.

(** ** Filtering *)

Section filter_facts.

Variable re_search : string -> string -> result bool.

Lemma filter_loop_ext (f g : FilterSpec) (subdomains filtered : list string) :
  (forall s, s ∈ subdomains -> survives re_search f s = survives re_search g s) ->
  filter_loop re_search f subdomains filtered = filter_loop re_search g subdomains filtered.
Proof.
  revert filtered. induction subdomains as [|s rest IH]; intros filtered Hext; [done|].
  simpl. rewrite (Hext s) by apply list_elem_of_here.
  destruct (survives re_search g s) as [keep|e]; [|done]. simpl.
  apply IH. intros s' Hin. apply Hext. by apply list_elem_of_further.
Qed.

Lemma filter_loop_keeps_all (f : FilterSpec) (subdomains filtered : list string) :
  (forall s, s ∈ subdomains -> survives re_search f s = Ok true) ->
  filter_loop re_search f subdomains filtered = Ok (filtered ++ subdomains).
Proof.
  revert filtered. induction subdomains as [|s rest IH]; intros filtered Hall; simpl.
  - by rewrite app_nil_r.
  - rewrite (Hall s) by apply list_elem_of_here. simpl.
    rewrite IH; [by rewrite <- app_assoc|].
    intros s' Hin. apply Hall. by apply list_elem_of_further.
Qed.

(** A dictionary without keys lets every hostname through. *)
Lemma survives_no_keys (f : FilterSpec) (s : string) :
  filters_truthy (Some f) = false -> survives re_search f s = Ok true.
Proof.
  destruct f as [[rx|] [mn|] [mx|] [ws|]]; simpl; try discriminate. done.
Qed.

(** The early [return subdomains] gives what the loop would give. *)
Lemma filter_subdomains_loop (f : FilterSpec) (subdomains : list string) :
  filter_subdomains re_search subdomains (Some f) = filter_loop re_search f subdomains [].
Proof.
  unfold filter_subdomains.
  destruct (filters_truthy (Some f)) eqn:Ht; [done|].
  rewrite filter_loop_keeps_all; [done|].
  intros s _. by apply survives_no_keys.
Qed.

(** The loop keeps the hostnames that survive, in their order. *)
Lemma filter_loop_order (f : FilterSpec) (subdomains filtered out : list string) :
  filter_loop re_search f subdomains filtered = Ok out ->
  exists kept, out = filtered ++ kept /\ sublist kept subdomains.
Proof.
  revert filtered. induction subdomains as [|s rest IH]; intros filtered; simpl.
  - intros [= <-]. exists []. by rewrite app_nil_r.
  - destruct (survives re_search f s) as [[|]|e]; simpl; [| |done].
    + intros (kept & -> & Hsub)%IH. exists (s :: kept).
      rewrite <- app_assoc. split; [done | by constructor].
    + intros (kept & -> & Hsub)%IH. exists kept. split; [done | by constructor].
Qed.

End filter_facts.

(** C8. Without a filter dictionary, and with the dictionary without keys,
    the hostnames come back as they went in. *)
Theorem filter_identity
    (re_search : string -> string -> result bool) (subdomains : list string) :
  filter_subdomains re_search subdomains None = Ok subdomains /\
  filter_subdomains re_search subdomains (Some no_filters) = Ok subdomains.
Proof. split; reflexivity. Qed.

(** C4, as the code has it. The three hostnames are 13, 14 and 15 characters
    long: [min_length] 16 leaves none of them, [min_length] 15 leaves the
    last. *)
Theorem filter_min_length_example (re_search : string -> string -> result bool) :
  filter_subdomains re_search
    ["a.example.com"; "bb.example.com"; "ccc.example.com"]
    (Some (with_min_length (Some 16) no_filters)) = Ok [] /\
  filter_subdomains re_search
    ["a.example.com"; "bb.example.com"; "ccc.example.com"]
    (Some (with_min_length (Some 15) no_filters)) = Ok ["ccc.example.com"].
Proof. split; reflexivity. Qed.

(** C4 as the specification words it fails, whatever [re] does. *)
Lemma filter_min_length_16_not_ccc :
  ~ exists re_search : string -> string -> result bool,
      filter_subdomains re_search
        ["a.example.com"; "bb.example.com"; "ccc.example.com"]
        (Some (with_min_length (Some 16) no_filters)) = Ok ["ccc.example.com"].
Proof. intros [re_search H]. vm_compute in H. discriminate H. Qed.

(** C9. A length bound of 0 is skipped by the truth test in front of the
    comparison: the dictionary with [min_length] or [max_length] 0 filters as
    the dictionary without that key, and [max_length] 0 rejects no hostname. *)
Theorem filter_zero_length_bound_ignored
    (re_search : string -> string -> result bool)
    (subdomains : list string) (f : FilterSpec) :
  filter_subdomains re_search subdomains (Some (with_min_length (Some 0) f))
  = filter_subdomains re_search subdomains (Some (with_min_length None f)) /\
  filter_subdomains re_search subdomains (Some (with_max_length (Some 0) f))
  = filter_subdomains re_search subdomains (Some (with_max_length None f)) /\
  (forall s, max_length_rejects (with_max_length (Some 0) f) s = false) /\
  (forall s, min_length_rejects (with_min_length (Some 0) f) s = false).
Proof.
  repeat split; try done.
  - rewrite !filter_subdomains_loop. apply filter_loop_ext. intros s _. done.
  - rewrite !filter_subdomains_loop. apply filter_loop_ext. intros s _. done.
Qed.

(** No capital letter is left in a lowered string. *)
Lemma isupper_lower_char (c : ascii) : Py.isupper (Py.lower_char c) = false.
Proof. destruct c as [[] [] [] [] [] [] [] []]; reflexivity. Qed.

Lemma has_uppercase_lower (s : string) : has_uppercase (Py.lower s) = false.
Proof.
  induction s as [|c s IH]; [done|]. simpl.
  by rewrite isupper_lower_char, IH.
Qed.

Lemma has_uppercase_startswith (w s : string) :
  Py.startswith w s = true -> has_uppercase w = true -> has_uppercase s = true.
Proof.
  revert s. induction w as [|a w IH]; intros [|b s]; simpl; try done.
  intros [Hab Hws]%andb_true_iff [Ha | Hw]%orb_true_iff.
  - apply Ascii.eqb_eq in Hab as <-. by rewrite Ha.
  - rewrite (IH s Hws Hw). apply orb_true_r.
Qed.

Lemma has_uppercase_contains (w s : string) :
  Py.contains w s = true -> has_uppercase w = true -> has_uppercase s = true.
Proof.
  induction s as [|b s IH]; simpl.
  - rewrite orb_false_r. apply has_uppercase_startswith.
  - intros [Hpre | Hin]%orb_true_iff Hw.
    + by apply (has_uppercase_startswith w (String b s)).
    + rewrite (IH Hin Hw). apply orb_true_r.
Qed.

(** A word with a capital letter occurs in no lowered hostname. *)
Lemma uppercase_word_not_in_lower (w s : string) :
  has_uppercase w = true -> Py.contains w (Py.lower s) = false.
Proof.
  intros Hw. destruct (Py.contains w (Py.lower s)) eqn:Hc; [|done].
  pose proof (has_uppercase_contains _ _ Hc Hw) as Hup.
  by rewrite has_uppercase_lower in Hup.
Qed.

Lemma exclude_words_rejects_existsb (f : FilterSpec) (s : string) :
  exclude_words_rejects f s =
  match exclude_words f with
  | Some words => existsb (fun word => Py.contains word (Py.lower s)) words
  | None => false
  end.
Proof. unfold exclude_words_rejects. by destruct (exclude_words f) as [[|w ws]|]. Qed.

(** On the strings of code points below 256 every capital letter has a small
    letter of its own, so there a word of [exclude_words] that has a capital
    letter is found in no lowered hostname, and the filter gives the same
    list with the word as without it. *)
Theorem filter_uppercase_exclude_word_inert
    (re_search : string -> string -> result bool)
    (subdomains : list string) (f : FilterSpec)
    (before after : list string) (word : string) :
  has_uppercase word = true ->
  (forall s, Py.contains word (Py.lower s) = false) /\
  filter_subdomains re_search subdomains
    (Some (with_exclude_words (Some (before ++ word :: after)) f))
  = filter_subdomains re_search subdomains
      (Some (with_exclude_words (Some (before ++ after)) f)).
Proof.
  intros Hw. split; [intros s; by apply uppercase_word_not_in_lower|].
  rewrite !filter_subdomains_loop. apply filter_loop_ext. intros s _.
  unfold survives. rewrite !exclude_words_rejects_existsb. simpl.
  rewrite !existsb_app. simpl.
  by rewrite (uppercase_word_not_in_lower word s Hw).
Qed.

Lemma filter_uppercase_exclude_word_inert_witness :
  filter_subdomains (fun _ _ => Ok true) ["admin.example.com"; "www.example.com"]
    (Some (with_exclude_words (Some (["www"] ++ "Admin" :: [])) no_filters))
  = filter_subdomains (fun _ _ => Ok true) ["admin.example.com"; "www.example.com"]
      (Some (with_exclude_words (Some (["www"] ++ [])) no_filters)).
Proof.
  apply (filter_uppercase_exclude_word_inert (fun _ _ => Ok true)
           ["admin.example.com"; "www.example.com"] no_filters ["www"] [] "Admin").
  reflexivity.
Defined.

(** *** The word test on strings of every code point *)

Section wide_facts.

Variable str_lower : Wide.str -> Wide.str.
Variable re_search : Wide.str -> Wide.str -> result bool.

Lemma wide_startswith_elem (w s : Wide.str) (c : N) :
  Wide.startswith w s = true -> c ∈ w -> c ∈ s.
Proof.
  revert s. induction w as [|a w IH]; intros [|b s]; simpl; try done.
  - by intros _ ?%elem_of_nil.
  - intros [Hab Hws]%andb_true_iff [->|Hin]%elem_of_cons.
    + apply N.eqb_eq in Hab as <-. apply list_elem_of_here.
    + apply list_elem_of_further. by apply IH.
Qed.

(** Every code point of a word that occurs in a string is in the string. *)
Lemma wide_contains_elem (w s : Wide.str) (c : N) :
  Wide.contains w s = true -> c ∈ w -> c ∈ s.
Proof.
  induction s as [|b s IH]; simpl.
  - rewrite orb_false_r. apply wide_startswith_elem.
  - intros [Hpre | Hin]%orb_true_iff Hc.
    + by apply (wide_startswith_elem w (b :: s)).
    + apply list_elem_of_further. by apply IH.
Qed.

Lemma wide_exclude_words_rejects_existsb (f : Wide.FilterSpec) (s : Wide.str) :
  Wide.exclude_words_rejects str_lower f s =
  match Wide.exclude_words f with
  | Some words => existsb (fun word => Wide.contains word (str_lower s)) words
  | None => false
  end.
Proof.
  unfold Wide.exclude_words_rejects. by destruct (Wide.exclude_words f) as [[|w ws]|].
Qed.

Lemma wide_filter_loop_ext (f g : Wide.FilterSpec) (subdomains filtered : list Wide.str) :
  (forall s, s ∈ subdomains ->
     Wide.survives str_lower re_search f s = Wide.survives str_lower re_search g s) ->
  Wide.filter_loop str_lower re_search f subdomains filtered
  = Wide.filter_loop str_lower re_search g subdomains filtered.
Proof.
  revert filtered. induction subdomains as [|s rest IH]; intros filtered Hext; [done|].
  simpl. rewrite (Hext s) by apply list_elem_of_here.
  destruct (Wide.survives str_lower re_search g s) as [keep|e]; [|done]. simpl.
  apply IH. intros s' Hin. apply Hext. by apply list_elem_of_further.
Qed.

(** With the key [exclude_words] present the dictionary is true and the loop
    runs. *)
Lemma wide_filter_subdomains_words
    (f : Wide.FilterSpec) (words : list Wide.str) (subdomains : list Wide.str) :
  Wide.filter_subdomains str_lower re_search subdomains
    (Some (Wide.with_exclude_words (Some words) f))
  = Wide.filter_loop str_lower re_search
      (Wide.with_exclude_words (Some words) f) subdomains [].
Proof.
  unfold Wide.filter_subdomains, Wide.filters_truthy. cbn [Wide.exclude_words Wide.with_exclude_words].
  rewrite (bool_decide_eq_true_2 (is_Some (Some words))) by eauto.
  by rewrite orb_true_r.
Qed.

(** The filter with two word lists that reject the same hostnames. *)
Lemma wide_filter_words_ext
    (f : Wide.FilterSpec) (ws1 ws2 : list Wide.str) (subdomains : list Wide.str) :
  (forall s, existsb (fun word => Wide.contains word (str_lower s)) ws1
             = existsb (fun word => Wide.contains word (str_lower s)) ws2) ->
  Wide.filter_subdomains str_lower re_search subdomains
    (Some (Wide.with_exclude_words (Some ws1) f))
  = Wide.filter_subdomains str_lower re_search subdomains
      (Some (Wide.with_exclude_words (Some ws2) f)).
Proof.
  intros Hsame. rewrite !wide_filter_subdomains_words.
  apply wide_filter_loop_ext. intros s _.
  unfold Wide.survives. rewrite !wide_exclude_words_rejects_existsb.
  cbn [Wide.exclude_words Wide.with_exclude_words]. by rewrite Hsame.
Qed.

End wide_facts.

(** Lowering on the code points below 256 changes no code point of a lowered
    string. *)
Lemma lower_char_idempotent (a : ascii) :
  Py.lower_char (Py.lower_char a) = Py.lower_char a.
Proof. destruct a as [[] [] [] [] [] [] [] []]; reflexivity. Qed.

Lemma lower_latin1_char_idempotent (c : N) :
  Wide.lower_latin1_char (Wide.lower_latin1_char c) = Wide.lower_latin1_char c.
Proof.
  unfold Wide.lower_latin1_char at 2 3.
  destruct (c <? 256)%N eqn:Hc.
  - unfold Wide.lower_latin1_char, Py.code.
    pose proof (N_ascii_bounded (Py.lower_char (ascii_of_N c))) as Hb.
    apply N.ltb_lt in Hb. rewrite Hb.
    by rewrite ascii_N_embedding, lower_char_idempotent.
  - unfold Wide.lower_latin1_char. by rewrite Hc.
Qed.

Lemma lower_latin1_stable (s : Wide.str) (d : N) :
  d ∈ Wide.lower_latin1 s -> Wide.lower_latin1 [d] = [d].
Proof.
  unfold Wide.lower_latin1.
  intros (c & -> & _)%list_elem_of_fmap. simpl.
  by rewrite lower_latin1_char_idempotent.
Qed.

(** On strings of code points below 256 the lowering and the substring test
    of this part are those of the part above. *)
Lemma lower_latin1_of_string (s : string) :
  Wide.lower_latin1 (Wide.of_string s) = Wide.of_string (Py.lower s).
Proof.
  unfold Wide.lower_latin1, Wide.of_string.
  induction s as [|a s IH]; [done|]. cbn [String.list_ascii_of_string Py.lower fmap list_fmap].
  f_equal; [|exact IH].
  unfold Wide.lower_latin1_char, Py.code.
  pose proof (N_ascii_bounded a) as Hb. apply N.ltb_lt in Hb. rewrite Hb.
  by rewrite ascii_N_embedding.
Qed.

Lemma code_eqb (a b : ascii) : (Py.code a =? Py.code b)%N = Ascii.eqb a b.
Proof.
  destruct (Ascii.eqb_spec a b) as [->|Hne]; [apply N.eqb_refl|].
  apply N.eqb_neq. intros Heq. apply Hne.
  rewrite <- (ascii_N_embedding a), <- (ascii_N_embedding b).
  unfold Py.code in Heq. by rewrite Heq.
Qed.

Lemma startswith_of_string (p s : string) :
  Wide.startswith (Wide.of_string p) (Wide.of_string s) = Py.startswith p s.
Proof.
  revert s. induction p as [|a p IH]; intros [|b s]; try done.
  change (((Py.code a =? Py.code b)%N
           && Wide.startswith (Wide.of_string p) (Wide.of_string s))
          = (Ascii.eqb a b && Py.startswith p s)).
  by rewrite code_eqb, IH.
Qed.

Lemma contains_of_string (w s : string) :
  Wide.contains (Wide.of_string w) (Wide.of_string s) = Py.contains w s.
Proof.
  induction s as [|b s IH].
  - change ((Wide.startswith (Wide.of_string w) (Wide.of_string "") || false)
            = (Py.startswith w "" || false)).
    by rewrite startswith_of_string.
  - change ((Wide.startswith (Wide.of_string w) (Wide.of_string (String b s))
             || Wide.contains (Wide.of_string w) (Wide.of_string s))
            = (Py.startswith w (String b s) || Py.contains w s)).
    by rewrite startswith_of_string, IH.
Qed.

(** C10, as the code has it. Whatever [str.lower] does, as long as lowering
    a code point of a lowered string gives that code point back (which the
    run time's does): a word of [exclude_words] with a code point that
    [lower] changes occurs in no lowered hostname, so it excludes none and
    the filter gives the same list with the word as without it. *)
Theorem filter_exclude_word_lowered_away
    (str_lower : Wide.str -> Wide.str)
    (re_search : Wide.str -> Wide.str -> result bool)
    (subdomains : list Wide.str) (f : Wide.FilterSpec)
    (before after : list Wide.str) (word : Wide.str) (c : N) :
  (forall s d, d ∈ str_lower s -> str_lower [d] = [d]) ->
  c ∈ word -> str_lower [c] <> [c] ->
  (forall s, Wide.contains word (str_lower s) = false) /\
  Wide.filter_subdomains str_lower re_search subdomains
    (Some (Wide.with_exclude_words (Some (before ++ word :: after)) f))
  = Wide.filter_subdomains str_lower re_search subdomains
      (Some (Wide.with_exclude_words (Some (before ++ after)) f)).
Proof.
  intros Hstable Hc Hchanged.
  assert (forall s, Wide.contains word (str_lower s) = false) as Hnever.
  { intros s. destruct (Wide.contains word (str_lower s)) eqn:Hin; [|done].
    destruct Hchanged. apply (Hstable s). by apply (wide_contains_elem word). }
  split; [done|].
  apply wide_filter_words_ext. intros s.
  rewrite !existsb_app. simpl. by rewrite Hnever.
Qed.

Lemma filter_exclude_word_lowered_away_witness :
  (forall s, Wide.contains (Wide.of_string "Admin") (Wide.lower_latin1 s) = false) /\
  Wide.filter_subdomains Wide.lower_latin1 (fun _ _ => Ok true)
    [Wide.of_string "admin.example.com"; Wide.of_string "www.example.com"]
    (Some (Wide.with_exclude_words
             (Some ([Wide.of_string "www"] ++ Wide.of_string "Admin" :: []))
             Wide.no_filters))
  = Wide.filter_subdomains Wide.lower_latin1 (fun _ _ => Ok true)
      [Wide.of_string "admin.example.com"; Wide.of_string "www.example.com"]
      (Some (Wide.with_exclude_words (Some ([Wide.of_string "www"] ++ []))
               Wide.no_filters)).
Proof.
  apply (filter_exclude_word_lowered_away Wide.lower_latin1 (fun _ _ => Ok true)
           [Wide.of_string "admin.example.com"; Wide.of_string "www.example.com"]
           Wide.no_filters [Wide.of_string "www"] [] (Wide.of_string "Admin") 65%N).
  - apply lower_latin1_stable.
  - vm_compute. apply list_elem_of_here.
  - vm_compute. discriminate.
Defined.

(** C10 as the specification words it fails. U+2102 is a capital letter that
    [lower] leaves alone: with any [lower] and [isupper] that do at U+2102
    what the run time does, the word made of U+2102 has a capital letter and
    still excludes the hostname that begins with it, which is kept when the
    word is not in the list. So no such [lower] makes a word with a capital
    letter inert. *)
Lemma uppercase_exclude_word_excludes :
  (forall (str_lower : Wide.str -> Wide.str) (char_isupper : N -> bool)
          (re_search : Wide.str -> Wide.str -> result bool),
     Wide.lowers_as_python str_lower char_isupper ->
     Wide.has_uppercase char_isupper [Wide.double_struck_C] = true /\
     Wide.filter_subdomains str_lower re_search [Wide.double_struck_host]
       (Some (Wide.with_exclude_words (Some [[Wide.double_struck_C]]) Wide.no_filters))
     = Ok [] /\
     Wide.filter_subdomains str_lower re_search [Wide.double_struck_host]
       (Some (Wide.with_exclude_words (Some []) Wide.no_filters))
     = Ok [Wide.double_struck_host]) /\
  ~ (exists (str_lower : Wide.str -> Wide.str) (char_isupper : N -> bool),
       Wide.lowers_as_python str_lower char_isupper /\
       forall (re_search : Wide.str -> Wide.str -> result bool)
              (subdomains : list Wide.str) (f : Wide.FilterSpec)
              (before after : list Wide.str) (word : Wide.str),
         Wide.has_uppercase char_isupper word = true ->
         Wide.filter_subdomains str_lower re_search subdomains
           (Some (Wide.with_exclude_words (Some (before ++ word :: after)) f))
         = Wide.filter_subdomains str_lower re_search subdomains
             (Some (Wide.with_exclude_words (Some (before ++ after)) f))) /\
  Wide.lower_latin1 Wide.double_struck_host = Wide.double_struck_host /\
  Wide.filter_subdomains Wide.lower_latin1 (fun _ _ => Ok true) [Wide.double_struck_host]
    (Some (Wide.with_exclude_words (Some [[Wide.double_struck_C]]) Wide.no_filters))
  = Ok [].
Proof.
  assert (forall (str_lower : Wide.str -> Wide.str) (char_isupper : N -> bool)
                 (re_search : Wide.str -> Wide.str -> result bool),
            Wide.lowers_as_python str_lower char_isupper ->
            Wide.has_uppercase char_isupper [Wide.double_struck_C] = true /\
            Wide.filter_subdomains str_lower re_search [Wide.double_struck_host]
              (Some (Wide.with_exclude_words (Some [[Wide.double_struck_C]]) Wide.no_filters))
            = Ok [] /\
            Wide.filter_subdomains str_lower re_search [Wide.double_struck_host]
              (Some (Wide.with_exclude_words (Some []) Wide.no_filters))
            = Ok [Wide.double_struck_host]) as Hrun.
  { intros str_lower char_isupper re_search [Hup Hlow]. split; [|split].
    - unfold Wide.has_uppercase. simpl. by rewrite Hup.
    - rewrite wide_filter_subdomains_words. simpl.
      unfold Wide.survives, Wide.exclude_words_rejects. simpl.
      rewrite Hlow. vm_compute. reflexivity.
    - rewrite wide_filter_subdomains_words. reflexivity. }
  split; [done|]. split; [|split].
  - intros (str_lower & char_isupper & Hpy & Hclaim).
    destruct (Hrun str_lower char_isupper (fun _ _ => Ok true) Hpy) as (Hup & Hwith & Hwithout).
    specialize (Hclaim (fun _ _ => Ok true) [Wide.double_struck_host] Wide.no_filters
                  [] [] [Wide.double_struck_C] Hup).
    pose proof (eq_trans (eq_sym Hwith) (eq_trans Hclaim Hwithout)) as Habs.
    discriminate Habs.
  - vm_compute. reflexivity.
  - vm_compute. reflexivity.
Qed.

(** ** DNS validation *)

Section dns_facts.

Variable resolve : string -> result (list string).

Lemma dns_check_loop_raises (subdomains valid : list string) (d : string) (e : py_exn) :
  d ∈ subdomains -> resolve d = Raise e ->
  exists e', dns_check_loop resolve subdomains valid = Raise e'.
Proof.
  revert valid. induction subdomains as [|x rest IH]; intros valid Hin Hd.
  - by apply elem_of_nil in Hin.
  - simpl. destruct (resolve x) as [answers|ex] eqn:Hx; simpl; [|by exists ex].
    apply elem_of_cons in Hin as [-> | Hin]; [congruence|].
    by apply IH.
Qed.

(** When every lookup returns, the function keeps the names with a record,
    in their order. *)
Lemma dns_check_loop_ok (subdomains valid : list string) :
  (forall d, d ∈ subdomains -> exists answers, resolve d = Ok answers) ->
  dns_check_loop resolve subdomains valid =
  Ok (valid ++ filter (fun d => has_address resolve d = true) subdomains).
Proof.
  revert valid. induction subdomains as [|x rest IH]; intros valid Hall; simpl.
  - by rewrite app_nil_r.
  - destruct (Hall x) as [answers Hx]; [apply list_elem_of_here|].
    rewrite Hx. simpl.
    rewrite IH by (intros d Hd; apply Hall; by apply list_elem_of_further).
    destruct answers as [|a answers].
    + rewrite filter_cons_False; [done|]. unfold has_address. by rewrite Hx.
    + rewrite filter_cons_True by (unfold has_address; by rewrite Hx).
      by rewrite <- app_assoc.
Qed.

End dns_facts.

(** C1, what the code does instead. A lookup that raises is not caught: the
    exception leaves [dns_check_domain], and no list, empty or not, is
    returned. *)
Theorem dns_lookup_failure_aborts
    (resolve : string -> result (list string))
    (subdomains : list string) (d : string) (e : py_exn) :
  d ∈ subdomains -> resolve d = Raise e ->
  exists e', dns_check_domain resolve subdomains = Raise e'.
Proof. apply dns_check_loop_raises. Qed.

Lemma dns_lookup_failure_aborts_witness :
  exists e', dns_check_domain (fun _ => Raise (DnsException NXDOMAIN))
               ["dead.example.com"] = Raise e'.
Proof.
  apply (dns_lookup_failure_aborts (fun _ => Raise (DnsException NXDOMAIN))
           ["dead.example.com"] "dead.example.com" (DnsException NXDOMAIN)).
  - apply list_elem_of_here.
  - reflexivity.
Defined.

(** With every lookup failing the batch ends in the first failure. *)
Lemma dns_all_lookups_fail_example :
  dns_check_domain (fun _ => Raise (DnsException NXDOMAIN))
    ["dead.example.com"; "gone.example.com"] = Raise (DnsException NXDOMAIN).
Proof. reflexivity. Qed.

(** ** Fetching with retries *)

Section fetch_facts.

Variable requests_get : list event -> request -> result response.

(** Every request fails: the server is not reached, or answers with an
    error status. *)
Hypothesis every_request_fails :
  forall tr req, exists e, (http_get requests_get req tr).2 = Raise e.

Lemma http_get_trace (req : request) (tr : list event) :
  (http_get requests_get req tr).1 = tr ++ [EvGet req].
Proof. reflexivity. Qed.

(** A failing attempt makes one request and raises its failure. *)
Lemma fetch_body_fails (domain : string) (cfg : config) (tr : list event) :
  exists e,
    (http_get requests_get (archive_request domain cfg true) tr).2 = Raise e /\
    fetch_data_with_progress_body requests_get domain cfg tr
    = (tr ++ [EvGet (archive_request domain cfg true)], Raise e).
Proof.
  destruct (every_request_fails tr (archive_request domain cfg true)) as [e He].
  exists e. split; [done|].
  unfold fetch_data_with_progress_body.
  pose proof (http_get_trace (archive_request domain cfg true) tr) as Htr.
  destruct (http_get requests_get (archive_request domain cfg true) tr)
    as [tr1 r1].
  simpl in Htr, He. by subst.
Qed.

(** The decorator, for any arguments: with [max_retries = i + n + 1] and the
    attempts [i, ..., i + n] still to make, it makes [n + 1] attempts, sleeps
    [delay] seconds between them and raises the failure of the last. *)
Lemma time_sleep_nonneg (delay : Z) (tr : list event) :
  0 <= delay <= max_sleep_seconds ->
  time_sleep delay tr = (tr ++ [EvSleep delay], Ok tt).
Proof.
  intros Hd. unfold time_sleep.
  destruct (Z.ltb_spec delay (- max_sleep_seconds)); [unfold max_sleep_seconds in *; lia|].
  destruct (Z.ltb_spec max_sleep_seconds delay); [lia|].
  by destruct (Z.ltb_spec delay 0); [lia|].
Qed.

Lemma wrapper_loop_exhausts (domain : string) (cfg : config) (delay : Z) (i n : nat)
    (tr : list event) :
  0 <= delay <= max_sleep_seconds ->
  let r := archive_request domain cfg true in
  let body := fetch_data_with_progress_body requests_get domain cfg in
  exists e,
    (http_get requests_get r (tr ++ concat (replicate n [EvGet r; EvSleep delay]))).2
      = Raise e /\
    wrapper_loop (Z.of_nat (i + n + 1)) delay body (Z.of_nat <$> seq i (S n)) tr
    = (tr ++ exhausted_trace n delay r, Raise e).
Proof.
  intros Hdelay r body. revert i tr. induction n as [|n IH]; intros i tr.
  - destruct (fetch_body_fails domain cfg tr) as (e & He & Hbody).
    exists e. simpl. rewrite app_nil_r. split; [done|].
    fold body in Hbody. rewrite Hbody.
    by destruct (Z.eqb_spec (Z.of_nat i) (Z.of_nat (i + 0 + 1) - 1)); [|lia].
  - destruct (fetch_body_fails domain cfg tr) as (e0 & _ & Hbody).
    destruct (IH (S i) (tr ++ [EvGet r; EvSleep delay])) as (e & He & Hloop).
    exists e. split.
    { simpl. simpl in He. by rewrite <- app_assoc in He. }
    change (Z.of_nat <$> seq i (S (S n)))
      with (Z.of_nat i :: (Z.of_nat <$> seq (S i) (S n))).
    cbn [wrapper_loop]. fold body in Hbody. rewrite Hbody.
    destruct (Z.eqb_spec (Z.of_nat i) (Z.of_nat (i + S n + 1) - 1)); [lia|].
    rewrite time_sleep_nonneg by done.
    replace (Z.of_nat (i + S n + 1)) with (Z.of_nat (S i + n + 1)) by lia.
    rewrite <- app_assoc. cbn [app]. fold r. rewrite Hloop.
    unfold exhausted_trace. simpl. by rewrite <- !app_assoc.
Qed.

Lemma retry_on_failure_exhausts (domain : string) (cfg : config) (delay : Z) (n : nat) :
  0 <= delay <= max_sleep_seconds ->
  let r := archive_request domain cfg true in
  exists e,
    (http_get requests_get r (concat (replicate n [EvGet r; EvSleep delay]))).2
      = Raise e /\
    retry_on_failure (Z.of_nat (S n)) delay
      (fetch_data_with_progress_body requests_get domain cfg) []
    = (exhausted_trace n delay r, Raise e).
Proof.
  intros Hdelay r.
  destruct (wrapper_loop_exhausts domain cfg delay 0 n [] Hdelay) as (e & He & Hloop).
  exists e. split; [done|].
  unfold retry_on_failure, range. rewrite Nat2Z.id.
  replace (Z.of_nat (S n)) with (Z.of_nat (0 + n + 1)) by lia.
  exact Hloop.
Qed.

End fetch_facts.

(** C3, what the code does instead. The decorator is applied with the
    constants 3 and 2: when every request fails, the fetch makes three
    attempts two seconds apart and raises the failure of the third, whatever
    [max_retries] and [retry_delay] the configuration holds. *)
Theorem fetch_retry_budget_hard_wired
    (requests_get : list event -> request -> result response)
    (domain : string) (cfg : config) :
  (forall tr req, exists e, (http_get requests_get req tr).2 = Raise e) ->
  exists tr e,
    fetch_data_with_progress requests_get domain cfg [] = (tr, Raise e) /\
    tr = exhausted_trace 2 2 (archive_request domain cfg true) /\
    length (requests_of tr) = 3%nat /\
    sleeps_of tr = [2; 2] /\
    (http_get requests_get (archive_request domain cfg true)
       (concat (replicate 2 [EvGet (archive_request domain cfg true); EvSleep 2]))).2
    = Raise e.
Proof.
  intros Hfail.
  destruct (retry_on_failure_exhausts requests_get Hfail domain cfg 2 2
              ltac:(unfold max_sleep_seconds; lia))
    as (e & He & Hrun).
  exists (exhausted_trace 2 2 (archive_request domain cfg true)), e.
  repeat split; done.
Qed.

Lemma fetch_retry_budget_hard_wired_witness :
  exists tr e,
    fetch_data_with_progress unreachable "example.com" five_attempts_config []
    = (tr, Raise e) /\
    tr = exhausted_trace 2 2 (archive_request "example.com" five_attempts_config true) /\
    length (requests_of tr) = 3%nat /\
    sleeps_of tr = [2; 2] /\
    (http_get unreachable (archive_request "example.com" five_attempts_config true)
       (concat (replicate 2
          [EvGet (archive_request "example.com" five_attempts_config true); EvSleep 2]))).2
    = Raise e.
Proof.
  apply (fetch_retry_budget_hard_wired unreachable "example.com" five_attempts_config).
  intros tr req. exists (RequestException ConnectionError). reflexivity.
Defined.

(** The configuration asks for five attempts one second apart and gets three
    attempts two seconds apart. *)
Lemma fetch_five_attempts_config_example :
  let run := fetch_data_with_progress unreachable "example.com" five_attempts_config [] in
  max_retries five_attempts_config = 5 /\
  retry_delay five_attempts_config = 1 /\
  length (requests_of run.1) = 3%nat /\
  sleeps_of run.1 = [2; 2] /\
  run.2 = Raise (RequestException ConnectionError).
Proof. repeat split; reflexivity. Qed.

(** With the default configuration the sleeps differ from [retry_delay]
    too. *)
Lemma fetch_default_config_example :
  let run := fetch_data_with_progress unreachable "example.com" default_config [] in
  retry_delay default_config = 1 /\ sleeps_of run.1 = [2; 2].
Proof. split; reflexivity. Qed.

(** A server that answers the third attempt is not asked a fourth time. *)
Lemma fetch_third_attempt_succeeds_example :
  fetch_data_with_progress
    (fun tr _ => if (length tr <? 4)%nat then Raise (RequestException RequestTimeout)
                 else Ok {| status_code := 200;
                            text := "https://a.example.com/" +:+ newline +:+ newline
                                    +:+ " http://b.example.com/x " |})
    "example.com" default_config []
  = (exhausted_trace 2 2 (archive_request "example.com" default_config true)
       ++ [EvGet (archive_request "example.com" default_config false)],
     Ok (Some ["https://a.example.com/"; "http://b.example.com/x"])).
Proof. vm_compute. reflexivity. Qed.

(** ** Domain validation *)

Lemma string_app_cons (c : ascii) (s t : string) :
  String c s +:+ t = String c (s +:+ t).
Proof. reflexivity. Qed.

Lemma string_app_single (c : ascii) (t : string) :
  String c EmptyString +:+ t = String c t.
Proof. reflexivity. Qed.

Lemma string_app_nil_r (s : string) : s +:+ EmptyString = s.
Proof. induction s as [|c s IH]; [done|]. by rewrite string_app_cons, IH. Qed.

Lemma string_app_assoc (s1 s2 s3 : string) :
  (s1 +:+ s2) +:+ s3 = s1 +:+ (s2 +:+ s3).
Proof. induction s1 as [|c s1 IH]; [done|]. by rewrite !string_app_cons, IH. Qed.

Lemma string_app_length (s1 s2 : string) :
  String.length (s1 +:+ s2) = (String.length s1 + String.length s2)%nat.
Proof. induction s1 as [|c s1 IH]; [done|]. rewrite string_app_cons. simpl. by rewrite IH. Qed.

Lemma string_app_eq_nil (s1 s2 : string) :
  s1 +:+ s2 = EmptyString -> s1 = EmptyString /\ s2 = EmptyString.
Proof. by destruct s1. Qed.

Lemma all_chars_app (p : ascii -> bool) (s1 s2 : string) :
  Py.all_chars p (s1 +:+ s2) = Py.all_chars p s1 && Py.all_chars p s2.
Proof.
  induction s1 as [|c s1 IH]; [done|].
  rewrite string_app_cons. simpl. by rewrite IH, andb_assoc.
Qed.

Lemma code_inj (c d : ascii) : Py.code c = Py.code d -> c = d.
Proof.
  unfold Py.code. intros H.
  by rewrite <- (ascii_N_embedding c), <- (ascii_N_embedding d), H.
Qed.

Module ReFacts.
Import Re.

(** The matcher accepts the strings of the pattern only. *)

Lemma cat_sound (r1 r2 : regex) (s : string) :
  matches (cat r1 r2) s -> matches (Cat r1 r2) s.
Proof.
  destruct r1; simpl; try done.
  - inversion 1.
  - intros H. by apply (matches_cat Empty r2 EmptyString s); [constructor|].
Qed.

Lemma alt_sound (r1 r2 : regex) (s : string) :
  matches (alt r1 r2) s -> matches (Alt r1 r2) s.
Proof.
  destruct r1, r2; simpl; try done;
    first [ by apply matches_alt_l | by apply matches_alt_r ].
Qed.

Lemma nullable_sound (r : regex) : nullable r = true -> matches r EmptyString.
Proof.
  induction r; simpl; try done; try by constructor.
  - intros [H1 H2]%andb_true_iff.
    by apply (matches_cat r1 r2 EmptyString EmptyString); auto.
  - intros [H1 | H2]%orb_true_iff; [apply matches_alt_l | apply matches_alt_r]; auto.
Qed.

Lemma deriv_sound (c : ascii) (r : regex) (s : string) :
  matches (deriv c r) s -> matches r (String c s).
Proof.
  revert s. induction r as [| |p|r1 IH1 r2 IH2|r1 IH1 r2 IH2|r IH|r IH|n r IH|];
    intros s; simpl.
  - inversion 1.
  - inversion 1.
  - destruct (p c) eqn:Hp; inversion 1; subst. by constructor.
  - assert (matches (cat (deriv c r1) r2) s -> matches (Cat r1 r2) (String c s)) as Hcat.
    { intros H%cat_sound. inversion H as [| |? ? s1 s2 H1 H2| | | | | | | | | |]; subst.
      apply (matches_cat r1 r2 (String c s1) s2); auto. }
    destruct (nullable r1) eqn:Hn; [|done].
    intros H%alt_sound. inversion H; subst; [auto|].
    apply (matches_cat r1 r2 EmptyString (String c s)); [by apply nullable_sound | auto].
  - intros H%alt_sound. inversion H; subst;
      [apply matches_alt_l | apply matches_alt_r]; auto.
  - intros H. apply matches_opt_some. auto.
  - intros H%cat_sound. inversion H as [| |? ? s1 s2 H1 H2| | | | | | | | | |]; subst.
    apply (matches_star_cons r (String c s1) s2); auto.
  - destruct n as [|n]; [inversion 1|].
    intros H%cat_sound. inversion H as [| |? ? s1 s2 H1 H2| | | | | | | | | |]; subst.
    apply (matches_upto_cons n r (String c s1) s2); auto.
  - destruct (N.eqb_spec (Py.code c) 10) as [Hc|Hc]; inversion 1; subst.
    assert (c = "010"%char) as -> by (by apply code_inj).
    constructor.
Qed.

Lemma re_match_sound (r : regex) (s : string) :
  re_match r s = true -> matches r s.
Proof.
  revert r. induction s as [|c s IH]; intros r; simpl.
  - apply nullable_sound.
  - intros H. by apply deriv_sound, IH.
Qed.

(** The matcher accepts every string of the pattern. *)

Lemma cat_complete (r1 r2 : regex) (s1 s2 : string) :
  matches r1 s1 -> matches r2 s2 -> matches (cat r1 r2) (s1 +:+ s2).
Proof.
  intros H1 H2. destruct r1; simpl; try by constructor.
  - inversion H1.
  - by inversion H1.
Qed.

Lemma alt_complete_l (r1 r2 : regex) (s : string) :
  matches r1 s -> matches (alt r1 r2) s.
Proof.
  intros H. destruct r1, r2; simpl; try done; try (by apply matches_alt_l); inversion H.
Qed.

Lemma alt_complete_r (r1 r2 : regex) (s : string) :
  matches r2 s -> matches (alt r1 r2) s.
Proof.
  intros H. destruct r1, r2; simpl; try done; try (by apply matches_alt_r); inversion H.
Qed.

Lemma nullable_complete (r : regex) (s : string) :
  matches r s -> s = EmptyString -> nullable r = true.
Proof.
  induction 1 as [|p c Hp|r1 r2 s1 s2 H1 IH1 H2 IH2|r1 r2 s H IH|r1 r2 s H IH
                 |r|r s H IH|r|r s1 s2 H1 IH1 H2 IH2|n r|n r s1 s2 H1 IH1 H2 IH2| |];
    simpl; try done.
  - intros [-> ->]%string_app_eq_nil. by rewrite IH1, IH2.
  - intros ->. by rewrite IH.
  - intros ->. rewrite IH by done. apply orb_true_r.
Qed.

Lemma upto_mono (n : nat) (r : regex) (s : string) :
  matches (Upto n r) s -> matches (Upto (S n) r) s.
Proof.
  revert s. induction n as [|n IH]; intros s H.
  - inversion H; subst. constructor.
  - inversion H as [| | | | | | | | |? ?|? ? s1 s2 H1 H2| |]; subst; [constructor|].
    apply matches_upto_cons; auto.
Qed.

Lemma deriv_complete (r : regex) (s0 : string) :
  matches r s0 -> forall c s, s0 = String c s -> matches (deriv c r) s.
Proof.
  induction 1 as [|p c0 Hp|r1 r2 s1 s2 H1 IH1 H2 IH2|r1 r2 s0 H IH|r1 r2 s0 H IH
                 |r|r s0 H IH|r|r s1 s2 H1 IH1 H2 IH2|n r|n r s1 s2 H1 IH1 H2 IH2| |];
    intros c s Heq; simpl; try discriminate.
  - injection Heq as -> <-. rewrite Hp. constructor.
  - destruct s1 as [|c1 s1].
    + rewrite (nullable_complete r1 EmptyString H1 eq_refl).
      apply alt_complete_r. by apply IH2.
    + rewrite string_app_cons in Heq. injection Heq as -> <-.
      assert (matches (cat (deriv c r1) r2) (s1 +:+ s2)) as Hcat
        by (apply cat_complete; auto).
      destruct (nullable r1); [by apply alt_complete_l | done].
  - apply alt_complete_l. by apply IH.
  - apply alt_complete_r. by apply IH.
  - by apply IH.
  - destruct s1 as [|c1 s1].
    + by apply IH2.
    + rewrite string_app_cons in Heq. injection Heq as -> <-.
      apply cat_complete; auto.
  - destruct s1 as [|c1 s1].
    + specialize (IH2 c s Heq). destruct n as [|n]; simpl in IH2; [inversion IH2|].
      apply cat_sound in IH2.
      inversion IH2 as [| |? ? t1 t2 Ht1 Ht2| | | | | | | | | |]; subst.
      apply cat_complete; [done | by apply upto_mono].
    + rewrite string_app_cons in Heq. injection Heq as -> <-.
      apply cat_complete; auto.
  - injection Heq as <- <-. simpl. constructor.
Qed.

Lemma re_match_complete (r : regex) (s : string) :
  matches r s -> re_match r s = true.
Proof.
  revert r. induction s as [|c s IH]; intros r H; simpl.
  - by eapply nullable_complete.
  - apply IH. by eapply deriv_complete.
Qed.

(** The matcher decides the strings of the pattern. *)
Lemma re_match_spec (r : regex) (s : string) :
  re_match r s = true <-> matches r s.
Proof. split; [apply re_match_sound | apply re_match_complete]. Qed.

End ReFacts.

Section pattern_facts.
Import Re.

Lemma class_spec (p : ascii -> bool) (s : string) :
  matches (Class p) s <-> exists c, s = String c EmptyString /\ p c = true.
Proof.
  split.
  - inversion 1; subst. eauto.
  - intros (c & -> & Hp). by constructor.
Qed.

Lemma upto_class_spec (n : nat) (p : ascii -> bool) (u : string) :
  matches (Upto n (Class p)) u <->
  (String.length u <= n)%nat /\ Py.all_chars p u = true.
Proof.
  split.
  - revert u. induction n as [|n IH]; intros u H.
    + inversion H; subst. done.
    + inversion H as [| | | | | | | | |? ?|? ? s1 s2 H1 H2| |]; subst; [split; [simpl; lia | done]|].
      apply class_spec in H1 as (c & -> & Hp). apply IH in H2 as [Hlen Hall].
      rewrite string_app_single. simpl. rewrite Hp, Hall. split; [lia | done].
  - revert n. induction u as [|c u IH]; intros n [Hlen Hall]; [constructor|].
    simpl in Hlen, Hall. apply andb_true_iff in Hall as [Hp Hall].
    destruct n as [|n]; [lia|].
    apply (matches_upto_cons n (Class p) (String c EmptyString) u).
    + by constructor.
    + apply IH. split; [lia | done].
Qed.

Lemma label_pattern_spec (l : string) :
  matches label_pattern l <-> is_label l.
Proof.
  unfold label_pattern, alnum_class, alnum_hyphen_class, is_label. split.
  - intros H. inversion H as [| |? ? s1 s2 H1 H2| | | | | | | | | |]; subst.
    apply class_spec in H1 as (c & -> & Hc). exists c. split; [done|].
    inversion H2 as [| | | | |?|? ? H3| | | | | |]; subst; [by left | right].
    inversion H3 as [| |? ? t1 t2 Ht1 Ht2| | | | | | | | | |]; subst.
    apply upto_class_spec in Ht1 as [Hlen Hall].
    apply class_spec in Ht2 as (d & -> & Hd).
    exists t1, d. by rewrite string_app_single.
  - intros (c & Hc & [-> | (mid & d & -> & Hlen & Hall & Hd)]).
    + apply (matches_cat _ _ (String c EmptyString) EmptyString);
        [by constructor | constructor].
    + apply (matches_cat _ _ (String c EmptyString) (mid +:+ String d EmptyString));
        [by constructor|].
      apply matches_opt_some, matches_cat; [by apply upto_class_spec | by constructor].
Qed.

(** What a label looks like from the outside. *)
Lemma is_label_length (l : string) :
  is_label l -> (1 <= String.length l <= 63)%nat.
Proof.
  intros (c & _ & [-> | (mid & d & -> & Hlen & _)]); simpl; [lia|].
  rewrite string_app_length. simpl. lia.
Qed.

Lemma is_alnum_label_char (c : ascii) :
  Py.is_alnum c = true -> is_label_char c = true.
Proof. unfold is_label_char. by intros ->. Qed.

Lemma is_label_chars (l : string) :
  is_label l -> Py.all_chars is_label_char l = true.
Proof.
  intros (c & Hc%is_alnum_label_char & [-> | (mid & d & -> & _ & Hall & Hd%is_alnum_label_char)]);
    simpl.
  - by rewrite Hc.
  - rewrite all_chars_app, Hc, Hall. simpl. by rewrite Hd.
Qed.

Lemma more_labels_sound (t : string) :
  matches more_labels_pattern t ->
  forall l, is_label l -> is_domain_name (l +:+ t).
Proof.
  unfold more_labels_pattern.
  remember (Star (Cat (Class (Ascii.eqb ".")) label_pattern)) as r eqn:Hr.
  induction 1 as [| | | | | | | r0 | r0 s1 s2 H1 _ H2 IH2 | | | |];
    try discriminate; injection Hr as ->; intros l Hl.
  - rewrite string_app_nil_r. by constructor.
  - inversion H1 as [| |? ? u1 u2 Hu1 Hu2| | | | | | | | | |]; subst.
    apply class_spec in Hu1 as (c & -> & Hc). apply Ascii.eqb_eq in Hc as <-.
    apply label_pattern_spec in Hu2.
    rewrite string_app_assoc, string_app_cons. simpl.
    apply domain_name_dot; [done|]. by apply IH2.
Qed.

Lemma more_labels_complete (d : string) :
  is_domain_name d ->
  exists l t, d = l +:+ t /\ is_label l /\ matches more_labels_pattern t.
Proof.
  induction 1 as [l Hl | l d Hl Hd (l' & t & -> & Hl' & Ht)].
  - exists l, EmptyString. rewrite string_app_nil_r. repeat split; [done | constructor].
  - exists l, (String "." l' +:+ t). repeat split; [done|].
    apply (matches_star_cons _ (String "." l') t); [|done].
    apply (matches_cat _ _ (String "." EmptyString) l'); [by constructor|].
    by apply label_pattern_spec.
Qed.

(** The pattern stands for the domain names, each with or without one
    newline after it. *)
Lemma domain_pattern_spec (s : string) :
  matches domain_pattern s <->
  exists d, is_domain_name d /\ (s = d \/ s = d +:+ newline).
Proof.
  unfold domain_pattern. split.
  - intros H. inversion H as [| |? ? l s2 Hl H2| | | | | | | | | |]; subst.
    inversion H2 as [| |? ? t e Ht He| | | | | | | | | |]; subst.
    apply label_pattern_spec in Hl.
    exists (l +:+ t). split; [by apply more_labels_sound|].
    inversion He; subst.
    + left. by rewrite string_app_nil_r.
    + right. by rewrite string_app_assoc.
  - intros (d & (l & t & -> & Hl & Ht)%more_labels_complete & [-> | ->]).
    + apply matches_cat; [by apply label_pattern_spec|].
      rewrite <- (string_app_nil_r t). apply matches_cat; [done | constructor].
    + rewrite string_app_assoc.
      apply matches_cat; [by apply label_pattern_spec|].
      apply matches_cat; [done | constructor].
Qed.

End pattern_facts.

Lemma validate_domain_ok_iff (s v : string) :
  validate_domain s = Ok v <-> Re.re_match domain_pattern s = true /\ v = Py.lower s.
Proof.
  unfold validate_domain. destruct (Re.re_match domain_pattern s); simpl.
  - split; [by intros [= <-] | by intros [_ ->]].
  - split; [done | by intros [? _]].
Qed.

(** [validate_domain] returns for the domain names, each with or without one
    newline after it, and raises for every other string. *)
Lemma validate_domain_spec (s v : string) :
  validate_domain s = Ok v <->
  v = Py.lower s /\ exists d, is_domain_name d /\ (s = d \/ s = d +:+ newline).
Proof.
  rewrite validate_domain_ok_iff, ReFacts.re_match_spec, domain_pattern_spec.
  split; intros [? ?]; done.
Qed.

Lemma validate_domain_raises (s : string) :
  ~ (exists d, is_domain_name d /\ (s = d \/ s = d +:+ newline)) ->
  validate_domain s = Raise (ValueError ("Invalid domain format: " +:+ s)).
Proof.
  intros Hno. unfold validate_domain.
  destruct (Re.re_match domain_pattern s) eqn:Hm; [|done].
  exfalso. apply Hno. by apply domain_pattern_spec, ReFacts.re_match_spec.
Qed.

(** The labels of a domain name, as [split(".")] gives them. *)
Lemma split_no_sep (c : ascii) (l : string) :
  Py.has_char c l = false -> Py.split c l = [l].
Proof.
  induction l as [|d l IH]; [done|]. simpl.
  intros [Hcd Hl]%orb_false_iff. rewrite Hcd, IH; done.
Qed.

Lemma split_app_sep (c : ascii) (l d : string) :
  Py.has_char c l = false -> Py.split c (l +:+ String c d) = l :: Py.split c d.
Proof.
  induction l as [|a l IH].
  - intros _. change (EmptyString +:+ String c d) with (String c d).
    simpl. by rewrite Ascii.eqb_refl.
  - intros Hl. rewrite string_app_cons.
    simpl in Hl. apply orb_false_iff in Hl as [Hca Hl].
    simpl. rewrite Hca, IH; done.
Qed.

Lemma label_chars_no_dot (l : string) :
  Py.all_chars is_label_char l = true -> Py.has_char "." l = false.
Proof.
  induction l as [|a l IH]; [done|]. cbn [Py.has_char Py.all_chars].
  intros [Ha Hl]%andb_true_iff. rewrite IH by done.
  destruct (Ascii.eqb_spec "." a) as [<-|]; [|done].
  vm_compute in Ha. discriminate Ha.
Qed.

Lemma is_domain_name_labels (d : string) :
  is_domain_name d -> Forall is_label (Py.split "." d).
Proof.
  induction 1 as [l Hl | l d Hl Hd IH].
  - rewrite split_no_sep by (by apply label_chars_no_dot, is_label_chars).
    by constructor.
  - rewrite split_app_sep by (by apply label_chars_no_dot, is_label_chars).
    by constructor.
Qed.

Lemma is_domain_name_chars (d : string) :
  is_domain_name d -> Py.all_chars is_domain_char d = true.
Proof.
  assert (forall l, Py.all_chars is_label_char l = true ->
                    Py.all_chars is_domain_char l = true) as Hweak.
  { induction l as [|a l IH]; [done|]. simpl. unfold is_domain_char at 1.
    intros [-> Hl]%andb_true_iff. simpl. auto. }
  induction 1 as [l Hl | l d Hl Hd IH].
  - by apply Hweak, is_label_chars.
  - rewrite all_chars_app. simpl. rewrite IH, Hweak by (by apply is_label_chars). done.
Qed.

Lemma is_domain_name_nonempty (d : string) : is_domain_name d -> d <> EmptyString.
Proof.
  intros Hd ->. apply is_domain_name_labels in Hd. simpl in Hd.
  apply Forall_cons in Hd as [Hl%is_label_length _]. simpl in Hl. lia.
Qed.

(** What is right in C7: an accepted string is, up to one final newline, not
    empty, written in the alphabet of domain names, and cut by its dots into
    labels of 1 to 63 characters. *)
Lemma validate_domain_accepts_only (s v : string) :
  validate_domain s = Ok v ->
  exists d, (s = d \/ s = d +:+ newline) /\
    d <> EmptyString /\
    Py.all_chars is_domain_char d = true /\
    Forall (fun l => (1 <= String.length l <= 63)%nat) (Py.split "." d).
Proof.
  intros (_ & d & Hd & Hs)%validate_domain_spec. exists d.
  split; [done|]. split; [by apply is_domain_name_nonempty|].
  split; [by apply is_domain_name_chars|].
  eapply Forall_impl; [by apply is_domain_name_labels|].
  intros l. apply is_label_length.
Qed.

Lemma validate_domain_empty :
  validate_domain EmptyString = Raise (ValueError "Invalid domain format: ").
Proof. reflexivity. Qed.

(** C7, what the code does instead. [$] also matches in front of a newline
    that ends the string: a domain name with a newline after it holds a
    character outside the alphabet and is returned, not refused. *)
Theorem validate_domain_accepts_final_newline (d : string) :
  is_domain_name d ->
  validate_domain (d +:+ newline) = Ok (Py.lower (d +:+ newline)) /\
  Py.all_chars is_domain_char (d +:+ newline) = false.
Proof.
  intros Hd. split.
  - apply validate_domain_spec. split; [done|]. exists d. auto.
  - rewrite all_chars_app. apply andb_false_iff. by right.
Qed.

Lemma validate_domain_accepts_final_newline_witness :
  validate_domain ("example.com" +:+ newline) = Ok (Py.lower ("example.com" +:+ newline)) /\
  Py.all_chars is_domain_char ("example.com" +:+ newline) = false.
Proof.
  apply (validate_domain_accepts_final_newline "example.com").
  apply (domain_name_dot "example" "com").
  - exists "e"%char. split; [reflexivity|]. right. exists "xampl", "e"%char.
    repeat split; simpl; lia.
  - apply domain_name_label. exists "c"%char. split; [reflexivity|]. right.
    exists "o", "m"%char. repeat split; simpl; lia.
Defined.

Lemma validate_domain_newline_example :
  validate_domain ("example.com" +:+ newline) = Ok ("example.com" +:+ newline).
Proof. vm_compute. reflexivity. Qed.

(** * Further properties of the code *)

(** ** Domain validation *)

Lemma lower_app (s1 s2 : string) :
  Py.lower (s1 +:+ s2) = Py.lower s1 +:+ Py.lower s2.
Proof.
  induction s1 as [|c s1 IH]; [done|].
  rewrite string_app_cons. simpl. by rewrite IH.
Qed.

Lemma lower_char_idemp (c : ascii) : Py.lower_char (Py.lower_char c) = Py.lower_char c.
Proof. destruct c as [[] [] [] [] [] [] [] []]; reflexivity. Qed.

Lemma lower_idemp (s : string) : Py.lower (Py.lower s) = Py.lower s.
Proof. induction s as [|c s IH]; [done|]. simpl. by rewrite lower_char_idemp, IH. Qed.

Lemma lower_length (s : string) : String.length (Py.lower s) = String.length s.
Proof. induction s as [|c s IH]; [done|]. simpl. by rewrite IH. Qed.

Lemma is_alnum_lower_char (c : ascii) : Py.is_alnum (Py.lower_char c) = Py.is_alnum c.
Proof. destruct c as [[] [] [] [] [] [] [] []]; reflexivity. Qed.

Lemma is_label_char_lower_char (c : ascii) :
  is_label_char (Py.lower_char c) = is_label_char c.
Proof. destruct c as [[] [] [] [] [] [] [] []]; reflexivity. Qed.

Lemma all_label_chars_lower (s : string) :
  Py.all_chars is_label_char (Py.lower s) = Py.all_chars is_label_char s.
Proof.
  induction s as [|c s IH]; [done|]. simpl.
  by rewrite is_label_char_lower_char, IH.
Qed.

Lemma is_label_lower (l : string) : is_label l -> is_label (Py.lower l).
Proof.
  intros (c & Hc & [-> | (mid & d & -> & Hlen & Hall & Hd)]);
    exists (Py.lower_char c); (split; [by rewrite is_alnum_lower_char|]).
  - by left.
  - right. exists (Py.lower mid), (Py.lower_char d).
    simpl. rewrite lower_app, lower_length, all_label_chars_lower, is_alnum_lower_char.
    done.
Qed.

Lemma is_domain_name_lower (d : string) :
  is_domain_name d -> is_domain_name (Py.lower d).
Proof.
  induction 1 as [l Hl | l d Hl Hd IH].
  - by apply domain_name_label, is_label_lower.
  - rewrite lower_app. apply (domain_name_dot (Py.lower l) (Py.lower d)); [|done].
    by apply is_label_lower.
Qed.

(** X1. [validate_domain] returns the lowered argument exactly for the
    domain names, each with or without one newline after it, and raises
    [ValueError] with the argument in the message for every other string. *)
Theorem validate_domain_accepts_exactly (s : string) :
  ((exists d, is_domain_name d /\ (s = d \/ s = d +:+ newline)) /\
   validate_domain s = Ok (Py.lower s)) \/
  (~ (exists d, is_domain_name d /\ (s = d \/ s = d +:+ newline)) /\
   validate_domain s = Raise (ValueError ("Invalid domain format: " +:+ s))).
Proof.
  destruct (validate_domain s) as [v|e] eqn:Hv.
  - left. apply validate_domain_spec in Hv as [-> Hd]. done.
  - right. assert (~ (exists d, is_domain_name d /\ (s = d \/ s = d +:+ newline))) as Hno.
    { intros Hd. assert (validate_domain s = Ok (Py.lower s)) as Hok
        by (by apply validate_domain_spec).
      congruence. }
    split; [done|]. rewrite <- Hv. by apply validate_domain_raises.
Qed.

(** X2. What [validate_domain] returns is in lower case and is returned
    unchanged when it is validated again. *)
Theorem validate_domain_idempotent (s v : string) :
  validate_domain s = Ok v ->
  is_lowercase v /\ validate_domain v = Ok v.
Proof.
  intros (-> & d & Hd & Hs)%validate_domain_spec.
  split; [apply lower_idemp|].
  apply validate_domain_spec. split; [by rewrite lower_idemp|].
  exists (Py.lower d). split; [by apply is_domain_name_lower|].
  destruct Hs as [-> | ->]; [by left | right]. by rewrite lower_app.
Qed.

Lemma validate_domain_idempotent_witness :
  is_lowercase "example.com" /\ validate_domain "example.com" = Ok "example.com".
Proof.
  apply (validate_domain_idempotent "Example.COM" "example.com").
  vm_compute. reflexivity.
Defined.

(** X3. A string with an empty label, a label of more than 63 characters or
    a character outside letters, digits, hyphen and dot is refused, a single
    final newline apart: of an accepted string, the part before that newline
    is not empty, is written in this alphabet and is cut by its dots into
    labels of 1 to 63 characters. *)
Theorem validate_domain_label_bounds (s v : string) :
  validate_domain s = Ok v ->
  exists d, (s = d \/ s = d +:+ newline) /\
    d <> EmptyString /\
    Py.all_chars is_domain_char d = true /\
    Forall (fun l => (1 <= String.length l <= 63)%nat) (Py.split "." d).
Proof. apply validate_domain_accepts_only. Qed.

Lemma validate_domain_label_bounds_witness :
  exists d, ("a-b.example.com" = d \/ "a-b.example.com" = d +:+ newline) /\
    d <> EmptyString /\
    Py.all_chars is_domain_char d = true /\
    Forall (fun l => (1 <= String.length l <= 63)%nat) (Py.split "." d).
Proof.
  apply (validate_domain_label_bounds "a-b.example.com" "a-b.example.com").
  vm_compute. reflexivity.
Defined.

(** ** Extraction *)

(** The characters of the pieces that the string primitives cut out are
    characters of the string they were cut from. *)

Lemma partition_before_chars (c x : ascii) (s : string) :
  Py.has_char x (Py.partition c s).1.1 = true -> Py.has_char x s = true.
Proof.
  induction s as [|d s IH]; simpl; [done|].
  destruct (Ascii.eqb c d); simpl; [done|].
  destruct (Py.partition c s) as [[before found] after]. simpl in *.
  intros [Hx | Hin]%orb_true_iff; apply orb_true_iff; auto.
Qed.

Lemma partition_after_chars (c x : ascii) (s : string) :
  Py.has_char x (Py.partition c s).2 = true -> Py.has_char x s = true.
Proof.
  induction s as [|d s IH]; simpl; [done|].
  destruct (Ascii.eqb c d); simpl.
  - intros ->. apply orb_true_r.
  - destruct (Py.partition c s) as [[before found] after]. simpl in *.
    intros Hin. rewrite IH by done. apply orb_true_r.
Qed.

Lemma partition_before_no_sep (c : ascii) (s : string) :
  Py.has_char c (Py.partition c s).1.1 = false.
Proof.
  induction s as [|d s IH]; simpl; [done|].
  destruct (Ascii.eqb c d) eqn:Hcd; simpl; [done|].
  destruct (Py.partition c s) as [[before found] after]. simpl in *.
  by rewrite Hcd, IH.
Qed.

Lemma remove_chars_chars (p : ascii -> bool) (x : ascii) (s : string) :
  Py.has_char x (Py.remove_chars p s) = true -> p x = false /\ Py.has_char x s = true.
Proof.
  induction s as [|d s IH]; simpl; [done|].
  destruct (p d) eqn:Hp; simpl.
  - intros [Hx Hin]%IH. split; [done|]. rewrite Hin. apply orb_true_r.
  - intros [Hxd | Hin]%orb_true_iff.
    + apply Ascii.eqb_eq in Hxd as ->. split; [done|]. by rewrite Ascii.eqb_refl.
    + apply IH in Hin as [Hx Hin]. split; [done|]. rewrite Hin. apply orb_true_r.
Qed.

Lemma lstrip_chars (p : ascii -> bool) (x : ascii) (s : string) :
  Py.has_char x (Py.lstrip p s) = true -> Py.has_char x s = true.
Proof.
  induction s as [|d s IH]; simpl; [done|].
  destruct (p d); [|done]. intros Hin. rewrite IH by done. apply orb_true_r.
Qed.

Lemma splitnetloc_chars (x : ascii) (s : string) :
  Py.has_char x (UrlParse.splitnetloc s).1 = true ->
  UrlParse.is_netloc_delim x = false /\ Py.has_char x s = true.
Proof.
  induction s as [|d s IH]; simpl; [done|].
  destruct (UrlParse.is_netloc_delim d) eqn:Hd; simpl; [done|].
  destruct (UrlParse.splitnetloc s) as [domain rest]. simpl in *.
  intros [Hxd | Hin]%orb_true_iff.
  - apply Ascii.eqb_eq in Hxd as ->. split; [done|]. by rewrite Ascii.eqb_refl.
  - apply IH in Hin as [Hx Hin]. split; [done|]. rewrite Hin. apply orb_true_r.
Qed.

Lemma substring_all (s : string) : String.substring 0 (String.length s) s = s.
Proof. induction s as [|c s IH]; [done|]. simpl. by rewrite IH. Qed.

(** After ["//"] comes the text that the netloc is cut from. *)
Lemma startswith_slashes (u : string) :
  Py.startswith "//" u = true ->
  exists rest, u = String "/" (String "/" rest) /\
    String.substring 2 (String.length u - 2) u = rest.
Proof.
  destruct u as [|a [|b rest]]; cbn [Py.startswith]; try done.
  - by rewrite andb_false_r.
  - intros [Ha [Hb _]%andb_true_iff]%andb_true_iff.
    apply Ascii.eqb_eq in Ha as <-. apply Ascii.eqb_eq in Hb as <-.
    exists rest. split; [done|].
    change (String.substring 2 (String.length (String "/" (String "/" rest)) - 2)
              (String "/" (String "/" rest)))
      with (String.substring 0 (String.length rest - 0) rest).
    rewrite Nat.sub_0_r. apply substring_all.
Qed.

Lemma split_scheme_chars (x : ascii) (url : string) :
  Py.has_char x (UrlParse.split_scheme url).2 = true -> Py.has_char x url = true.
Proof.
  unfold UrlParse.split_scheme.
  pose proof (partition_after_chars ":" x url) as Hafter.
  destruct (Py.partition ":" url) as [[before found] after]. simpl in Hafter.
  destruct before as [|c0 before]; [done|].
  destruct (found && Py.is_ascii_alpha c0 &&
            Py.all_chars UrlParse.is_scheme_char (String c0 before)); simpl; auto.
Qed.

Section netloc_facts.

Variable chk : string -> bool.

Lemma urlparse_netloc_spec (url n : string) :
  urlparse_netloc chk url = Ok n ->
  (Py.startswith "//" (after_scheme url) = false /\ n = EmptyString) \/
  (exists rest, after_scheme url = String "/" (String "/" rest) /\
     n = (UrlParse.splitnetloc rest).1).
Proof.
  unfold urlparse_netloc, UrlParse.urlsplit, after_scheme.
  destruct (UrlParse.split_scheme _) as [scheme u]. cbv beta iota. cbn [snd].
  destruct (Py.startswith "//" u) eqn:Hs.
  - destruct (startswith_slashes u Hs) as (rest & -> & Hsub). rewrite Hsub.
    destruct (UrlParse.splitnetloc rest) as [netloc rest'] eqn:Hnet. simpl.
    destruct (_ || _); [by simpl|]. destruct (_ && _); [by simpl|]. simpl.
    destruct (Py.partition "#" rest') as [[u1 f1] fragment].
    destruct (Py.partition "?" u1) as [[u2 f2] query]. simpl.
    intros [= <-]. right. exists rest. by rewrite Hnet.
  - simpl.
    destruct (Py.partition "#" u) as [[u1 f1] fragment].
    destruct (Py.partition "?" u1) as [[u2 f2] query]. simpl.
    intros [= <-]. by left.
Qed.

Lemma after_scheme_chars (x : ascii) (url : string) :
  Py.has_char x (after_scheme url) = true ->
  UrlParse.is_unsafe_byte x = false /\ Py.has_char x url = true.
Proof.
  unfold after_scheme. intros [Hx Hin]%split_scheme_chars%remove_chars_chars.
  split; [done|]. by apply lstrip_chars in Hin.
Qed.

Lemma netloc_chars (x : ascii) (url n : string) :
  urlparse_netloc chk url = Ok n -> Py.has_char x n = true ->
  UrlParse.is_netloc_delim x = false /\ UrlParse.is_unsafe_byte x = false /\
  Py.has_char x url = true.
Proof.
  intros [[_ ->] | (rest & Hu & ->)]%urlparse_netloc_spec Hin; [done|].
  apply splitnetloc_chars in Hin as [Hd Hin]. split; [done|].
  apply (after_scheme_chars x url). rewrite Hu. simpl.
  rewrite Hin. by rewrite !orb_true_r.
Qed.

End netloc_facts.

(** X4. A hostname is in the output exactly when some record has it as its
    netloc up to the first colon, not empty and with a dot. *)
Theorem extract_membership (chk : string -> bool) (urls : list string) (h : string) :
  h ∈ extract_subdomains chk urls <->
  exists url, url ∈ urls /\ hostname_of chk url h.
Proof. apply elem_of_extract_subdomains. Qed.

Lemma sorted_nodup_ext (l k : list string) :
  StronglySorted String.le l -> StronglySorted String.le k ->
  NoDup l -> NoDup k -> (forall x, x ∈ l <-> x ∈ k) -> l = k.
Proof.
  intros Hl Hk Hnl Hnk Hext.
  apply (StronglySorted_unique String.le); [done | done |].
  by apply NoDup_Permutation.
Qed.

(** X5. The output depends on which records there are, not on their order
    or on how often each occurs. *)
Theorem extract_order_independent
    (chk : string -> bool) (urls1 urls2 : list string) :
  (forall url, url ∈ urls1 <-> url ∈ urls2) ->
  extract_subdomains chk urls1 = extract_subdomains chk urls2.
Proof.
  intros Hsame.
  apply sorted_nodup_ext; try apply extract_sorted; try apply extract_NoDup.
  intros h. rewrite !elem_of_extract_subdomains.
  split; intros (url & Hin & Hh); exists url; (split; [by apply Hsame | done]).
Qed.

Lemma extract_order_independent_witness :
  extract_subdomains reject_bracketed
    ["https://b.example.com/"; "https://a.example.com/x"; "https://b.example.com/"]
  = extract_subdomains reject_bracketed
      ["https://a.example.com/x"; "https://b.example.com/"].
Proof.
  apply (extract_order_independent reject_bracketed
           ["https://b.example.com/"; "https://a.example.com/x"; "https://b.example.com/"]
           ["https://a.example.com/x"; "https://b.example.com/"]).
  intros url. rewrite !elem_of_cons, !elem_of_nil. tauto.
Defined.

(** X6. A hostname of the output is not empty and holds no colon, no slash,
    question mark or hash, and no tab, line feed or carriage return; each of
    its characters stands in the record it comes from. *)
Theorem extract_hostname_characters
    (chk : string -> bool) (urls : list string) (h : string) :
  h ∈ extract_subdomains chk urls ->
  h <> EmptyString /\
  Py.has_char ":" h = false /\
  (forall x, Py.has_char x h = true ->
     UrlParse.is_netloc_delim x = false /\ UrlParse.is_unsafe_byte x = false) /\
  exists url, url ∈ urls /\ forall x, Py.has_char x h = true -> Py.has_char x url = true.
Proof.
  intros (url & Hin & n & Hn & -> & Ht & _)%elem_of_extract_subdomains.
  split; [by intros Heq; rewrite Heq in Ht|].
  split; [apply partition_before_no_sep|].
  split.
  - intros x Hx%partition_before_chars.
    destruct (netloc_chars chk x url n Hn Hx) as (? & ? & _). done.
  - exists url. split; [done|]. intros x Hx%partition_before_chars.
    by destruct (netloc_chars chk x url n Hn Hx) as (_ & _ & ?).
Qed.

Lemma extract_hostname_characters_witness :
  "sub.example.com" <> EmptyString /\
  Py.has_char ":" "sub.example.com" = false /\
  (forall x, Py.has_char x "sub.example.com" = true ->
     UrlParse.is_netloc_delim x = false /\ UrlParse.is_unsafe_byte x = false) /\
  exists url, url ∈ ["http://sub.example.com:8080/a?b#c"] /\
    forall x, Py.has_char x "sub.example.com" = true -> Py.has_char x url = true.
Proof.
  apply (extract_hostname_characters reject_bracketed
           ["http://sub.example.com:8080/a?b#c"] "sub.example.com").
  vm_compute. apply list_elem_of_here.
Defined.

(** X7. A record without a slash, such as a bare host name, has no netloc
    and adds nothing: records of this kind alone give the empty output. *)
Theorem extract_ignores_records_without_slash
    (chk : string -> bool) (urls : list string) :
  (forall url, url ∈ urls -> Py.has_char "/" url = false) ->
  extract_subdomains chk urls = [].
Proof.
  intros Hno.
  destruct (extract_subdomains chk urls) as [|h l] eqn:Hout; [done|].
  assert (h ∈ extract_subdomains chk urls) as Hin by (rewrite Hout; apply list_elem_of_here).
  apply elem_of_extract_subdomains in Hin as (url & Hin & n & Hn & -> & Ht & _).
  apply urlparse_netloc_spec in Hn as [[_ ->] | (rest & Hu & _)]; [done|].
  assert (Py.has_char "/" (after_scheme url) = true) as Hslash by (by rewrite Hu).
  apply after_scheme_chars in Hslash as [_ Hslash].
  rewrite (Hno url Hin) in Hslash. done.
Qed.

Lemma extract_ignores_records_without_slash_witness :
  extract_subdomains reject_bracketed ["sub.example.com"; "mailto:me@example.com"] = [].
Proof.
  apply (extract_ignores_records_without_slash reject_bracketed
           ["sub.example.com"; "mailto:me@example.com"]).
  intros url. rewrite !elem_of_cons, elem_of_nil.
  intros [-> | [-> | []]]; reflexivity.
Defined.

(** ** Filtering *)

Section filter_more.

Variable re_search : string -> string -> result bool.

Lemma survives_regex_raises (f : FilterSpec) (s : string) (e : py_exn) :
  regex_rejects re_search f s = Raise e -> survives re_search f s = Raise e.
Proof. unfold survives. by intros ->. Qed.

Lemma survives_regex_ok (f : FilterSpec) (s : string) (b : bool) :
  regex_rejects re_search f s = Ok b ->
  survives re_search f s = Ok (passes re_search f s).
Proof.
  unfold passes, survives. intros ->. simpl.
  destruct b; [done|].
  destruct (min_length_rejects f s); [done|].
  destruct (max_length_rejects f s); [done|].
  by destruct (exclude_words_rejects f s).
Qed.

(** The loop raises the first exception of the regex test, and otherwise
    appends the hostnames that pass. *)
Lemma filter_loop_spec (f : FilterSpec) (subdomains filtered : list string) :
  filter_loop re_search f subdomains filtered =
  match first_regex_error re_search f subdomains with
  | Some e => Raise e
  | None => Ok (filtered ++ List.filter (passes re_search f) subdomains)
  end.
Proof.
  revert filtered. induction subdomains as [|s rest IH]; intros filtered; simpl.
  - by rewrite app_nil_r.
  - destruct (regex_rejects re_search f s) as [b|e] eqn:Hrx.
    + rewrite (survives_regex_ok f s b Hrx). simpl. rewrite IH.
      destruct (first_regex_error re_search f rest); [done|].
      destruct (passes re_search f s); [by rewrite <- app_assoc | done].
    + by rewrite (survives_regex_raises f s e Hrx).
Qed.

End filter_more.

Lemma existsb_false_iff {A} (p : A -> bool) (l : list A) :
  existsb p l = false <-> forall x, x ∈ l -> p x = false.
Proof.
  induction l as [|a l IH]; simpl.
  - split; [by intros _ x Hx%elem_of_nil | done].
  - rewrite orb_false_iff, IH. split.
    + intros [Ha Hl] x [-> | Hx]%elem_of_cons; auto.
    + intros Hall. split; [apply Hall, list_elem_of_here|].
      intros x Hx. by apply Hall, list_elem_of_further.
Qed.

Lemma passes_accepted (re_search : string -> string -> result bool)
    (f : FilterSpec) (s : string) :
  passes re_search f s = true <-> accepted re_search f s.
Proof.
  unfold passes, survives, accepted, regex_rejects, min_length_rejects,
    max_length_rejects. rewrite exclude_words_rejects_existsb.
  destruct f as [rx mn mx ws]; simpl. split.
  - intros H. repeat split.
    + intros p -> Hp. destruct p as [|c p]; [done|]. simpl in H.
      by destruct (re_search (String c p) s) as [[|]|].
    + intros n -> Hn. destruct rx as [[|c p]|]; simpl in H;
        try (destruct (re_search (String c p) s) as [[|]|]; simpl in H; try done);
        destruct (Z.eqb_spec n 0); try done; simpl in H;
        destruct (Z.ltb_spec (Py.len s) n); try done; lia.
    + intros n -> Hn. destruct rx as [[|c p]|]; simpl in H;
        try (destruct (re_search (String c p) s) as [[|]|]; simpl in H; try done);
        destruct mn as [m|]; simpl in H;
        try (destruct (negb (m =? 0) && (Py.len s <? m)); try done);
        destruct (Z.eqb_spec n 0); try done; simpl in H;
        destruct (Z.gtb_spec (Py.len s) n); try done; lia.
    + intros l w -> Hw. destruct rx as [[|c p]|]; simpl in H;
        try (destruct (re_search (String c p) s) as [[|]|]; simpl in H; try done);
        destruct mn as [m|]; simpl in H;
        try (destruct (negb (m =? 0) && (Py.len s <? m)); try done);
        destruct mx as [m'|]; simpl in H;
        try (destruct (negb (m' =? 0) && (Py.len s >? m')); try done);
        destruct (existsb _ l) eqn:Hex; try done;
        by apply (proj1 (existsb_false_iff _ l) Hex).
  - intros (Hrx & Hmn & Hmx & Hws).
    assert (match rx with
            | Some pattern =>
                if Py.truthy pattern
                then re_search pattern s ≫= (fun found : bool => Ok (negb found))
                else Ok false
            | None => Ok false
            end = Ok false) as ->.
    { destruct rx as [[|c p]|]; try done. simpl. by rewrite (Hrx (String c p)). }
    simpl.
    assert (match mn with
            | Some n => negb (n =? 0) && (Py.len s <? n)
            | None => false
            end = false) as ->.
    { destruct mn as [n|]; [|done]. destruct (Z.eqb_spec n 0); [done|]. simpl.
      specialize (Hmn n eq_refl n0). by destruct (Z.ltb_spec (Py.len s) n); [lia|]. }
    assert (match mx with
            | Some n => negb (n =? 0) && (Py.len s >? n)
            | None => false
            end = false) as ->.
    { destruct mx as [n|]; [|done]. destruct (Z.eqb_spec n 0); [done|]. simpl.
      specialize (Hmx n eq_refl n0). by destruct (Z.gtb_spec (Py.len s) n); [lia|]. }
    assert (match ws with
            | Some words => existsb (fun word => Py.contains word (Py.lower s)) words
            | None => false
            end = false) as ->; [|done].
    destruct ws as [l|]; [|done]. apply existsb_false_iff. intros w Hw. by apply (Hws l).
Qed.

Lemma list_filter_sublist {A} (p : A -> bool) (l : list A) :
  sublist (List.filter p l) l.
Proof.
  induction l as [|a l IH]; simpl; [constructor|].
  destruct (p a); by constructor.
Qed.

Lemma elem_of_list_filter {A} (p : A -> bool) (l : list A) (x : A) :
  x ∈ List.filter p l <-> x ∈ l /\ p x = true.
Proof. rewrite !list_elem_of_In. apply filter_In. Qed.

Lemma list_filter_all {A} (p : A -> bool) (l : list A) :
  (forall x, x ∈ l -> p x = true) -> List.filter p l = l.
Proof.
  induction l as [|a l IH]; intros Hall; simpl; [done|].
  rewrite (Hall a) by apply list_elem_of_here.
  rewrite IH; [done|]. intros x Hx. by apply Hall, list_elem_of_further.
Qed.

Lemma list_filter_none {A} (p : A -> bool) (l : list A) :
  (forall x, x ∈ l -> p x = false) -> List.filter p l = [].
Proof.
  induction l as [|a l IH]; intros Hall; simpl; [done|].
  rewrite (Hall a) by apply list_elem_of_here.
  apply IH. intros x Hx. by apply Hall, list_elem_of_further.
Qed.

Lemma filter_subdomains_spec (re_search : string -> string -> result bool)
    (subdomains : list string) (f : FilterSpec) :
  filter_subdomains re_search subdomains (Some f) =
  match first_regex_error re_search f subdomains with
  | Some e => Raise e
  | None => Ok (List.filter (passes re_search f) subdomains)
  end.
Proof. by rewrite filter_subdomains_loop, filter_loop_spec. Qed.

Lemma filter_subdomains_ok (re_search : string -> string -> result bool)
    (subdomains out : list string) (f : FilterSpec) :
  filter_subdomains re_search subdomains (Some f) = Ok out ->
  first_regex_error re_search f subdomains = None /\
  out = List.filter (passes re_search f) subdomains.
Proof.
  rewrite filter_subdomains_spec.
  destruct (first_regex_error re_search f subdomains); [done|]. by intros [= <-].
Qed.

(** X8. When the filter returns, it returns the hostnames that meet every
    test of the dictionary, in the order of the input and none of them
    twice as often as it came. *)
Theorem filter_keeps_accepted_in_order
    (re_search : string -> string -> result bool)
    (subdomains out : list string) (f : FilterSpec) :
  filter_subdomains re_search subdomains (Some f) = Ok out ->
  sublist out subdomains /\
  forall s, s ∈ out <-> s ∈ subdomains /\ accepted re_search f s.
Proof.
  intros [_ ->]%filter_subdomains_ok. split; [apply list_filter_sublist|].
  intros s. by rewrite elem_of_list_filter, passes_accepted.
Qed.

Lemma filter_keeps_accepted_in_order_witness :
  sublist ["dev.example.com"]
    ["www.example.com"; "dev.example.com"; "a.example.com"] /\
  forall s, s ∈ ["dev.example.com"] <->
    s ∈ ["www.example.com"; "dev.example.com"; "a.example.com"] /\
    accepted (fun _ _ => Ok true)
      {| regex := None; min_length := Some 14; max_length := None;
         exclude_words := Some ["www"] |} s.
Proof.
  apply (filter_keeps_accepted_in_order (fun _ _ => Ok true)).
  vm_compute. reflexivity.
Defined.

(** X9. An exception of [re.search] is not caught: when the pattern is not
    empty, the filter raises what the first failing search raises, whatever
    the other keys hold and whatever hostnames follow. *)
Theorem filter_raises_first_regex_error
    (re_search : string -> string -> result bool)
    (f : FilterSpec) (pattern : string) (before after : list string)
    (s : string) (e : py_exn) :
  regex f = Some pattern -> pattern <> EmptyString ->
  (forall x, x ∈ before -> exists found, re_search pattern x = Ok found) ->
  re_search pattern s = Raise e ->
  filter_subdomains re_search (before ++ s :: after) (Some f) = Raise e.
Proof.
  intros Hrx Hp Hbefore Hs. rewrite filter_subdomains_spec.
  assert (forall x, regex_rejects re_search f x =
                    re_search pattern x ≫= (fun found : bool => Ok (negb found))) as Hrej.
  { intros x. unfold regex_rejects. rewrite Hrx. by destruct pattern. }
  assert (first_regex_error re_search f (before ++ s :: after) = Some e) as ->; [|done].
  induction before as [|x before IH]; simpl.
  - by rewrite Hrej, Hs.
  - rewrite Hrej. destruct (Hbefore x) as [found ->]; [apply list_elem_of_here|].
    simpl. apply IH. intros y Hy. by apply Hbefore, list_elem_of_further.
Qed.

Lemma filter_raises_first_regex_error_witness :
  filter_subdomains (fun p _ => Raise (ReError p))
    ([] ++ "www.example.com" :: ["dev.example.com"])
    (Some {| regex := Some "("; min_length := None; max_length := None;
             exclude_words := None |})
  = Raise (ReError "(").
Proof.
  apply (filter_raises_first_regex_error (fun p _ => Raise (ReError p))
           {| regex := Some "("; min_length := None; max_length := None;
              exclude_words := None |} "(" [] ["dev.example.com"]
           "www.example.com" (ReError "(")).
  - reflexivity.
  - discriminate.
  - intros x Hx. by apply elem_of_nil in Hx.
  - reflexivity.
Defined.

Lemma contains_empty (s : string) : Py.contains EmptyString s = true.
Proof. by destruct s. Qed.

Lemma filter_with_empty_word
    (re_search : string -> string -> result bool)
    (subdomains words : list string) (f : FilterSpec) :
  exclude_words f = Some words -> EmptyString ∈ words ->
  filter_subdomains re_search subdomains (Some f) =
  match first_regex_error re_search f subdomains with
  | Some e => Raise e
  | None => Ok []
  end.
Proof.
  intros Hws Hin. rewrite filter_subdomains_spec.
  destruct (first_regex_error re_search f subdomains); [done|]. f_equal.
  apply list_filter_none. intros s _.
  destruct (passes re_search f s) eqn:Hp; [|done].
  apply passes_accepted in Hp as (_ & _ & _ & Hex).
  specialize (Hex words EmptyString Hws Hin). by rewrite contains_empty in Hex.
Qed.

(** X10. The empty word is a substring of every hostname: with a word list
    that holds it the filter leaves no hostname (or raises what the regex
    test raises). *)
Theorem filter_empty_exclude_word_drops_all
    (re_search : string -> string -> result bool)
    (subdomains words : list string) (f : FilterSpec) :
  exclude_words f = Some words -> EmptyString ∈ words ->
  filter_subdomains re_search subdomains (Some f) =
  match first_regex_error re_search f subdomains with
  | Some e => Raise e
  | None => Ok []
  end.
Proof. apply filter_with_empty_word. Qed.

Lemma filter_empty_exclude_word_drops_all_witness :
  filter_subdomains (fun _ _ => Ok true) ["www.example.com"; "dev.example.com"]
    (Some (with_exclude_words (Some ["admin"; ""]) no_filters))
  = Ok [].
Proof.
  apply (filter_empty_exclude_word_drops_all (fun _ _ => Ok true)
           ["www.example.com"; "dev.example.com"] ["admin"; ""]
           (with_exclude_words (Some ["admin"; ""]) no_filters)).
  - reflexivity.
  - apply list_elem_of_further, list_elem_of_here.
Defined.

Lemma len_nonneg (s : string) : 0 <= Py.len s.
Proof. unfold Py.len. lia. Qed.

(** X11. A negative [max_length] is taken as a bound like any other and no
    hostname is that short: the filter leaves none (or raises what the regex
    test raises). *)
Theorem filter_negative_max_length_drops_all
    (re_search : string -> string -> result bool)
    (subdomains : list string) (f : FilterSpec) (n : Z) :
  max_length f = Some n -> n < 0 ->
  filter_subdomains re_search subdomains (Some f) =
  match first_regex_error re_search f subdomains with
  | Some e => Raise e
  | None => Ok []
  end.
Proof.
  intros Hmx Hn. rewrite filter_subdomains_spec.
  destruct (first_regex_error re_search f subdomains); [done|]. f_equal.
  apply list_filter_none. intros s _.
  destruct (passes re_search f s) eqn:Hp; [|done].
  apply passes_accepted in Hp as (_ & _ & Hle & _).
  specialize (Hle n Hmx). pose proof (len_nonneg s). lia.
Qed.

Lemma filter_negative_max_length_drops_all_witness :
  filter_subdomains (fun _ _ => Ok true) ["www.example.com"]
    (Some (with_max_length (Some (-1)) no_filters))
  = Ok [].
Proof.
  apply (filter_negative_max_length_drops_all (fun _ _ => Ok true)
           ["www.example.com"] (with_max_length (Some (-1)) no_filters) (-1)).
  - reflexivity.
  - lia.
Defined.

(** X12. Filtering what the filter returned changes nothing. *)
Theorem filter_idempotent
    (re_search : string -> string -> result bool)
    (subdomains out : list string) (f : FilterSpec) :
  filter_subdomains re_search subdomains (Some f) = Ok out ->
  filter_subdomains re_search out (Some f) = Ok out.
Proof.
  intros [Hnone ->]%filter_subdomains_ok. rewrite filter_subdomains_spec.
  assert (first_regex_error re_search f
            (List.filter (passes re_search f) subdomains) = None) as ->.
  { induction subdomains as [|s rest IH]; simpl in *; [done|].
    destruct (regex_rejects re_search f s) as [b|e] eqn:Hrx; [|done].
    destruct (passes re_search f s); simpl; [rewrite Hrx|]; auto. }
  f_equal. apply list_filter_all. by intros x [_ Hx]%elem_of_list_filter.
Qed.

Lemma filter_idempotent_witness :
  filter_subdomains (fun _ _ => Ok true) ["dev.example.com"]
    (Some (with_exclude_words (Some ["www"]) no_filters))
  = Ok ["dev.example.com"].
Proof.
  apply (filter_idempotent (fun _ _ => Ok true)
           ["www.example.com"; "dev.example.com"]).
  vm_compute. reflexivity.
Defined.

Lemma accepted_by_keys (re_search : string -> string -> result bool)
    (f : FilterSpec) (s : string) :
  accepted re_search f s <->
  accepted re_search (only_regex f) s /\ accepted re_search (only_min_length f) s /\
  accepted re_search (only_max_length f) s /\ accepted re_search (only_exclude_words f) s.
Proof.
  unfold accepted. simpl. split.
  - intros (Hrx & Hmn & Hmx & Hws). repeat split; try done; auto.
  - intros ((Hrx & _) & (_ & Hmn & _) & (_ & _ & Hmx & _) & (_ & _ & _ & Hws)).
    repeat split; auto.
Qed.

Lemma passes_by_keys (re_search : string -> string -> result bool)
    (f : FilterSpec) (s : string) :
  passes re_search f s =
  passes re_search (only_regex f) s && passes re_search (only_min_length f) s &&
  passes re_search (only_max_length f) s && passes re_search (only_exclude_words f) s.
Proof.
  apply eq_true_iff_eq. rewrite !andb_true_iff, !passes_accepted, accepted_by_keys.
  tauto.
Qed.

Lemma list_filter_filter {A} (p q : A -> bool) (l : list A) :
  List.filter q (List.filter p l) = List.filter (fun x => p x && q x) l.
Proof.
  induction l as [|a l IH]; simpl; [done|].
  destruct (p a); simpl; [destruct (q a); by rewrite IH | done].
Qed.

Lemma first_regex_error_only_regex (re_search : string -> string -> result bool)
    (f : FilterSpec) (subdomains : list string) :
  first_regex_error re_search (only_regex f) subdomains
  = first_regex_error re_search f subdomains.
Proof. induction subdomains as [|s rest IH]; simpl; [done|]. by rewrite IH. Qed.

Lemma first_regex_error_no_regex (re_search : string -> string -> result bool)
    (f : FilterSpec) (subdomains : list string) :
  regex f = None -> first_regex_error re_search f subdomains = None.
Proof.
  intros Hrx. induction subdomains as [|s rest IH]; simpl; [done|].
  unfold regex_rejects. by rewrite Hrx.
Qed.

Lemma bind_ok {A B} (v : A) (k : A -> result B) : (Ok v ≫= k) = k v.
Proof. reflexivity. Qed.

(** X13. The tests are independent: filtering by the whole dictionary gives
    what filtering by its keys one after the other gives, the regex first. *)
Theorem filter_one_key_at_a_time
    (re_search : string -> string -> result bool)
    (subdomains : list string) (f : FilterSpec) :
  filter_subdomains re_search subdomains (Some f) =
  (by_regex ← filter_subdomains re_search subdomains (Some (only_regex f));
   by_min ← filter_subdomains re_search by_regex (Some (only_min_length f));
   by_max ← filter_subdomains re_search by_min (Some (only_max_length f));
   filter_subdomains re_search by_max (Some (only_exclude_words f))).
Proof.
  rewrite (filter_subdomains_spec re_search subdomains f).
  rewrite (filter_subdomains_spec re_search subdomains (only_regex f)).
  rewrite first_regex_error_only_regex.
  destruct (first_regex_error re_search f subdomains); [done|]. rewrite bind_ok.
  rewrite filter_subdomains_spec, first_regex_error_no_regex, bind_ok by done.
  rewrite filter_subdomains_spec, first_regex_error_no_regex, bind_ok by done.
  rewrite filter_subdomains_spec, first_regex_error_no_regex by done.
  f_equal. rewrite !list_filter_filter.
  apply List.filter_ext. intros s. rewrite passes_by_keys. by rewrite !andb_assoc.
Qed.

(** ** DNS validation *)

(** X14. The lookups are made in order and the first one that raises ends
    the function with its exception, whatever the earlier lookups returned
    and whatever names follow. *)
Theorem dns_raises_first_failure
    (resolve : string -> result (list string))
    (before after : list string) (d : string) (e : py_exn) :
  (forall x, x ∈ before -> exists answers, resolve x = Ok answers) ->
  resolve d = Raise e ->
  dns_check_domain resolve (before ++ d :: after) = Raise e.
Proof.
  intros Hbefore Hd. unfold dns_check_domain. generalize (@nil string) as valid.
  induction before as [|x before IH]; intros valid; simpl.
  - by rewrite Hd.
  - destruct (Hbefore x) as [answers ->]; [apply list_elem_of_here|]. simpl.
    apply IH. intros y Hy. by apply Hbefore, list_elem_of_further.
Qed.

Lemma dns_raises_first_failure_witness :
  dns_check_domain
    (fun d => if Py.startswith "www" d then Ok ["192.0.2.1"]
              else Raise (DnsException LifetimeTimeout))
    (["www.example.com"] ++ "old.example.com" :: ["www2.example.com"])
  = Raise (DnsException LifetimeTimeout).
Proof.
  apply (dns_raises_first_failure
           (fun d => if Py.startswith "www" d then Ok ["192.0.2.1"]
                     else Raise (DnsException LifetimeTimeout))
           ["www.example.com"] ["www2.example.com"] "old.example.com"
           (DnsException LifetimeTimeout)).
  - intros x [-> | []%elem_of_nil]%elem_of_cons. by exists ["192.0.2.1"].
  - reflexivity.
Defined.

(** X15. When no lookup raises, the function returns the names whose answer
    holds a record, in the order of the input. *)
Theorem dns_keeps_names_with_address
    (resolve : string -> result (list string)) (subdomains : list string) :
  (forall d, d ∈ subdomains -> exists answers, resolve d = Ok answers) ->
  dns_check_domain resolve subdomains
  = Ok (filter (fun d => has_address resolve d = true) subdomains).
Proof. intros Hall. unfold dns_check_domain. by rewrite dns_check_loop_ok. Qed.

Lemma dns_keeps_names_with_address_witness :
  dns_check_domain
    (fun d => if Py.startswith "www" d then Ok ["192.0.2.1"] else Ok [])
    ["www.example.com"; "old.example.com"; "www2.example.com"]
  = Ok (filter (fun d => has_address
                  (fun d => if Py.startswith "www" d then Ok ["192.0.2.1"] else Ok [])
                  d = true)
          ["www.example.com"; "old.example.com"; "www2.example.com"]).
Proof.
  apply (dns_keeps_names_with_address
           (fun d => if Py.startswith "www" d then Ok ["192.0.2.1"] else Ok [])
           ["www.example.com"; "old.example.com"; "www2.example.com"]).
  intros d _. destruct (Py.startswith "www" d); eauto.
Defined.

(** ** The retry decorator *)

(** X16. With [max_retries] 0 or less the loop has no turn: the decorated
    function is not called and the wrapper returns [None] without raising. *)
Theorem retry_without_attempts {A : Type}
    (max_retries delay : Z) (func : IO A) (tr : list event) :
  max_retries <= 0 ->
  retry_on_failure max_retries delay func tr = (tr, Ok None).
Proof.
  intros Hn. unfold retry_on_failure, range.
  replace (Z.to_nat max_retries) with 0%nat by lia. done.
Qed.

Lemma retry_without_attempts_witness :
  retry_on_failure 0 2 (fetch_data_with_progress_body unreachable "example.com" default_config) []
  = ([], Ok None).
Proof.
  apply (retry_without_attempts 0 2
           (fetch_data_with_progress_body unreachable "example.com" default_config) []).
  lia.
Defined.

Lemma retry_first_attempt_returns {A : Type}
    (max_retries delay : Z) (func : IO A) (tr tr' : list event) (v : A) :
  1 <= max_retries -> func tr = (tr', Ok v) ->
  retry_on_failure max_retries delay func tr = (tr', Ok (Some v)).
Proof.
  intros Hn Hf. unfold retry_on_failure, range.
  destruct (Z.to_nat max_retries) as [|n] eqn:Hk; [lia|].
  simpl. by rewrite Hf.
Qed.

(** X17. An attempt that returns ends the loop: with at least one attempt
    allowed, a function that returns at once is called once, is not followed
    by a sleep, and its value is handed on. *)
Theorem retry_returns_first_success {A : Type}
    (max_retries delay : Z) (func : IO A) (tr tr' : list event) (v : A) :
  1 <= max_retries -> func tr = (tr', Ok v) ->
  retry_on_failure max_retries delay func tr = (tr', Ok (Some v)).
Proof. apply retry_first_attempt_returns. Qed.

Lemma retry_returns_first_success_witness :
  retry_on_failure 3 2 (fun tr => (tr, Ok 7)) [EvSleep 1] = ([EvSleep 1], Ok (Some 7)).
Proof.
  apply (retry_returns_first_success 3 2 (fun tr => (tr, Ok 7)) [EvSleep 1] [EvSleep 1] 7).
  - lia.
  - reflexivity.
Defined.

(** X18. The decorator keeps to its arguments: around a fetch whose every
    request fails, [max_retries = n + 1] and a [delay] that [time.sleep]
    takes (not negative, at most [max_sleep_seconds]) give [n + 1] attempts
    of one request each, a sleep of [delay] seconds after each attempt but
    the last, and the exception of the last attempt. *)
Theorem retry_exhausts_budget
    (requests_get : list event -> request -> result response)
    (domain : string) (cfg : config) (delay : Z) (n : nat) :
  0 <= delay <= max_sleep_seconds ->
  (forall tr req, exists e, (http_get requests_get req tr).2 = Raise e) ->
  exists e,
    (http_get requests_get (archive_request domain cfg true)
       (concat (replicate n [EvGet (archive_request domain cfg true); EvSleep delay]))).2
    = Raise e /\
    retry_on_failure (Z.of_nat (S n)) delay
      (fetch_data_with_progress_body requests_get domain cfg) []
    = (exhausted_trace n delay (archive_request domain cfg true), Raise e).
Proof. intros Hdelay Hfail. by apply retry_on_failure_exhausts. Qed.

Lemma retry_exhausts_budget_witness :
  exists e,
    (http_get unreachable (archive_request "example.com" default_config true)
       (concat (replicate 4
          [EvGet (archive_request "example.com" default_config true); EvSleep 1]))).2
    = Raise e /\
    retry_on_failure (Z.of_nat 5) 1
      (fetch_data_with_progress_body unreachable "example.com" default_config) []
    = (exhausted_trace 4 1 (archive_request "example.com" default_config true), Raise e).
Proof.
  apply (retry_exhausts_budget unreachable "example.com" default_config 1 4).
  - unfold max_sleep_seconds. lia.
  - intros tr req. by exists (RequestException ConnectionError).
Defined.

Lemma wrapper_loop_shift {A : Type} (max_retries delay : Z) (func : IO A)
    (i k : nat) (tr : list event) :
  wrapper_loop max_retries delay func (Z.of_nat <$> seq (S i) k) tr
  = wrapper_loop (max_retries - 1) delay func (Z.of_nat <$> seq i k) tr.
Proof.
  revert i tr. induction k as [|k IH]; intros i tr; [done|].
  change (Z.of_nat <$> seq (S i) (S k))
    with (Z.of_nat (S i) :: (Z.of_nat <$> seq (S (S i)) k)).
  change (Z.of_nat <$> seq i (S k)) with (Z.of_nat i :: (Z.of_nat <$> seq (S i) k)).
  cbn [wrapper_loop]. destruct (func tr) as [tr' [v|e]]; [done|].
  destruct (Z.eqb_spec (Z.of_nat (S i)) (max_retries - 1));
    destruct (Z.eqb_spec (Z.of_nat i) (max_retries - 1 - 1)); try lia; [done|].
  destruct (time_sleep delay tr') as [tr'' [[]|e']]; [apply IH | done].
Qed.

(** X19. An attempt that raises is the end when it was the only one
    allowed. Otherwise the wrapper sleeps [delay] seconds and goes on as the
    wrapper with one attempt less would, when [time.sleep] takes [delay];
    when it does not, what [time.sleep] raises ends the wrapper there:
    [ValueError] for a negative [delay], [OverflowError] for one beyond
    [max_sleep_seconds] on either side. *)
Theorem retry_after_failure {A : Type}
    (max_retries delay : Z) (func : IO A) (tr tr' : list event) (e : py_exn) :
  func tr = (tr', Raise e) ->
  (max_retries = 1 -> retry_on_failure max_retries delay func tr = (tr', Raise e)) /\
  (2 <= max_retries -> 0 <= delay <= max_sleep_seconds ->
   retry_on_failure max_retries delay func tr
   = retry_on_failure (max_retries - 1) delay func (tr' ++ [EvSleep delay])) /\
  (2 <= max_retries -> - max_sleep_seconds <= delay < 0 ->
   retry_on_failure max_retries delay func tr
   = (tr', Raise (ValueError "sleep length must be non-negative"))) /\
  (2 <= max_retries -> delay < - max_sleep_seconds \/ max_sleep_seconds < delay ->
   retry_on_failure max_retries delay func tr
   = (tr', Raise (OverflowError "timestamp too large to convert to C _PyTime_t"))).
Proof.
  intros Hf.
  assert (2 <= max_retries ->
          retry_on_failure max_retries delay func tr =
          match time_sleep delay tr' with
          | (tr'', Ok _) => retry_on_failure (max_retries - 1) delay func tr''
          | (tr'', Raise e') => (tr'', Raise e')
          end) as Hstep.
  { intros Hn. unfold retry_on_failure, range.
    replace (Z.to_nat max_retries) with (S (Z.to_nat (max_retries - 1))) by lia.
    change (Z.of_nat <$> seq 0 (S (Z.to_nat (max_retries - 1))))
      with (Z.of_nat 0 :: (Z.of_nat <$> seq 1 (Z.to_nat (max_retries - 1)))).
    cbn [wrapper_loop]. rewrite Hf.
    destruct (Z.eqb_spec (Z.of_nat 0) (max_retries - 1)); [lia|].
    destruct (time_sleep delay tr') as [tr'' [[]|e']]; [|done].
    apply wrapper_loop_shift. }
  split; [|split; [|split]].
  - intros ->. unfold retry_on_failure, range. simpl. by rewrite Hf.
  - intros Hn Hd. by rewrite Hstep, time_sleep_nonneg.
  - intros Hn Hd. rewrite Hstep by done. unfold time_sleep.
    destruct (Z.ltb_spec delay (- max_sleep_seconds)); [lia|].
    destruct (Z.ltb_spec max_sleep_seconds delay);
      [unfold max_sleep_seconds in *; lia|].
    by destruct (Z.ltb_spec delay 0); [|lia].
  - intros Hn Hd. rewrite Hstep by done. unfold time_sleep.
    destruct (Z.ltb_spec delay (- max_sleep_seconds)); [done|].
    by destruct (Z.ltb_spec max_sleep_seconds delay); [|lia].
Qed.

Lemma retry_after_failure_witness :
  (3 = 1 -> retry_on_failure 3 2
              (fetch_data_with_progress_body unreachable "example.com" default_config) []
            = ([EvGet (archive_request "example.com" default_config true)],
               Raise (RequestException ConnectionError))) /\
  (2 <= 3 -> 0 <= 2 <= max_sleep_seconds ->
   retry_on_failure 3 2
     (fetch_data_with_progress_body unreachable "example.com" default_config) []
   = retry_on_failure (3 - 1) 2
       (fetch_data_with_progress_body unreachable "example.com" default_config)
       ([EvGet (archive_request "example.com" default_config true)] ++ [EvSleep 2])) /\
  (2 <= 3 -> - max_sleep_seconds <= 2 < 0 ->
   retry_on_failure 3 2
     (fetch_data_with_progress_body unreachable "example.com" default_config) []
   = ([EvGet (archive_request "example.com" default_config true)],
      Raise (ValueError "sleep length must be non-negative"))) /\
  (2 <= 3 -> 2 < - max_sleep_seconds \/ max_sleep_seconds < 2 ->
   retry_on_failure 3 2
     (fetch_data_with_progress_body unreachable "example.com" default_config) []
   = ([EvGet (archive_request "example.com" default_config true)],
      Raise (OverflowError "timestamp too large to convert to C _PyTime_t"))).
Proof.
  apply (retry_after_failure 3 2
           (fetch_data_with_progress_body unreachable "example.com" default_config) []
           [EvGet (archive_request "example.com" default_config true)]
           (RequestException ConnectionError)).
  reflexivity.
Defined.

(** A delay that [time.sleep] refuses ends the wrapper after the first
    failed attempt. *)
Lemma retry_negative_delay_example :
  retry_on_failure 3 (-1)
    (fetch_data_with_progress_body unreachable "example.com" default_config) []
  = ([EvGet (archive_request "example.com" default_config true)],
     Raise (ValueError "sleep length must be non-negative")).
Proof. reflexivity. Qed.

Lemma retry_overlong_delay_example :
  retry_on_failure 3 (max_sleep_seconds + 1)
    (fetch_data_with_progress_body unreachable "example.com" default_config) []
  = ([EvGet (archive_request "example.com" default_config true)],
     Raise (OverflowError "timestamp too large to convert to C _PyTime_t")).
Proof. reflexivity. Qed.

(** ** The lines of a fetched body *)

Lemma rev_app_acc (s acc : string) :
  String.rev_app s acc = String.rev_app s EmptyString +:+ acc.
Proof.
  revert acc. induction s as [|c s IH]; intros acc; simpl; [done|].
  rewrite (IH (String c acc)), (IH (String c EmptyString)).
  by rewrite string_app_assoc.
Qed.

Lemma rev_cons (c : ascii) (s : string) :
  String.rev (String c s) = String.rev s +:+ String c EmptyString.
Proof. unfold String.rev. simpl. apply rev_app_acc. Qed.

Lemma rev_app_distr (s1 s2 : string) :
  String.rev (s1 +:+ s2) = String.rev s2 +:+ String.rev s1.
Proof.
  induction s1 as [|c s1 IH].
  - change (EmptyString +:+ s2) with s2. by rewrite string_app_nil_r.
  - rewrite string_app_cons, !rev_cons, IH. by rewrite string_app_assoc.
Qed.

Lemma rev_involutive (s : string) : String.rev (String.rev s) = s.
Proof.
  induction s as [|c s IH]; [done|].
  by rewrite rev_cons, rev_app_distr, IH.
Qed.

Lemma has_char_app (x : ascii) (s1 s2 : string) :
  Py.has_char x (s1 +:+ s2) = Py.has_char x s1 || Py.has_char x s2.
Proof.
  induction s1 as [|c s1 IH]; [done|].
  rewrite string_app_cons. cbn [Py.has_char]. by rewrite IH, orb_assoc.
Qed.

Lemma has_char_rev (x : ascii) (s : string) :
  Py.has_char x (String.rev s) = Py.has_char x s.
Proof.
  induction s as [|c s IH]; [done|].
  rewrite rev_cons, has_char_app, IH. cbn [Py.has_char].
  rewrite orb_false_r. apply orb_comm.
Qed.

Lemma lstrip_starts_clean (p : ascii -> bool) (s : string) :
  starts_clean p (Py.lstrip p s).
Proof.
  induction s as [|c s IH]; simpl; [done|].
  destruct (p c) eqn:Hp; [done | by simpl].
Qed.

Lemma lstrip_clean_id (p : ascii -> bool) (s : string) :
  starts_clean p s -> Py.lstrip p s = s.
Proof. destruct s as [|c s]; simpl; [done | by intros ->]. Qed.

Lemma lstrip_suffix (p : ascii -> bool) (s : string) :
  exists pre, s = pre +:+ Py.lstrip p s.
Proof.
  induction s as [|c s [pre IH]]; simpl; [by exists EmptyString|].
  destruct (p c).
  - exists (String c pre). by rewrite string_app_cons, <- IH.
  - by exists EmptyString.
Qed.

Lemma strip_clean_ends (s : string) :
  starts_clean Py.isspace (Py.strip s) /\
  starts_clean Py.isspace (String.rev (Py.strip s)).
Proof.
  unfold Py.strip. rewrite rev_involutive. split; [|apply lstrip_starts_clean].
  pose proof (lstrip_starts_clean Py.isspace s) as Ha.
  destruct (lstrip_suffix Py.isspace (String.rev (Py.lstrip Py.isspace s))) as [pre Hpre].
  apply (f_equal String.rev) in Hpre. rewrite rev_involutive, rev_app_distr in Hpre.
  destruct (String.rev (Py.lstrip Py.isspace (String.rev (Py.lstrip Py.isspace s))))
    as [|c t]; [done|].
  rewrite Hpre in Ha. by rewrite string_app_cons in Ha.
Qed.

(** [strip] leaves a stripped string as it is. *)
Lemma strip_idemp (s : string) : Py.strip (Py.strip s) = Py.strip s.
Proof.
  destruct (strip_clean_ends s) as [H1 H2].
  unfold Py.strip at 1.
  by rewrite (lstrip_clean_id _ _ H1), (lstrip_clean_id _ _ H2), rev_involutive.
Qed.

Lemma strip_chars (x : ascii) (s : string) :
  Py.has_char x (Py.strip s) = true -> Py.has_char x s = true.
Proof.
  unfold Py.strip. rewrite has_char_rev. intros H%lstrip_chars.
  rewrite has_char_rev in H. by apply lstrip_chars in H.
Qed.

(** No line of [splitlines] holds a line boundary. *)
Lemma splitlines_go_no_linebreak (after_cr : bool) (cur s l : string) (x : ascii) :
  (forall y, Py.has_char y cur = true -> Py.is_linebreak y = false) ->
  l ∈ Py.splitlines_go after_cr cur s -> Py.has_char x l = true ->
  Py.is_linebreak x = false.
Proof.
  revert after_cr cur. induction s as [|c s IH]; intros after_cr cur Hcur; simpl.
  - destruct (Py.truthy cur); [|by intros ?%elem_of_nil].
    intros [-> | []%elem_of_nil]%elem_of_cons. rewrite has_char_rev. apply Hcur.
  - destruct (after_cr && (Py.code c =? 10)%N); [by apply IH|].
    destruct (Py.is_linebreak c) eqn:Hc.
    + intros [-> | Hin]%elem_of_cons.
      * rewrite has_char_rev. apply Hcur.
      * revert Hin. by apply IH.
    + apply IH. intros y. cbn [Py.has_char].
      intros [Hy | Hy]%orb_true_iff; [|by apply Hcur].
      by apply Ascii.eqb_eq in Hy as ->.
Qed.

Lemma splitlines_no_linebreak (s l : string) (x : ascii) :
  l ∈ Py.splitlines s -> Py.has_char x l = true -> Py.is_linebreak x = false.
Proof. by apply splitlines_go_no_linebreak. Qed.

(** ** File names *)

Lemma sanitize_length (s : string) :
  String.length (sanitize_filename s) = String.length s.
Proof. induction s as [|c s IH]; [done|]. simpl. by rewrite IH. Qed.

Lemma sanitize_no_reserved (s : string) :
  Py.all_chars (fun c => negb (is_reserved_char c)) (sanitize_filename s) = true.
Proof.
  induction s as [|c s IH]; [done|]. cbn [sanitize_filename Py.all_chars].
  rewrite IH, andb_true_r. by destruct (is_reserved_char c) eqn:Hc; [|rewrite Hc].
Qed.

Lemma sanitize_clean_id (s : string) :
  Py.all_chars (fun c => negb (is_reserved_char c)) s = true ->
  sanitize_filename s = s.
Proof.
  induction s as [|c s IH]; [done|]. cbn [sanitize_filename Py.all_chars].
  intros [Hc Hs]%andb_true_iff. rewrite IH by done.
  by destruct (is_reserved_char c).
Qed.

(** X20. [sanitize_filename] keeps the length, leaves no reserved
    character, changes nothing in a name without reserved characters, and so
    changes nothing when applied again. *)
Theorem sanitize_filename_properties (s : string) :
  String.length (sanitize_filename s) = String.length s /\
  Py.all_chars (fun c => negb (is_reserved_char c)) (sanitize_filename s) = true /\
  (Py.all_chars (fun c => negb (is_reserved_char c)) s = true ->
   sanitize_filename s = s) /\
  sanitize_filename (sanitize_filename s) = sanitize_filename s.
Proof.
  split; [apply sanitize_length|]. split; [apply sanitize_no_reserved|].
  split; [apply sanitize_clean_id|]. apply sanitize_clean_id, sanitize_no_reserved.
Qed.

Lemma validated_char_safe (c : ascii) :
  is_validated_char c = true -> is_reserved_char c = false /\ c <> "_"%char.
Proof. destruct c as [[] [] [] [] [] [] [] []]; vm_compute; intros H; by try split. Qed.

Lemma validated_chars (s v : string) :
  validate_domain s = Ok v -> Py.all_chars is_validated_char v = true.
Proof.
  intros (-> & d0 & Hd0%is_domain_name_lower & Hs)%validate_domain_spec.
  assert (exists d, Py.all_chars is_domain_char d = true /\
                    (Py.lower s = d \/ Py.lower s = d +:+ newline)) as (d & Hd & Hv).
  { exists (Py.lower d0). split; [by apply is_domain_name_chars|].
    destruct Hs as [-> | ->]; [by left | right]. by rewrite lower_app. }
  assert (forall t, Py.all_chars is_domain_char t = true ->
                    Py.all_chars is_validated_char t = true) as Hweak.
  { induction t as [|a t IH]; [done|]. cbn [Py.all_chars]. unfold is_validated_char at 1.
    intros [-> Ht]%andb_true_iff. simpl. auto. }
  destruct Hv as [-> | ->]; [by apply Hweak|].
  rewrite all_chars_app, Hweak by done. reflexivity.
Qed.

Lemma py_replace_inj (old new : ascii) (s t : string) :
  Py.has_char new s = false -> Py.has_char new t = false ->
  py_replace old new s = py_replace old new t -> s = t.
Proof.
  revert t. induction s as [|a s IH]; intros [|b t]; cbn [py_replace Py.has_char];
    try done.
  intros [Ha Hs]%orb_false_iff [Hb Ht]%orb_false_iff [= Hab Hst].
  rewrite (IH t Hs Ht Hst). f_equal.
  destruct (Ascii.eqb_spec a old) as [->|Hao]; destruct (Ascii.eqb_spec b old) as [->|Hbo];
    try done.
  - subst b. by rewrite Ascii.eqb_refl in Hb.
  - subst a. by rewrite Ascii.eqb_refl in Ha.
Qed.

Lemma validated_no_underscore (v : string) :
  Py.all_chars is_validated_char v = true -> Py.has_char "_" v = false.
Proof.
  induction v as [|c v IH]; [done|]. cbn [Py.all_chars Py.has_char].
  intros [Hc Hv]%andb_true_iff. rewrite IH by done.
  destruct (validated_char_safe c Hc) as [_ Hne].
  by destruct (Ascii.eqb_spec "_" c) as [<-|].
Qed.

Lemma validated_replace_clean (v : string) :
  Py.all_chars is_validated_char v = true ->
  Py.all_chars (fun c => negb (is_reserved_char c)) (py_replace "." "_" v) = true.
Proof.
  induction v as [|c v IH]; [done|]. cbn [Py.all_chars py_replace].
  intros [Hc Hv]%andb_true_iff. rewrite IH by done.
  destruct (validated_char_safe c Hc) as [Hres _].
  destruct (Ascii.eqb c "."); [done | by rewrite Hres].
Qed.

(** X21. For a validated domain [sanitize_filename] has nothing to replace:
    the base name of the output files is the domain with an underscore for
    each dot, and two validated domains that differ have base names that
    differ. *)
Theorem base_name_of_validated_domain (s1 v1 s2 v2 : string) :
  validate_domain s1 = Ok v1 -> validate_domain s2 = Ok v2 ->
  base_name v1 = py_replace "." "_" v1 /\
  (base_name v1 = base_name v2 -> v1 = v2).
Proof.
  intros H1%validated_chars H2%validated_chars. unfold base_name.
  rewrite !sanitize_clean_id by (by apply validated_replace_clean).
  split; [done|].
  apply py_replace_inj; by apply validated_no_underscore.
Qed.

Lemma base_name_of_validated_domain_witness :
  base_name "a.example.com" = py_replace "." "_" "a.example.com" /\
  (base_name "a.example.com" = base_name "a-example.com" ->
   "a.example.com" = "a-example.com").
Proof.
  apply (base_name_of_validated_domain "A.example.com" "a.example.com"
           "a-example.com" "a-example.com"); vm_compute; reflexivity.
Defined.

(** ** A fetch that succeeds *)

(** The lines that the fetch returns for a body. *)
Lemma fetched_lines_spec (body l : string) :
  l ∈ Py.strip <$> filter (fun line => Is_true (Py.truthy (Py.strip line)))
                     (Py.splitlines body) <->
  exists raw, raw ∈ Py.splitlines body /\ l = Py.strip raw /\ l <> EmptyString.
Proof.
  rewrite list_elem_of_fmap. split.
  - intros (raw & -> & [Ht Hin]%list_elem_of_filter). exists raw.
    split; [done|]. split; [done|]. intros Heq. by rewrite Heq in Ht.
  - intros (raw & Hin & -> & Hne). exists raw. split; [done|].
    apply list_elem_of_filter. split; [|done]. by destruct (Py.strip raw).
Qed.

Lemma all_chars_forall (p : ascii -> bool) (s : string) :
  Py.all_chars p s = true <-> forall x, Py.has_char x s = true -> p x = true.
Proof.
  induction s as [|c s IH]; cbn [Py.all_chars Py.has_char].
  - split; [by intros _ x | done].
  - rewrite andb_true_iff, IH. split.
    + intros [Hc Hs] x [Hx | Hx]%orb_true_iff; [|by apply Hs].
      by apply Ascii.eqb_eq in Hx as ->.
    + intros Hall. split.
      * apply Hall. by rewrite Ascii.eqb_refl.
      * intros x Hx. apply Hall. rewrite Hx. apply orb_true_r.
Qed.

Lemma fetched_lines_in_order (raws : list string) :
  Py.strip <$> filter (fun line => Is_true (Py.truthy (Py.strip line))) raws
  = List.filter Py.truthy (Py.strip <$> raws).
Proof.
  induction raws as [|raw raws IH]; [done|]. cbn [fmap list_fmap List.filter].
  destruct (Py.truthy (Py.strip raw)) eqn:Ht.
  - rewrite filter_cons_True by (by rewrite Ht). cbn [fmap list_fmap].
    f_equal. apply IH.
  - rewrite filter_cons_False by (rewrite Ht; by intros []). apply IH.
Qed.

(** X22. A fetch whose two requests are answered makes these two requests,
    the first one streaming, and no sleep; it returns the lines of the second
    answer in their order, each one stripped, without those that are empty
    then: every returned line is not empty, has no blank at either end and
    holds no line boundary. The body of the first answer plays no part. *)
Theorem fetch_success_lines
    (requests_get : list event -> request -> result response)
    (domain : string) (cfg : config) (tr : list event) (r1 r2 : response) :
  (http_get requests_get (archive_request domain cfg true) tr).2 = Ok r1 ->
  (http_get requests_get (archive_request domain cfg false)
     (tr ++ [EvGet (archive_request domain cfg true)])).2 = Ok r2 ->
  exists lines,
    fetch_data_with_progress requests_get domain cfg tr
    = ((tr ++ [EvGet (archive_request domain cfg true)])
         ++ [EvGet (archive_request domain cfg false)],
       Ok (Some lines)) /\
    lines = List.filter Py.truthy (Py.strip <$> Py.splitlines (text r2)) /\
    (forall l, l ∈ lines <->
       exists raw, raw ∈ Py.splitlines (text r2) /\ l = Py.strip raw /\ l <> EmptyString) /\
    Forall (fun l => l <> EmptyString /\ Py.strip l = l /\
                     Py.all_chars (fun c => negb (Py.is_linebreak c)) l = true) lines.
Proof.
  intros H1 H2.
  exists (Py.strip <$> filter (fun line => Is_true (Py.truthy (Py.strip line)))
                         (Py.splitlines (text r2))).
  split; [|split; [apply fetched_lines_in_order|split]].
  - unfold fetch_data_with_progress. apply retry_first_attempt_returns; [lia|].
    unfold fetch_data_with_progress_body.
    pose proof (http_get_trace requests_get (archive_request domain cfg true) tr) as Ht1.
    destruct (http_get requests_get (archive_request domain cfg true) tr) as [tr1 o1].
    simpl in H1, Ht1. subst.
    pose proof (http_get_trace requests_get (archive_request domain cfg false)
                  (tr ++ [EvGet (archive_request domain cfg true)])) as Ht2.
    destruct (http_get requests_get (archive_request domain cfg false)
                (tr ++ [EvGet (archive_request domain cfg true)])) as [tr2 o2].
    simpl in H2, Ht2. by subst.
  - apply fetched_lines_spec.
  - apply Forall_forall. intros l (raw & Hin & -> & Hne)%fetched_lines_spec.
    split; [done|]. split; [apply strip_idemp|].
    apply all_chars_forall. intros x Hx%strip_chars.
    by rewrite (splitlines_no_linebreak _ _ _ Hin Hx).
Qed.

Lemma fetch_success_lines_witness :
  exists lines,
    fetch_data_with_progress two_records "example.com" default_config []
    = (([] ++ [EvGet (archive_request "example.com" default_config true)])
         ++ [EvGet (archive_request "example.com" default_config false)],
       Ok (Some lines)) /\
    lines = List.filter Py.truthy
              (Py.strip <$> Py.splitlines (" https://a.example.com/ " +:+ newline
                                           +:+ newline +:+ "http://b.example.com/x")) /\
    (forall l, l ∈ lines <->
       exists raw,
         raw ∈ Py.splitlines (" https://a.example.com/ " +:+ newline +:+ newline
                              +:+ "http://b.example.com/x") /\
         l = Py.strip raw /\ l <> EmptyString) /\
    Forall (fun l => l <> EmptyString /\ Py.strip l = l /\
                     Py.all_chars (fun c => negb (Py.is_linebreak c)) l = true) lines.
Proof.
  apply (fetch_success_lines two_records "example.com" default_config []
           {| status_code := 200;
              text := " https://a.example.com/ " +:+ newline +:+ newline
                      +:+ "http://b.example.com/x" |}
           {| status_code := 200;
              text := " https://a.example.com/ " +:+ newline +:+ newline
                      +:+ "http://b.example.com/x" |}); reflexivity.
Defined.

(** ** The files that are written *)




Section save_facts.

Variable fs_write : list file_event -> string -> string -> option os_error.
Variable strftime_now : list file_event -> string.
Variable json_dump : json_data -> string.
Variable csv_dump : list string -> list (Z * string) -> string.

Lemma format_content_known (domain : string) (subdomains : list string)
    (fmt : string) (tr : list file_event) :
  is_Some (format_content strftime_now json_dump csv_dump domain subdomains fmt tr)
  <-> known_format fmt = true.
Proof.
  unfold format_content, known_format.
  destruct (String.eqb fmt "txt"); [by split; eauto|].
  destruct (String.eqb fmt "json"); [by split; eauto|].
  destruct (String.eqb fmt "csv"); [by split; eauto|].
  split; [by intros [? ?] | done].
Qed.

Lemma save_formats_spec (domain : string) (subdomains : list string) (output_dir : string)
    (formats : list string) (saved : gmap string string) (tr : list file_event) :
  let run := save_formats fs_write strftime_now json_dump csv_dump
               domain subdomains output_dir formats saved tr in
  written_paths run.1 =
    written_paths tr ++
    (results_file_path domain output_dir <$> List.filter known_format formats) /\
  (forall fmt p, run.2 !! fmt = Some p ->
     saved !! fmt = Some p \/
     (fmt ∈ formats /\ known_format fmt = true /\
      p = results_file_path domain output_dir fmt)).
Proof.
  revert saved tr. induction formats as [|f rest IH]; intros saved tr; simpl.
  - split; [by rewrite app_nil_r | auto].
  - pose proof (format_content_known domain subdomains f tr) as Hknown.
    destruct (format_content strftime_now json_dump csv_dump domain subdomains f tr)
      as [content|].
    + assert (known_format f = true) as Hk by (apply Hknown; eauto). rewrite Hk.
      match goal with |- context [save_formats _ _ _ _ _ _ _ _ ?sv ?t] =>
        destruct (IH sv t) as [Hpaths Hsaved] end.
      split.
      * rewrite Hpaths. unfold written_paths at 1. rewrite omap_app. simpl.
        by rewrite <- app_assoc.
      * intros fmt p Hp. destruct (Hsaved fmt p Hp) as [Hold | (Hin & Hkf & ->)].
        -- destruct (fs_write tr (results_file_path domain output_dir f) content).
           ++ by left.
           ++ destruct (decide (f = fmt)) as [<- | Hne].
              ** rewrite lookup_insert_eq in Hold. injection Hold as <-.
                 right. split; [apply list_elem_of_here | done].
              ** rewrite lookup_insert_ne in Hold by done. by left.
        -- right. split; [by apply list_elem_of_further | done].
    + assert (known_format f = false) as Hk.
      { destruct (known_format f); [|done]. by destruct (proj2 Hknown eq_refl). }
      rewrite Hk. destruct (IH saved tr) as [Hpaths Hsaved]. split; [done|].
      intros fmt p Hp. destruct (Hsaved fmt p Hp) as [Hold | (Hin & Hkf & ->)]; [by left|].
      right. split; [by apply list_elem_of_further | done].
Qed.

(** When every write succeeds, each known format of the list is recorded. *)
Lemma save_formats_all_saved (domain : string) (subdomains : list string)
    (output_dir : string) (formats : list string) (saved : gmap string string)
    (tr : list file_event) (fmt : string) :
  (forall t p c, fs_write t p c = None) ->
  fmt ∈ formats -> known_format fmt = true ->
  (save_formats fs_write strftime_now json_dump csv_dump
     domain subdomains output_dir formats saved tr).2 !! fmt
  = Some (results_file_path domain output_dir fmt).
Proof.
  intros Hok. revert saved tr.
  assert (forall l saved tr,
            saved !! fmt = Some (results_file_path domain output_dir fmt) ->
            (save_formats fs_write strftime_now json_dump csv_dump
               domain subdomains output_dir l saved tr).2 !! fmt
            = Some (results_file_path domain output_dir fmt)) as Hkeep.
  { induction l as [|f l IH]; intros saved tr Hs; simpl; [done|].
    destruct (format_content _ _ _ _ _ f tr) as [content|]; [|by apply IH].
    apply IH. rewrite Hok.
    destruct (decide (f = fmt)) as [<- | Hne];
      [by rewrite lookup_insert_eq | by rewrite lookup_insert_ne]. }
  induction formats as [|f rest IH]; intros saved tr Hin Hk.
  - by apply elem_of_nil in Hin.
  - simpl. pose proof (format_content_known domain subdomains f tr) as Hknown.
    destruct (decide (f = fmt)) as [-> | Hne].
    + destruct (proj2 Hknown Hk) as [content ->].
      apply Hkeep. by rewrite Hok, lookup_insert_eq.
    + apply elem_of_cons in Hin as [-> | Hin]; [done|].
      destruct (format_content _ _ _ _ _ f tr) as [content|]; by apply IH.
Qed.

End save_facts.

(** X24. Once the directory is made, [save_results] does not raise: it
    tries every known format of the list, in the order of the list and
    whether or not an earlier write failed, skips the names it does not
    know, and the dictionary it returns names only formats of the list, each
    with the path of its file. *)
Theorem save_results_best_effort
    (fs_makedirs : list file_event -> string -> option os_error)
    (fs_write : list file_event -> string -> string -> option os_error)
    (strftime_now : list file_event -> string)
    (json_dump : json_data -> string)
    (csv_dump : list string -> list (Z * string) -> string)
    (domain : string) (subdomains : list string) (output_dir : string)
    (formats : list string) (tr : list file_event) :
  fs_makedirs tr output_dir = None ->
  exists tr' saved_files,
    save_results fs_makedirs fs_write strftime_now json_dump csv_dump
      domain subdomains output_dir formats tr = (tr', inr saved_files) /\
    written_paths tr' =
      written_paths tr ++
      (results_file_path domain output_dir <$> List.filter known_format formats) /\
    (forall fmt p, saved_files !! fmt = Some p ->
       fmt ∈ formats /\ known_format fmt = true /\
       p = results_file_path domain output_dir fmt).
Proof.
  intros Hmk. unfold save_results. rewrite Hmk.
  pose proof (save_formats_spec fs_write strftime_now json_dump csv_dump
                domain subdomains output_dir formats ∅ (tr ++ [EvMakedirs output_dir]))
    as [Hpaths Hsaved].
  destruct (save_formats _ _ _ _ _ _ _ _ _ _) as [tr' saved]. simpl in *.
  exists tr', saved. split; [done|]. split.
  - rewrite Hpaths. unfold written_paths at 1. rewrite omap_app. simpl.
    by rewrite app_nil_r.
  - intros fmt p Hp. by destruct (Hsaved fmt p Hp) as [Hempty | ?].
Qed.

Lemma save_results_best_effort_witness :
  exists tr' saved_files,
    save_results fs_ok_makedirs fs_no_json (fun _ => "2025-01-01 00:00:00")
      (fun _ => "{}") (fun _ _ => "index,subdomain")
      "example.com" ["a.example.com"] "out" ["json"; "xml"; "txt"] []
    = (tr', inr saved_files) /\
    written_paths tr' =
      written_paths [] ++
      (results_file_path "example.com" "out" <$>
         List.filter known_format ["json"; "xml"; "txt"]) /\
    (forall fmt p, saved_files !! fmt = Some p ->
       fmt ∈ ["json"; "xml"; "txt"] /\ known_format fmt = true /\
       p = results_file_path "example.com" "out" fmt).
Proof.
  apply (save_results_best_effort fs_ok_makedirs fs_no_json
           (fun _ => "2025-01-01 00:00:00") (fun _ => "{}")
           (fun _ _ => "index,subdomain")
           "example.com" ["a.example.com"] "out" ["json"; "xml"; "txt"] []).
  reflexivity.
Defined.

(** A failed write of one format leaves the other format saved. *)
Lemma save_results_failed_json_example :
  (save_results fs_ok_makedirs fs_no_json (fun _ => "2025-01-01 00:00:00")
     (fun _ => "{}") (fun _ _ => "index,subdomain")
     "example.com" ["a.example.com"] "out" ["json"; "xml"; "txt"] []).2
  = inr {[ "txt" := "out/example_com_subdomains.txt" ]}.
Proof. vm_compute. reflexivity. Qed.

(** X25. On a file system that takes every write, the dictionary that
    [save_results] returns names exactly the known formats of the list, each
    with the path of its file in the output directory. *)
Theorem save_results_all_saved
    (fs_makedirs : list file_event -> string -> option os_error)
    (fs_write : list file_event -> string -> string -> option os_error)
    (strftime_now : list file_event -> string)
    (json_dump : json_data -> string)
    (csv_dump : list string -> list (Z * string) -> string)
    (domain : string) (subdomains : list string) (output_dir : string)
    (formats : list string) (tr : list file_event) :
  fs_makedirs tr output_dir = None ->
  (forall t p c, fs_write t p c = None) ->
  exists tr' saved_files,
    save_results fs_makedirs fs_write strftime_now json_dump csv_dump
      domain subdomains output_dir formats tr = (tr', inr saved_files) /\
    forall fmt p, saved_files !! fmt = Some p <->
      fmt ∈ formats /\ known_format fmt = true /\
      p = results_file_path domain output_dir fmt.
Proof.
  intros Hmk Hok. unfold save_results. rewrite Hmk.
  pose proof (save_formats_spec fs_write strftime_now json_dump csv_dump
                domain subdomains output_dir formats ∅ (tr ++ [EvMakedirs output_dir]))
    as [_ Hsaved].
  pose proof (fun fmt => save_formats_all_saved fs_write strftime_now json_dump csv_dump
                domain subdomains output_dir formats ∅
                (tr ++ [EvMakedirs output_dir]) fmt Hok) as Hall.
  destruct (save_formats _ _ _ _ _ _ _ _ _ _) as [tr' saved]. simpl in *.
  exists tr', saved. split; [done|]. intros fmt p. split.
  - intros Hp. by destruct (Hsaved fmt p Hp) as [Hempty | ?].
  - intros (Hin & Hk & ->). by apply Hall.
Qed.

Lemma save_results_all_saved_witness :
  exists tr' saved_files,
    save_results fs_ok_makedirs fs_ok_write (fun _ => "2025-01-01 00:00:00")
      (fun _ => "{}") (fun _ _ => "index,subdomain")
      "example.com" ["a.example.com"] "out" ["csv"; "txt"] []
    = (tr', inr saved_files) /\
    forall fmt p, saved_files !! fmt = Some p <->
      fmt ∈ ["csv"; "txt"] /\ known_format fmt = true /\
      p = results_file_path "example.com" "out" fmt.
Proof.
  apply (save_results_all_saved fs_ok_makedirs fs_ok_write
           (fun _ => "2025-01-01 00:00:00") (fun _ => "{}")
           (fun _ _ => "index,subdomain")
           "example.com" ["a.example.com"] "out" ["csv"; "txt"] []); reflexivity.
Defined.

(** ** The whole run *)

Lemma StronglySorted_sublist {A} (R : relation A) (l k : list A) :
  sublist l k -> StronglySorted R k -> StronglySorted R l.
Proof.
  induction 1 as [|x l k Hsub IH|x l k Hsub IH]; intros Hk; [done| |].
  - apply StronglySorted_inv in Hk as [Hk Hall]. constructor; [by apply IH|].
    apply Forall_forall. intros y Hy.
    eapply Forall_forall in Hall; [done|]. by eapply elem_of_sublist.
  - apply StronglySorted_inv in Hk as [Hk _]. by apply IH.
Qed.

Lemma dns_check_loop_returns (resolve : string -> result (list string))
    (subdomains valid out : list string) :
  dns_check_loop resolve subdomains valid = Ok out ->
  forall d, d ∈ subdomains -> exists answers, resolve d = Ok answers.
Proof.
  revert valid. induction subdomains as [|x rest IH]; intros valid Hrun d Hd.
  - by apply elem_of_nil in Hd.
  - simpl in Hrun. destruct (resolve x) as [answers|e] eqn:Hx; [|done].
    apply elem_of_cons in Hd as [-> | Hd]; [by exists answers|].
    simpl in Hrun. by eapply IH.
Qed.

Lemma dns_check_domain_ok_inv (resolve : string -> result (list string))
    (subdomains out : list string) :
  dns_check_domain resolve subdomains = Ok out ->
  out = filter (fun d => has_address resolve d = true) subdomains.
Proof.
  intros Hrun. pose proof (dns_check_loop_returns resolve subdomains [] out Hrun) as Hall.
  unfold dns_check_domain in Hrun. rewrite dns_check_loop_ok in Hrun by done.
  by injection Hrun as <-.
Qed.

Section main_facts.

Variable chk : string -> bool.
Variable requests_get : list event -> request -> result response.
Variable resolve : string -> result (list string).
Variable re_search : string -> string -> result bool.
Variable fs_makedirs : list file_event -> string -> option os_error.
Variable fs_write : list file_event -> string -> string -> option os_error.
Variable strftime_now : list file_event -> string.
Variable json_dump : json_data -> string.
Variable csv_dump : list string -> list (Z * string) -> string.
Variable load_config : string -> config.

Local Abbreviation run := (main chk requests_get resolve re_search fs_makedirs fs_write
                   strftime_now json_dump csv_dump load_config).

(** What a completed run went through, stage by stage. *)
Lemma main_completed_inv (a : args) (w w' : world)
    (subdomains : list string) (saved : gmap string string) (raw : string) :
  run a w = (w', Completed subdomains saved raw) ->
  exists domain urls resolved,
    validate_domain (arg_domain a) = Ok domain /\
    (fetch_data_with_progress requests_get domain
       (with_max_results (arg_max_results a) (load_config (arg_config a))) (net w)).2
    = Ok (Some urls) /\
    urls <> [] /\
    raw = raw_file_path domain (arg_output_dir a) /\
    dns_check_domain resolve (extract_subdomains chk urls) = Ok resolved /\
    (if filters_truthy (Some (build_filters a))
     then filter_subdomains re_search resolved (Some (build_filters a))
     else Ok resolved) = Ok subdomains.
Proof.
  unfold main. cbv zeta.
  destruct (validate_domain (arg_domain a)) as [domain|e]; [|done].
  destruct (fetch_data_with_progress _ _ _ _) as [net' [[[|u urls]|]|e]] eqn:Hfetch;
    try done.
  unfold save_raw_data.
  destruct (fs_write (files w) _ _); [done|].
  destruct (dns_check_domain _ _) as [[|d resolved]|e] eqn:Hdns; try done.
  destruct (if filters_truthy _ then _ else _) as [subs|e] eqn:Hf; [|done].
  destruct (save_results _ _ _ _ _ _ _ _ _ _) as [files2 [e|sv]]; [done|].
  intros [= <- <- <- <-]. exists domain, (u :: urls), (d :: resolved).
  rewrite Hfetch. repeat split; done.
Qed.

Lemma accepted_no_keys (f : FilterSpec) (s : string) :
  filters_truthy (Some f) = false -> accepted re_search f s.
Proof.
  destruct f as [[rx|] [mn|] [mx|] [ws|]]; simpl; try discriminate.
  intros _. repeat split; intros; discriminate.
Qed.

Lemma main_completed_output_lemma (a : args) (w w' : world)
    (subdomains : list string) (saved : gmap string string) (raw : string) :
  run a w = (w', Completed subdomains saved raw) ->
  StronglySorted String.le subdomains /\ NoDup subdomains /\
  Forall (fun h => Py.contains "." h = true /\ has_address resolve h = true /\
                   accepted re_search (build_filters a) h) subdomains.
Proof.
  intros (domain & urls & resolved & _ & _ & _ & _ & Hdns & Hf)%main_completed_inv.
  apply dns_check_domain_ok_inv in Hdns.
  assert (sublist resolved (extract_subdomains chk urls)) as Hres
    by (rewrite Hdns; apply sublist_filter).
  assert (sublist subdomains resolved /\
          Forall (accepted re_search (build_filters a)) subdomains) as [Hsub Hacc].
  { destruct (filters_truthy (Some (build_filters a))) eqn:Ht.
    - apply filter_subdomains_ok in Hf as [_ ->]. split; [apply list_filter_sublist|].
      apply Forall_forall. intros h [_ Hh]%elem_of_list_filter.
      by apply passes_accepted.
    - injection Hf as <-. split; [done|].
      apply Forall_forall. intros h _. by apply accepted_no_keys. }
  assert (sublist subdomains (extract_subdomains chk urls)) as Hall by (by etrans).
  split; [eapply StronglySorted_sublist; [done | apply extract_sorted]|].
  split; [eapply sublist_NoDup; [apply extract_NoDup | done]|].
  apply Forall_forall. intros h Hh. split; [|split].
  - eapply extract_dotted, elem_of_sublist; done.
  - assert (h ∈ resolved) as Hr by (by eapply elem_of_sublist).
    rewrite Hdns in Hr. by apply list_elem_of_filter in Hr as [? _].
  - by eapply Forall_forall in Hacc.
Qed.

End main_facts.

(** X26. The hostnames of a run that reaches its last line ascend in the
    order of the strings without a repetition, and each of them has a dot,
    had an address record when it was looked up, and meets every test that
    the command line asked for. *)
Theorem main_completed_output
    (chk : string -> bool)
    (requests_get : list event -> request -> result response)
    (resolve : string -> result (list string))
    (re_search : string -> string -> result bool)
    (fs_makedirs : list file_event -> string -> option os_error)
    (fs_write : list file_event -> string -> string -> option os_error)
    (strftime_now : list file_event -> string)
    (json_dump : json_data -> string)
    (csv_dump : list string -> list (Z * string) -> string)
    (load_config : string -> config)
    (a : args) (w w' : world)
    (subdomains : list string) (saved : gmap string string) (raw : string) :
  main chk requests_get resolve re_search fs_makedirs fs_write
    strftime_now json_dump csv_dump load_config a w
  = (w', Completed subdomains saved raw) ->
  StronglySorted String.le subdomains /\ NoDup subdomains /\
  Forall (fun h => Py.contains "." h = true /\ has_address resolve h = true /\
                   accepted re_search (build_filters a) h) subdomains.
Proof. apply main_completed_output_lemma. Qed.

Lemma main_completed_output_witness :
  StronglySorted String.le ["a.example.com"; "b.example.com"] /\
  NoDup ["a.example.com"; "b.example.com"] /\
  Forall (fun h => Py.contains "." h = true /\ has_address resolves_all h = true /\
                   accepted (fun _ _ => Ok true) (build_filters example_args) h)
    ["a.example.com"; "b.example.com"].
Proof.
  eapply (main_completed_output reject_bracketed two_records resolves_all
            (fun _ _ => Ok true) fs_ok_makedirs fs_ok_write
            (fun _ => "2025-01-01 00:00:00") (fun _ => "{}")
            (fun _ _ => "index,subdomain") (fun _ => default_config)
            example_args fresh_world).
  vm_compute. reflexivity.
Defined.

Lemma save_formats_extends
    (fs_write : list file_event -> string -> string -> option os_error)
    (strftime_now : list file_event -> string)
    (json_dump : json_data -> string)
    (csv_dump : list string -> list (Z * string) -> string)
    (domain : string) (subdomains : list string) (output_dir : string)
    (formats : list string) (saved : gmap string string) (tr : list file_event) :
  exists more,
    (save_formats fs_write strftime_now json_dump csv_dump
       domain subdomains output_dir formats saved tr).1 = tr ++ more.
Proof.
  revert saved tr. induction formats as [|f rest IH]; intros saved tr; simpl.
  - exists []. by rewrite app_nil_r.
  - destruct (format_content _ _ _ _ _ f tr) as [content|]; [|apply IH].
    match goal with |- context [save_formats _ _ _ _ _ _ _ _ ?sv ?t] =>
      destruct (IH sv t) as [more ->] end.
    eexists. by rewrite <- app_assoc.
Qed.

Lemma save_results_extends
    (fs_makedirs : list file_event -> string -> option os_error)
    (fs_write : list file_event -> string -> string -> option os_error)
    (strftime_now : list file_event -> string)
    (json_dump : json_data -> string)
    (csv_dump : list string -> list (Z * string) -> string)
    (domain : string) (subdomains : list string) (output_dir : string)
    (formats : list string) (tr : list file_event) :
  exists more,
    (save_results fs_makedirs fs_write strftime_now json_dump csv_dump
       domain subdomains output_dir formats tr).1 = tr ++ EvMakedirs output_dir :: more.
Proof.
  unfold save_results. destruct (fs_makedirs tr output_dir); [by exists []|].
  destruct (save_formats_extends fs_write strftime_now json_dump csv_dump
              domain subdomains output_dir formats ∅ (tr ++ [EvMakedirs output_dir]))
    as [more Hmore].
  destruct (save_formats _ _ _ _ _ _ _ _ _ _) as [tr' saved]. simpl in *.
  exists more. by rewrite Hmore, <- app_assoc.
Qed.

(** X27. Of the operations of [save_raw_data] and [save_results] on the
    output files, the write of the raw archive lines comes first, before the
    output directory is made: a run either makes none of these operations or
    begins them with the write of the raw file, and when that write fails the
    run ends there with status 1, [save_results] not being called. *)
Theorem main_writes_raw_file_first
    (chk : string -> bool)
    (requests_get : list event -> request -> result response)
    (resolve : string -> result (list string))
    (re_search : string -> string -> result bool)
    (fs_makedirs : list file_event -> string -> option os_error)
    (fs_write : list file_event -> string -> string -> option os_error)
    (strftime_now : list file_event -> string)
    (json_dump : json_data -> string)
    (csv_dump : list string -> list (Z * string) -> string)
    (load_config : string -> config)
    (a : args) (w : world) :
  let run := main chk requests_get resolve re_search fs_makedirs fs_write
               strftime_now json_dump csv_dump load_config a w in
  files run.1 = files w \/
  exists domain content more,
    validate_domain (arg_domain a) = Ok domain /\
    files run.1 =
      files w ++ EvWrite (raw_file_path domain (arg_output_dir a)) content :: more /\
    (forall e, fs_write (files w) (raw_file_path domain (arg_output_dir a)) content
               = Some e ->
       more = [] /\ run.2 = ExitError (OsFailure e) /\ exit_status run.2 = 1).
Proof.
  unfold main. cbv zeta.
  destruct (validate_domain (arg_domain a)) as [domain|e]; [|by left].
  destruct (fetch_data_with_progress _ _ _ _) as [net' [[[|u urls]|]|e]];
    try by left.
  right. exists domain, (py_join newline (u :: urls)).
  unfold save_raw_data.
  destruct (fs_write (files w) _ _) as [e|] eqn:Hw.
  { exists []. split; [done|]. split; [done|]. by intros e' [= <-]. }
  destruct (dns_check_domain _ _) as [[|d resolved]|e];
    try (exists []; split; [done|]; split; [done|]; by intros e').
  destruct (if filters_truthy _ then _ else _) as [subs|e];
    [|exists []; split; [done|]; split; [done|]; by intros e'].
  match goal with |- context [save_results ?mk ?wr ?now ?js ?cs ?dm ?sb ?dir ?fm ?t] =>
    destruct (save_results_extends mk wr now js cs dm sb dir fm t) as [more Hmore];
    destruct (save_results mk wr now js cs dm sb dir fm t) as [files2 [e|sv]] end;
    simpl in Hmore; subst files2;
    (exists (EvMakedirs (arg_output_dir a) :: more); split; [done|];
     split; [by rewrite <- app_assoc | by intros e']).
Qed.

(** X28. A run sends no request for a domain that is refused, and calls
    neither [save_raw_data] nor [save_results] unless the fetch returned one
    line at least: a run that ends for want of data has made no operation on
    the output files. *)
Theorem main_no_output_without_data
    (chk : string -> bool)
    (requests_get : list event -> request -> result response)
    (resolve : string -> result (list string))
    (re_search : string -> string -> result bool)
    (fs_makedirs : list file_event -> string -> option os_error)
    (fs_write : list file_event -> string -> string -> option os_error)
    (strftime_now : list file_event -> string)
    (json_dump : json_data -> string)
    (csv_dump : list string -> list (Z * string) -> string)
    (load_config : string -> config)
    (a : args) (w : world) :
  let run := main chk requests_get resolve re_search fs_makedirs fs_write
               strftime_now json_dump csv_dump load_config a w in
  (net run.1 <> net w -> exists domain, validate_domain (arg_domain a) = Ok domain) /\
  (files run.1 <> files w ->
   exists domain urls,
     validate_domain (arg_domain a) = Ok domain /\
     (fetch_data_with_progress requests_get domain
        (with_max_results (arg_max_results a) (load_config (arg_config a))) (net w)).2
     = Ok (Some urls) /\ urls <> []) /\
  (run.2 = ExitNoData -> files run.1 = files w).
Proof.
  unfold main. cbv zeta.
  destruct (validate_domain (arg_domain a)) as [domain|e]; [|by repeat split].
  destruct (fetch_data_with_progress _ _ _ _) as [net' [[[|u urls]|]|e]] eqn:Hfetch;
    try (by repeat split; eauto).
  split; [by eauto|]. split.
  - intros _. exists domain, (u :: urls). by rewrite Hfetch.
  - unfold save_raw_data. destruct (fs_write (files w) _ _); [done|].
    destruct (dns_check_domain _ _) as [[|d resolved]|e]; try done.
    destruct (if filters_truthy _ then _ else _) as [subs|e]; [|done].
    by destruct (save_results _ _ _ _ _ _ _ _ _ _) as [files2 [e|sv]].
Qed.

(** X29. A lookup that raises ends the run with status 1 after
    [save_raw_data] wrote the raw file and before [save_results] is called:
    of the output files the raw file alone is written, the output directory
    is not made and no result file is. *)
Theorem main_dns_failure_leaves_raw_file
    (chk : string -> bool)
    (requests_get : list event -> request -> result response)
    (resolve : string -> result (list string))
    (re_search : string -> string -> result bool)
    (fs_makedirs : list file_event -> string -> option os_error)
    (fs_write : list file_event -> string -> string -> option os_error)
    (strftime_now : list file_event -> string)
    (json_dump : json_data -> string)
    (csv_dump : list string -> list (Z * string) -> string)
    (load_config : string -> config)
    (a : args) (w : world) (domain : string) (net' : list event)
    (urls : list string) (d : string) (e : py_exn) :
  validate_domain (arg_domain a) = Ok domain ->
  fetch_data_with_progress requests_get domain
    (with_max_results (arg_max_results a) (load_config (arg_config a))) (net w)
  = (net', Ok (Some urls)) ->
  fs_write (files w) (raw_file_path domain (arg_output_dir a)) (py_join newline urls)
  = None ->
  d ∈ extract_subdomains chk urls -> resolve d = Raise e ->
  exists e',
    main chk requests_get resolve re_search fs_makedirs fs_write
      strftime_now json_dump csv_dump load_config a w
    = ({| net := net';
          files := files w ++ [EvWrite (raw_file_path domain (arg_output_dir a))
                                       (py_join newline urls)] |},
       ExitError (PyFailure e')).
Proof.
  intros Hv Hfetch Hw Hd He. unfold main. cbv zeta. rewrite Hv, Hfetch.
  destruct urls as [|u urls].
  { assert (extract_subdomains chk [] = []) as Hnil by (vm_compute; reflexivity).
    rewrite Hnil in Hd. by apply elem_of_nil in Hd. }
  unfold save_raw_data. rewrite Hw.
  destruct (dns_check_loop_raises resolve (extract_subdomains chk (u :: urls)) [] d e Hd He)
    as [e' He'].
  unfold dns_check_domain. rewrite He'. by exists e'.
Qed.

Lemma main_dns_failure_leaves_raw_file_witness :
  exists e',
    main reject_bracketed two_records (fun _ => Raise (DnsException NXDOMAIN))
      (fun _ _ => Ok true) fs_ok_makedirs fs_ok_write
      (fun _ => "2025-01-01 00:00:00") (fun _ => "{}")
      (fun _ _ => "index,subdomain") (fun _ => default_config)
      example_args fresh_world
    = ({| net := [EvGet (archive_request "example.com" default_config true);
                  EvGet (archive_request "example.com" default_config false)];
          files := files fresh_world ++
                   [EvWrite (raw_file_path "example.com" (arg_output_dir example_args))
                      (py_join newline
                         ["https://a.example.com/"; "http://b.example.com/x"])] |},
       ExitError (PyFailure e')).
Proof.
  apply (main_dns_failure_leaves_raw_file reject_bracketed two_records
           (fun _ => Raise (DnsException NXDOMAIN)) (fun _ _ => Ok true)
           fs_ok_makedirs fs_ok_write (fun _ => "2025-01-01 00:00:00") (fun _ => "{}")
           (fun _ _ => "index,subdomain") (fun _ => default_config)
           example_args fresh_world "example.com"
           [EvGet (archive_request "example.com" default_config true);
            EvGet (archive_request "example.com" default_config false)]
           ["https://a.example.com/"; "http://b.example.com/x"]
           "a.example.com" (DnsException NXDOMAIN)).
  - vm_compute. reflexivity.
  - vm_compute. reflexivity.
  - reflexivity.
  - vm_compute. apply list_elem_of_here.
  - reflexivity.
Defined.

Lemma split_endswith_parts (c : ascii) (s : string) :
  py_endswith c s = true ->
  exists x init, Py.split c s = x :: init ++ [EmptyString].
Proof.
  induction s as [|d s IH]; [done|]. cbn [py_endswith Py.split].
  destruct s as [|d' s].
  - intros ->. by exists EmptyString, [].
  - intros (x & init & ->)%IH.
    destruct (Ascii.eqb c d); [by exists EmptyString, (x :: init) | by exists (String d x), init].
Qed.

Lemma split_endswith (c : ascii) (s : string) :
  py_endswith c s = true -> EmptyString ∈ Py.split c s.
Proof.
  intros (x & init & ->)%split_endswith_parts.
  apply list_elem_of_further, elem_of_app. right. apply list_elem_of_here.
Qed.

(** X30. [--exclude-words] is cut at its commas and each piece is stripped,
    so a list that ends in a comma holds the empty word: the filter that
    [main] builds from it leaves no hostname (or raises what the regex test
    raises). *)
Theorem exclude_words_trailing_comma
    (re_search : string -> string -> result bool)
    (a : args) (words : string) (subdomains : list string) :
  arg_exclude_words a = Some words -> py_endswith "," words = true ->
  filters_truthy (Some (build_filters a)) = true /\
  filter_subdomains re_search subdomains (Some (build_filters a)) =
  match first_regex_error re_search (build_filters a) subdomains with
  | Some e => Raise e
  | None => Ok []
  end.
Proof.
  intros Hw Hend.
  assert (exclude_words (build_filters a) = Some (Py.strip <$> Py.split "," words)) as Hex.
  { unfold build_filters. simpl. rewrite Hw.
    destruct words; [discriminate Hend | done]. }
  split.
  - unfold filters_truthy. apply orb_true_iff. right.
    apply bool_decide_eq_true. rewrite Hex. eauto.
  - apply (filter_with_empty_word _ _ (Py.strip <$> Py.split "," words)); [done|].
    apply list_elem_of_fmap. exists EmptyString. split; [done|]. by apply split_endswith.
Qed.

Lemma exclude_words_trailing_comma_witness :
  filters_truthy (Some (build_filters
     {| arg_domain := "example.com"; arg_output_dir := "."; arg_format := ["txt"];
        arg_filter := None; arg_exclude_words := Some "admin, test,";
        arg_min_length := None; arg_max_length := None; arg_max_results := 10000;
        arg_verbose := false; arg_config := "config.ini" |})) = true /\
  filter_subdomains (fun _ _ => Ok true) ["www.example.com"]
    (Some (build_filters
     {| arg_domain := "example.com"; arg_output_dir := "."; arg_format := ["txt"];
        arg_filter := None; arg_exclude_words := Some "admin, test,";
        arg_min_length := None; arg_max_length := None; arg_max_results := 10000;
        arg_verbose := false; arg_config := "config.ini" |}))
  = Ok [].
Proof.
  apply (exclude_words_trailing_comma (fun _ _ => Ok true)
     {| arg_domain := "example.com"; arg_output_dir := "."; arg_format := ["txt"];
        arg_filter := None; arg_exclude_words := Some "admin, test,";
        arg_min_length := None; arg_max_length := None; arg_max_results := 10000;
        arg_verbose := false; arg_config := "config.ini" |}
     "admin, test," ["www.example.com"]); reflexivity.
Defined.
